(** * CDiffTextBuffer (Src/DiffTextBuffer.cpp): a shallow embedding

    The line-oriented text buffer of the merge tool: EOL style detection,
    control-character escaping for the diff engine's temp files, the line
    splitting of [LoadFromFile], the save pipeline of [SaveToFile], the
    sync-point invalidation of [DeleteText2] and the per-line flag
    bookkeeping.

    Conventions.  A [TCHAR] is its integer code (a [Z]); a [String] is the
    list of its characters.  C [int]s are [Z].  Array indices into the line
    store are [nat] (stdpp list lookup and update).  A [DWORD] flag word is
    a [Z] in [0, 2^32), the complement [~] being taken in 32 bits. *)

From Stdlib Require Import ZArith Lia.
From stdpp Require Import base list gmap strings.

Local Open Scope Z_scope.

(** ** Characters and strings *)

Abbreviation TCHAR := Z.
Abbreviation String := (list TCHAR).

(** ** EOL style detector *)

(** [CRLFSTYLE]: AUTOMATIC = -1, DOS = 0, UNIX = 1, MAC = 2, MIXED = 3. *)
Inductive CRLFSTYLE :=
| CRLF_STYLE_AUTOMATIC
| CRLF_STYLE_DOS
| CRLF_STYLE_UNIX
| CRLF_STYLE_MAC
| CRLF_STYLE_MIXED.

Global Instance CRLFSTYLE_eq_dec : EqDecision CRLFSTYLE.
Proof. solve_decision. Defined.

(** [UniMemFile::txtstats]: the reader's aggregate statistics (all [int]). *)
Record txtstats := mk_txtstats {
  ncrlfs : Z;
  ncrs : Z;
  nlfs : Z;
  nlosses : Z
}.

(** The count triple (crlf, cr, lf) as a [txtstats] without losses. *)
Definition eol_counts (crlf cr lf : Z) : txtstats :=
  mk_txtstats crlf cr lf 0.

Definition IsTextFileStylePure (stats : txtstats) : bool :=
  let nType := 0 in
  let nType := if 0 <? ncrlfs stats then nType + 1 else nType in
  let nType := if 0 <? ncrs stats then nType + 1 else nType in
  let nType := if 0 <? nlfs stats then nType + 1 else nType in
  nType <=? 1.

Definition GetTextFileStyle (stats : txtstats) : CRLFSTYLE :=
  if negb (IsTextFileStylePure stats) then CRLF_STYLE_MIXED
  else if nlfs stats <=? ncrlfs stats then
    (if ncrs stats <=? ncrlfs stats then CRLF_STYLE_DOS else CRLF_STYLE_MAC)
  else
    (if ncrs stats <=? nlfs stats then CRLF_STYLE_UNIX else CRLF_STYLE_MAC).

(** More than one of the three counts is nonzero. *)
Definition more_than_one_nonzero (crlf cr lf : Z) : Prop :=
  (crlf ≠ 0 ∧ cr ≠ 0) ∨ (crlf ≠ 0 ∧ lf ≠ 0) ∨ (cr ≠ 0 ∧ lf ≠ 0).

(** The pairwise comparison as the specification words it. *)
Definition pairwise_style (crlf cr lf : Z) : CRLFSTYLE :=
  if (lf <=? crlf) && (cr <=? crlf) then CRLF_STYLE_DOS
  else if cr <=? lf then CRLF_STYLE_UNIX
  else CRLF_STYLE_MAC.

(** The largest count is shared by two of the three kinds. *)
Definition top_count_tied (crlf cr lf : Z) : Prop :=
  (crlf = cr ∧ lf ≤ crlf) ∨ (crlf = lf ∧ cr ≤ crlf) ∨ (cr = lf ∧ crlf ≤ cr).

(** ** Control-character escaper *)

(** The test of the source, [!(c & ~_T('\x1F')) && c != _T('\t')]: a
    control character in the range 0..31 except TAB. *)
Definition is_control (c : TCHAR) : bool :=
  (Z.land c (Z.lnot 0x1F) =? 0) && negb (c =? 9).

(** Digit of the C runtime's integer-to-text conversions: 0-9 then a-z. *)
Definition itot_digit (d : Z) : TCHAR :=
  if d <? 10 then 48 + d else 97 + (d - 10).

Fixpoint itot_digits (fuel : nat) (radix v : Z) (acc : String) : String :=
  match fuel with
  | O => acc
  | S fuel' =>
      let acc' := itot_digit (v mod radix) :: acc in
      if v / radix =? 0 then acc' else itot_digits fuel' radix (v / radix) acc'
  end.

(** The C runtime's [_itot (value, buffer, radix)] for a non-negative
    value: the characters it stores, terminating zero included. *)
Definition _itot (value radix : Z) : String :=
  itot_digits (S (Z.to_nat (Z.log2 value))) radix value [] ++ [0].

(** First loop of [EscapeControlChars]: the buffer length required. *)
Fixpoint escape_length (q : String) (i n : nat) : nat :=
  match i with
  | O => n
  | S i' =>
      let c := q !!! i' in
      escape_length q i' (if is_control c then (n + 3)%nat else n)
  end.

(** Second loop: copy and translate in place, starting at the end. *)
Fixpoint escape_copy (p : String) (i n : nat) : String * nat :=
  match i with
  | O => (p, n)
  | S i' =>
      let c := p !!! i' in
      if is_control c then
        let p := list_inserts (n - 4)%nat (_itot (Z.lor 0x100 c) 16) p in
        let p := <[(n - 1)%nat := 92]> p in
        let c := 0x0F in
        let n := (n - 3)%nat in
        let n := (n - 1)%nat in
        escape_copy (<[n := c]> p) i' n
      else
        let n := (n - 1)%nat in
        escape_copy (<[n := c]> p) i' n
  end.

Definition EscapeControlChars (s : String) : String :=
  let n := escape_length s (length s) (length s) in
  let i := length s in
  let p := resize (n + 1)%nat 0 s in
  let p := fst (escape_copy p i n) in
  resize (length p - 1)%nat 0 p.

(** The escape sequence of one character, as the note above the function
    documents it: lead-in ['\x0F'], high nibble, low nibble, backslash. *)
Definition escape_sequence (c : TCHAR) : String :=
  [0x0F; itot_digit (c / 16); itot_digit (c mod 16); 92].

Definition escape_char (c : TCHAR) : String :=
  if is_control c then escape_sequence c else [c].

(** Number of characters of [s] that are escaped. *)
Definition escaped_count (s : String) : nat :=
  length (filter (λ c, is_control c = true) s).

Definition hex_value (h : TCHAR) : Z :=
  if h <? 58 then h - 48 else h - 97 + 10.

(** Modelled from the spec: the reverse transform of the escaper, which
    DiffTextBuffer.cpp leaves to the consumer of the temp files.  It reads
    the documented pattern (lead-in, high nibble, low nibble, lead-out)
    back into the character it encodes and copies every other character. *)
Fixpoint UnescapeControlChars (s : String) : String :=
  match s with
  | [] => []
  | c :: rest =>
      match rest with
      | h :: l :: b :: rest' =>
          if (c =? 0x0F) && (b =? 92)
          then (16 * hex_value h + hex_value l) :: UnescapeControlChars rest'
          else c :: UnescapeControlChars rest
      | _ => c :: UnescapeControlChars rest
      end
  end.

(** ** Line store *)

(** The per-line flag bits.  Their values are declared in MergeLineFlags.h
    and editlib's LineInfo.h; the development takes them as a parameter. *)
Class LineFlags := {
  LF_INVISIBLE : Z;
  LF_DIFF : Z;
  LF_GHOST : Z;
  LF_TRIVIAL : Z;
  LF_MOVED : Z;
  LF_SNP : Z
}.

(** An assignment of the flags to distinct bits of the flag word, in the
    layout of the merge flags above editlib's own. *)
Definition MergeLineFlags : LineFlags := {|
  LF_INVISIBLE := 0x80000000;
  LF_DIFF := 0x00200000;
  LF_GHOST := 0x00400000;
  LF_TRIVIAL := 0x00800000;
  LF_MOVED := 0x01000000;
  LF_SNP := 0x02000000
|}.

(** A flag is one bit of a 32-bit word. *)
Definition single_bit (f : Z) : Prop := ∃ k, 0 ≤ k < 32 ∧ f = 2 ^ k.

(** What the development assumes of the flag values: each is one bit, and
    the bits that editing clears differ from GHOST and INVISIBLE. *)
Definition flags_independent `{LineFlags} : Prop :=
  Forall single_bit [LF_INVISIBLE; LF_DIFF; LF_GHOST; LF_TRIVIAL; LF_MOVED; LF_SNP]
  ∧ Forall (λ f, f ≠ LF_GHOST ∧ f ≠ LF_INVISIBLE) [LF_DIFF; LF_TRIVIAL; LF_MOVED; LF_SNP].

(** Modelled from the spec: the LogicalLine of the line store (editlib's
    LineInfo): text without its end-of-line marker, the marker, the flag
    word and the revision number. *)
Record LineInfo := mk_LineInfo {
  li_text : String;
  li_eol : String;
  m_dwFlags : Z;
  m_dwRevisionNumber : Z
}.

(** Modelled from the spec: a default-constructed line, as
    [m_aLines.resize] creates them: no text, no marker, no flag. *)
Definition empty_line : LineInfo := mk_LineInfo [] [] 0 0.

Global Instance LineInfo_inhabited : Inhabited LineInfo := populate empty_line.

(** The buffer object: the fields of CDiffTextBuffer and of its base
    classes that the functions below read or write. *)
Record CDiffTextBuffer := mk_buffer {
  m_aLines : list LineInfo;
  m_bInit : bool;
  m_bModified : bool;
  m_nCRLFMode : CRLFSTYLE;
  m_nSyncPosition : Z;
  m_nUndoPosition : Z;
  m_dwCurrentRevisionNumber : Z;
  m_dwRevisionNumberOnSave : Z;
  m_nThisPane : nat;
  m_unpackerSubcode : Z;
  m_strTempPath : string
}.

Definition set_lines (buf : CDiffTextBuffer) (lines : list LineInfo) : CDiffTextBuffer :=
  mk_buffer lines (m_bInit buf) (m_bModified buf) (m_nCRLFMode buf)
    (m_nSyncPosition buf) (m_nUndoPosition buf) (m_dwCurrentRevisionNumber buf)
    (m_dwRevisionNumberOnSave buf) (m_nThisPane buf) (m_unpackerSubcode buf)
    (m_strTempPath buf).

(** [m_aLines[nLineIndex]]; the C++ behaviour is undefined out of range,
    the model reads a default line there. *)
Definition line_at (buf : CDiffTextBuffer) (nLineIndex : Z) : LineInfo :=
  m_aLines buf !!! Z.to_nat nLineIndex.

(** Modelled from the spec: the line count accessor of the base class. *)
Definition GetLineCount (buf : CDiffTextBuffer) : Z :=
  Z.of_nat (length (m_aLines buf)).

(** Modelled from the spec: the length accessor of the base class, the
    length of a line's text without its EOL marker. *)
Definition GetLineLength (buf : CDiffTextBuffer) (nLineIndex : Z) : Z :=
  Z.of_nat (length (li_text (line_at buf nLineIndex))).

(** Modelled from the spec: the full-length accessor of the base class,
    the length of a line's text and of its EOL marker together. *)
Definition GetFullLineLength (buf : CDiffTextBuffer) (nLineIndex : Z) : Z :=
  Z.of_nat (length (li_text (line_at buf nLineIndex))
            + length (li_eol (line_at buf nLineIndex))).

(** Modelled from the spec: the text accessor of the base class, the
    characters of a line: its text immediately followed by its EOL marker. *)
Definition GetLineChars (buf : CDiffTextBuffer) (nLineIndex : Z) : String :=
  li_text (line_at buf nLineIndex) ++ li_eol (line_at buf nLineIndex).

(** Modelled from the spec: the EOL accessor of the base class. *)
Definition GetLineEol (buf : CDiffTextBuffer) (nLineIndex : Z) : String :=
  li_eol (line_at buf nLineIndex).

(** Modelled from the spec: the flags accessor of the base class. *)
Definition GetLineFlags (buf : CDiffTextBuffer) (nLineIndex : Z) : Z :=
  m_dwFlags (line_at buf nLineIndex).

(** Modelled from the spec: the buffer's currently recorded EOL style. *)
Definition GetCRLFMode (buf : CDiffTextBuffer) : CRLFSTYLE := m_nCRLFMode buf.

(** [CString::GetBufferSetLength] followed by [memcpy] of [cch] characters:
    the string is resized and then overwritten from its start. *)
Definition memcpy_into (strLine : String) (src : String) (cch : nat) : String :=
  list_inserts 0 (take cch src) (resize cch 0 strLine).

Definition GetFullLine (buf : CDiffTextBuffer) (nLineIndex : Z) (strLine : String)
  : bool * String :=
  let cchText := GetFullLineLength buf nLineIndex in
  if cchText =? 0 then (false, [])
  else (true, memcpy_into strLine (GetLineChars buf nLineIndex) (Z.to_nat cchText)).

Definition FlagIsSet (buf : CDiffTextBuffer) (line : Z) (flag : Z) : bool :=
  Z.land (m_dwFlags (line_at buf line)) flag =? flag.

(** The complement of a [DWORD]. *)
Definition dword_not (f : Z) : Z := Z.lxor f 0xFFFFFFFF.

(** Modelled from the spec: the flag mutator of the base class, called
    here with the previous-line and view-update options off: it sets or
    clears the bits of [dwFlag] in the flag word of line [nLine].  A
    negative [nLine] is no index of a line and changes nothing here. *)
Definition SetLineFlag (buf : CDiffTextBuffer) (nLine : Z) (dwFlag : Z) (bSet : bool)
  : CDiffTextBuffer :=
  if nLine <? 0 then buf
  else
    let dwNewFlags :=
      if bSet then Z.lor (GetLineFlags buf nLine) dwFlag
      else Z.land (GetLineFlags buf nLine) (dword_not dwFlag) in
    set_lines buf
      (alter (λ li, mk_LineInfo (li_text li) (li_eol li) dwNewFlags (m_dwRevisionNumber li))
         (Z.to_nat nLine) (m_aLines buf)).

(** Modelled from the spec: the base class's handler of the notification
    (GhostTextBuffer.cpp), to which the spec gives no effect on the line
    store. *)
Definition CGhostTextBuffer_OnNotifyLineHasBeenEdited
  (buf : CDiffTextBuffer) (nLine : Z) : CDiffTextBuffer := buf.

Definition OnNotifyLineHasBeenEdited `{LineFlags} (buf : CDiffTextBuffer) (nLine : Z)
  : CDiffTextBuffer :=
  let buf := SetLineFlag buf nLine LF_DIFF false in
  let buf := SetLineFlag buf nLine LF_TRIVIAL false in
  let buf := SetLineFlag buf nLine LF_MOVED false in
  let buf := SetLineFlag buf nLine LF_SNP false in
  CGhostTextBuffer_OnNotifyLineHasBeenEdited buf nLine.

(** ** Load pipeline *)

(** The fields of [PackingInfo] that load and save use. *)
Record PackingInfo := mk_PackingInfo {
  subcode : Z;
  disallowMixedEOL : bool
}.

Definition CR : TCHAR := 13.
Definition LF : TCHAR := 10.

Definition is_eol_char (c : TCHAR) : bool := (c =? CR) || (c =? LF).

(** Modelled from the spec: the line store keeps a line's end-of-line
    marker (CR LF, LF or CR) apart from its text; this splits the trailing
    marker off the characters of a line. *)
Definition split_eol (chars : String) : String * String :=
  match reverse chars with
  | c1 :: rest =>
      match rest with
      | c2 :: rest' =>
          if (c2 =? CR) && (c1 =? LF) then (reverse rest', [CR; LF])
          else if is_eol_char c1 then (reverse rest, [c1])
          else (chars, [])
      | [] => if is_eol_char c1 then ([], [c1]) else (chars, [])
      end
  | [] => ([], [])
  end.

(** Modelled from the spec: [AppendLine] of the base class, which appends
    characters to the line at [nLineIndex] and keeps the line's trailing
    end-of-line marker apart from its text. *)
Definition LineInfo_Append (li : LineInfo) (chars : String) : LineInfo :=
  let '(text, eol) := split_eol (li_text li ++ li_eol li ++ chars) in
  mk_LineInfo text eol (m_dwFlags li) (m_dwRevisionNumber li).

(** Modelled from the spec: [AppendLine] on the line array, at index
    [nLineIndex]. *)
Definition AppendLine (lines : list LineInfo) (nLineIndex : Z) (chars : String)
  : list LineInfo :=
  alter (λ li, LineInfo_Append li chars) (Z.to_nat nLineIndex) lines.

(** What one call of [UniFile::ReadString] hands back: its return value
    and the three out-parameters. *)
Record ReadResult := mk_ReadResult {
  rr_more : bool;
  rr_line : String;
  rr_eol : String;
  rr_lossy : bool
}.

(** [FileLoadResult]: the main result and the lossy modifier. *)
Inductive FRESULT :=
| FRESULT_ERROR
| FRESULT_OK
| FRESULT_OK_IMPURE
| FRESULT_BINARY
| FRESULT_ERROR_UNPACK.

Global Instance FRESULT_eq_dec : EqDecision FRESULT.
Proof. solve_decision. Defined.

(** Modelled from the spec: [InitNew] of the base class, the valid empty
    state: one empty line, initialized and unmodified. *)
Definition InitNew (buf : CDiffTextBuffer) : CDiffTextBuffer :=
  mk_buffer [empty_line] true false CRLF_STYLE_DOS 0 0
    (m_dwCurrentRevisionNumber buf) (m_dwRevisionNumberOnSave buf)
    (m_nThisPane buf) (m_unpackerSubcode buf) (m_strTempPath buf).

Section Load.
(** The line reader (the UniFile interface), with its state made
    explicit. *)
Context {Reader : Type}.
Variable ReadString : Reader → ReadResult * Reader.
Variable GetTxtStats : Reader → txtstats.

(** The manual growth of the line array. *)
Definition grow_arraysize (arraysize : Z) : Z :=
  if arraysize <? 100 * 1024 then arraysize * 2 else arraysize + 100 * 1024.

(** The [do ... while (!done)] loop; [fuel] bounds the number of calls
    of the reader, and [None] is the loop still running at that bound.
    It returns the reader, the line count and the line array. *)
Fixpoint load_loop (fuel : nat) (pufile : Reader) (lineno arraysize : Z)
    (lines : list LineInfo) (preveol : String)
  : option (Reader * Z * list LineInfo) :=
  match fuel with
  | O => None
  | S fuel' =>
      let '(res, pufile) := ReadString pufile in
      let eol := rr_eol res in
      let sline := rr_line res in
      let done := negb (rr_more res) in
      (* if last line had no eol, we can quit *)
      if done && bool_decide (preveol = []) then Some (pufile, lineno, lines)
      else
        (* grow line array *)
        let arraysize' :=
          if lineno =? arraysize then grow_arraysize arraysize else arraysize in
        let lines :=
          if lineno =? arraysize
          then resize (Z.to_nat arraysize') empty_line lines else lines in
        let sline := sline ++ eol in
        let lines := AppendLine lines lineno sline in
        let lineno := lineno + 1 in
        let preveol := eol in
        if done then Some (pufile, lineno, lines)
        else load_loop fuel' pufile lineno arraysize' lines preveol
  end.

(** The line splitting of [LoadFromFile], from the array set-up to the
    final trim of the array. *)
Definition load_lines (fuel : nat) (pufile : Reader)
  : option (Reader * list LineInfo) :=
  let lineno := 0 in
  let arraysize := 500 in
  let lines := resize (Z.to_nat arraysize) empty_line [] in
  (* preveol must be initialized for empty files *)
  let preveol := [LF] in
  match load_loop fuel pufile lineno arraysize lines preveol with
  | None => None
  | Some (pufile, lineno, lines) =>
      Some (pufile, resize (Z.to_nat lineno) empty_line lines)
  end.

(** [LoadFromFile] on a fresh buffer.  [unpack_ok] and [open_ok] are the
    outcomes of the unpack transform and of opening the reader; the
    result is the load result, its lossy modifier (which is also the
    read-only indication) and the buffer.  Encoding set-up and the
    cleanup of the unpacked temp file leave no trace here. *)
Definition LoadFromFile (fuel : nat) (unpack_ok open_ok : bool)
    (infoUnpacker : PackingInfo) (pufile : Reader)
    (nCrlfStyle : CRLFSTYLE) (buf : CDiffTextBuffer)
  : option (FRESULT * bool * CDiffTextBuffer) :=
  if negb unpack_ok then Some (FRESULT_ERROR_UNPACK, false, InitNew buf)
  else
    let m_unpackerSubcode := subcode infoUnpacker in
    if negb open_ok
    then Some (FRESULT_ERROR, false,
               InitNew (mk_buffer (m_aLines buf) (m_bInit buf) (m_bModified buf)
                          (m_nCRLFMode buf) (m_nSyncPosition buf) (m_nUndoPosition buf)
                          (m_dwCurrentRevisionNumber buf) (m_dwRevisionNumberOnSave buf)
                          (m_nThisPane buf) m_unpackerSubcode (m_strTempPath buf)))
    else
      match load_lines fuel pufile with
      | None => None
      | Some (pufile, lines) =>
          (* try to determine current CRLF mode (most frequent) *)
          let nCrlfStyle :=
            if decide (nCrlfStyle = CRLF_STYLE_AUTOMATIC)
            then GetTextFileStyle (GetTxtStats pufile) else nCrlfStyle in
          let buf :=
            mk_buffer lines true false nCrlfStyle 0 0
              (m_dwCurrentRevisionNumber buf) (m_dwRevisionNumberOnSave buf)
              (m_nThisPane buf) m_unpackerSubcode (m_strTempPath buf) in
          let nRetVal :=
            if IsTextFileStylePure (GetTxtStats pufile)
            then FRESULT_OK else FRESULT_OK_IMPURE in
          Some (nRetVal, negb (nlosses (GetTxtStats pufile) =? 0), buf)
      end.
End Load.

(** Modelled from the spec: a line-oriented decoding reader over the
    decoded characters of a file.  Each call yields one line and its EOL
    marker (CR LF, LF, CR, or none for an unterminated last line) and
    counts the marker; once no character is left it reports exhaustion
    with an empty line and an empty marker. *)
Record UniMemFile := mk_UniMemFile {
  um_rest : String;
  um_stats : txtstats
}.

(** Modelled from the spec: the reader's aggregate EOL statistics, one
    count per marker read. *)
Definition count_eol (eol : String) (st : txtstats) : txtstats :=
  match eol with
  | [_; _] => mk_txtstats (ncrlfs st + 1) (ncrs st) (nlfs st) (nlosses st)
  | [c] =>
      if c =? CR then mk_txtstats (ncrlfs st) (ncrs st + 1) (nlfs st) (nlosses st)
      else mk_txtstats (ncrlfs st) (ncrs st) (nlfs st + 1) (nlosses st)
  | _ => st
  end.

(** Modelled from the spec: the reader's scan of one line: the text
    before the first EOL character, the marker found, and what follows. *)
Fixpoint scan_line (chars : String) : String * String * String :=
  match chars with
  | [] => ([], [], [])
  | c :: rest =>
      if c =? LF then ([], [LF], rest)
      else if c =? CR then
        match rest with
        | c' :: rest' => if c' =? LF then ([], [CR; LF], rest') else ([], [CR], rest)
        | [] => ([], [CR], [])
        end
      else
        let '(text, eol, rest') := scan_line rest in (c :: text, eol, rest')
  end.

(** Modelled from the spec: [ReadString] of the reader: one decoded line
    and its EOL marker per call, exhaustion once nothing is left. *)
Definition UniMemFile_ReadString (f : UniMemFile) : ReadResult * UniMemFile :=
  match um_rest f with
  | [] => (mk_ReadResult false [] [] false, f)
  | _ =>
      let '(text, eol, rest) := scan_line (um_rest f) in
      (mk_ReadResult true text eol false, mk_UniMemFile rest (count_eol eol (um_stats f)))
  end.

(** Modelled from the spec: the reader opened on a file's decoded
    content, its statistics at zero. *)
Definition UniMemFile_open (content : String) : UniMemFile :=
  mk_UniMemFile content (mk_txtstats 0 0 0 0).

(** A reader plays a script: it yields the reads of the script in order
    and then reports exhaustion with an empty line and an empty marker. *)
Inductive plays {Reader : Type} (ReadString : Reader → ReadResult * Reader)
  : Reader → list (String * String) → Prop :=
| plays_done r r' lossy :
    ReadString r = (mk_ReadResult false [] [] lossy, r') →
    plays ReadString r []
| plays_read r r' text eol lossy script :
    ReadString r = (mk_ReadResult true text eol lossy, r') →
    plays ReadString r' script →
    plays ReadString r ((text, eol) :: script).

(** The markers a reader may yield. *)
Definition is_eol_marker (eol : String) : Prop :=
  eol = [] ∨ eol = [LF] ∨ eol = [CR] ∨ eol = [CR; LF].

(** A read whose text holds no EOL character and whose marker is one of
    the four. *)
Definition well_formed_read (rd : String * String) : Prop :=
  Forall (λ c, is_eol_char c = false) rd.1 ∧ is_eol_marker rd.2.

(** The LogicalLine of a read. *)
Definition line_of_read (rd : String * String) : LineInfo :=
  mk_LineInfo rd.1 rd.2 0 0.

(** The EOL marker of the last read of a script, [preveol] for the empty
    script. *)
Definition last_eol_from (preveol : String) (script : list (String * String)) : String :=
  match last script with
  | Some rd => rd.2
  | None => preveol
  end.

(** The same when the loop starts: [preveol] is initialized to LF. *)
Definition last_eol (script : list (String * String)) : String :=
  last_eol_from [LF] script.

(** The lines the loop appends for a script, [preveol] being the marker
    of the line before: one per read, and a trailing empty line unless
    the last marker is empty. *)
Definition lines_of_script (preveol : String) (script : list (String * String))
  : list LineInfo :=
  (line_of_read <$> script)
  ++ (if bool_decide (last_eol_from preveol script = []) then [] else [empty_line]).

(** A fresh, uninitialized buffer for pane 0. *)
Definition fresh_buffer : CDiffTextBuffer :=
  mk_buffer [] false false CRLF_STYLE_DOS 0 0 0 0 0%nat 0 EmptyString.

(** ** The owning document and the world around the buffer *)

(** A sync point: one line index per pane. *)
Definition SyncPoint := list Z.

(** Modelled from the spec: the owning document (CMergeDoc) as the buffer
    sees it: its modified flag and the registered sync points. *)
Record CMergeDoc := mk_doc {
  doc_modified : bool;
  doc_syncpoints : list SyncPoint
}.

(** What the buffer asks of its collaborators, in the order of the calls. *)
Inductive Event :=
| EvDeleteSyncPoint (pane : nat) (nLine : Z)
| EvDeleteText (nStartLine nStartChar nEndLine nEndChar : Z)
| EvLogError (path : string).

(** The buffer, its owning document, the files (path to content) and the
    trace of calls, oldest first. *)
Record World := mk_World {
  w_buf : CDiffTextBuffer;
  w_doc : CMergeDoc;
  w_fs : gmap string String;
  w_events : list Event
}.

Definition set_fs (w : World) (fs : gmap string String) : World :=
  mk_World (w_buf w) (w_doc w) fs (w_events w).

Definition add_event (w : World) (e : Event) : World :=
  mk_World (w_buf w) (w_doc w) (w_fs w) (w_events w ++ [e]).

(** [CDiffTextBuffer::SetModified]: the flag of the buffer and the flag
    of the owning document. *)
Definition SetModified (w : World) (bModified : bool) : World :=
  let buf := w_buf w in
  mk_World
    (mk_buffer (m_aLines buf) (m_bInit buf) bModified (m_nCRLFMode buf)
       (m_nSyncPosition buf) (m_nUndoPosition buf) (m_dwCurrentRevisionNumber buf)
       (m_dwRevisionNumberOnSave buf) (m_nThisPane buf) (m_unpackerSubcode buf)
       (m_strTempPath buf))
    (mk_doc bModified (doc_syncpoints (w_doc w)))
    (w_fs w) (w_events w).

(** [m_nSyncPosition = m_nUndoPosition] *)
Definition sync_undo_position (w : World) : World :=
  let buf := w_buf w in
  mk_World
    (mk_buffer (m_aLines buf) (m_bInit buf) (m_bModified buf) (m_nCRLFMode buf)
       (m_nUndoPosition buf) (m_nUndoPosition buf) (m_dwCurrentRevisionNumber buf)
       (m_dwRevisionNumberOnSave buf) (m_nThisPane buf) (m_unpackerSubcode buf)
       (m_strTempPath buf))
    (w_doc w) (w_fs w) (w_events w).

(** [m_dwRevisionNumberOnSave = m_dwCurrentRevisionNumber] *)
Definition remember_revision (w : World) : World :=
  let buf := w_buf w in
  mk_World
    (mk_buffer (m_aLines buf) (m_bInit buf) (m_bModified buf) (m_nCRLFMode buf)
       (m_nSyncPosition buf) (m_nUndoPosition buf) (m_dwCurrentRevisionNumber buf)
       (m_dwCurrentRevisionNumber buf) (m_nThisPane buf) (m_unpackerSubcode buf)
       (m_strTempPath buf))
    (w_doc w) (w_fs w) (w_events w).

(** Modelled from the spec: [TFile::remove].  It deletes the file, and
    throws ([None]) on a file that is not there. *)
Definition TFile_remove (path : string) (w : World) : option World :=
  match w_fs w !! path with
  | Some _ => Some (set_fs w (delete path (w_fs w)))
  | None => None
  end.

(** [try { TFile(path).remove(); } catch (Exception& e) { LogError... }] *)
Definition try_remove (path : string) (w : World) : World :=
  match TFile_remove path w with
  | Some w' => w'
  | None => add_event w (EvLogError path)
  end.

(** Modelled from the spec: [TFile::copyTo], which replaces the
    destination by the content of the file and throws ([None]) when the
    file is not there. *)
Definition TFile_copyTo (path dest : string) (w : World) : option World :=
  match w_fs w !! path with
  | Some content => Some (set_fs w (<[dest := content]> (w_fs w)))
  | None => None
  end.

(** ** Save pipeline *)

Inductive SaveResult := SAVE_DONE | SAVE_FAILED | SAVE_PACK_FAILED.

Global Instance SaveResult_eq_dec : EqDecision SaveResult.
Proof. solve_decision. Defined.

(** Modelled from the spec: the canonical marker of a style
    ([GetStringEol] of the base class). *)
Definition GetStringEol (nCrlfStyle : CRLFSTYLE) : String :=
  match nCrlfStyle with
  | CRLF_STYLE_UNIX => [LF]
  | CRLF_STYLE_MAC => [CR]
  | _ => [CR; LF]
  end.

(** Modelled from the spec: the scan behind [ApparentLastRealLine]: the
    index of the last line met so far that is not a ghost. *)
Fixpoint last_real_line `{LineFlags} (lines : list LineInfo) (i acc : Z) : Z :=
  match lines with
  | [] => acc
  | li :: rest =>
      last_real_line rest (i + 1)
        (if Z.land (m_dwFlags li) LF_GHOST =? 0 then i else acc)
  end.

(** Modelled from the spec: [ApparentLastRealLine] of the ghost buffer,
    the index of the last line that is not a ghost, -1 without one. *)
Definition ApparentLastRealLine `{LineFlags} (buf : CDiffTextBuffer) : Z :=
  last_real_line (m_aLines buf) 0 (-1).

(** What the first half of [SaveToFile] comes to: an early return, or the
    output file written and closed. *)
Inductive WriteStage :=
| Returned (r : SaveResult) (w : World)
| Written (sIntermediateFilename : string) (w : World).

Section Save.
Context `{LineFlags}.
(** [GetOptionsMgr()->GetBool(OPT_ALLOW_MIXED_EOL)] *)
Variable OPT_ALLOW_MIXED_EOL : bool.
(** [env::GetTemporaryFileName], from the temp folder and the files. *)
Variable GetTemporaryFileName : string → gmap string String → string.
(** Whether [UniStdioFile::OpenCreate] succeeds on a path. *)
Variable OpenCreate : string → gmap string String → bool.
(** The external pack transform: its result, the file name it leaves in
    its first argument, and the files afterwards. *)
Variable FileTransform_Packing :
  string → PackingInfo → gmap string String → bool * string * gmap string String.

(** The EOL style [SaveToFile] writes with (the first [if] on
    [nCrlfStyle]). *)
Definition SaveToFile_crlf_style (nCrlfStyle : CRLFSTYLE)
    (infoUnpacker : option PackingInfo) (buf : CDiffTextBuffer) : CRLFSTYLE :=
  if (bool_decide (nCrlfStyle = CRLF_STYLE_AUTOMATIC) && negb OPT_ALLOW_MIXED_EOL)
     || (match infoUnpacker with
         | Some info => disallowMixedEOL info
         | None => false
         end)
  then
    (* get the default nCrlfStyle of the CDiffTextBuffer *)
    GetCRLFMode buf
  else nCrlfStyle.

(** The line loop: [count] lines from [line] on, the text written so far
    being [out]. *)
Fixpoint save_lines (buf : CDiffTextBuffer) (bTempFile : bool)
    (nCrlfStyle : CRLFSTYLE) (count : nat) (line : Z) (out : String) : String :=
  match count with
  | O => out
  | S count' =>
      if negb (Z.land (GetLineFlags buf line) LF_GHOST =? 0)
      then save_lines buf bTempFile nCrlfStyle count' (line + 1) out
      else
        (* get the characters of the line (excluding EOL) *)
        let sLine :=
          if 0 <? GetLineLength buf line
          then take (Z.to_nat (GetLineLength buf line)) (GetLineChars buf line)
          else [] in
        let sLine := if bTempFile then EscapeControlChars sLine else sLine in
        let lastRealLine := ApparentLastRealLine buf in
        if (line =? lastRealLine) || (lastRealLine =? -1)
        then
          (* write the line and exit loop *)
          out ++ sLine
        else
          let sLine :=
            if bool_decide (nCrlfStyle = CRLF_STYLE_AUTOMATIC)
               || bool_decide (nCrlfStyle = CRLF_STYLE_MIXED)
            then sLine ++ GetLineEol buf line
            else sLine ++ GetStringEol nCrlfStyle in
          save_lines buf bTempFile nCrlfStyle count' (line + 1) (out ++ sLine)
  end.

(** [SaveToFile] up to [file.Close()].  A file's content is the text
    written to it; the encoding of the writer and its BOM are not
    modelled. *)
Definition SaveToFile_write (w : World) (pszFileName : string) (bTempFile : bool)
    (infoUnpacker : option PackingInfo) (nCrlfStyle : CRLFSTYLE)
    (nStartLine nLines : Z) : WriteStage :=
  let buf := w_buf w in
  let nLines := if nLines =? -1 then GetLineCount buf - nStartLine else nLines in
  if bool_decide (pszFileName = EmptyString) then Returned SAVE_FAILED w
  else
    let nCrlfStyle := SaveToFile_crlf_style nCrlfStyle infoUnpacker buf in
    let sIntermediateFilename :=
      if bTempFile then EmptyString
      else GetTemporaryFileName (m_strTempPath buf) (w_fs w) in
    if negb bTempFile && bool_decide (sIntermediateFilename = EmptyString)
    then Returned SAVE_FAILED w
    else
      let target := if bTempFile then pszFileName else sIntermediateFilename in
      if negb (OpenCreate target (w_fs w))
      then
        (* the writer's error text goes to [sError] and to the log *)
        Returned SAVE_FAILED w
      else
        let content :=
          save_lines buf bTempFile nCrlfStyle (Z.to_nat nLines) nStartLine [] in
        Written sIntermediateFilename (set_fs w (<[target := content]> (w_fs w))).

(** [SaveToFile] after [file.Close()], for a user file: repack, then
    write the temp file over the original. *)
Definition SaveToFile_pack (w : World) (pszFileName sIntermediateFilename : string)
    (infoUnpacker : PackingInfo) (bClearModifiedFlag : bool)
  : SaveResult * World * PackingInfo :=
  let infoUnpacker := mk_PackingInfo (m_unpackerSubcode (w_buf w))
                        (disallowMixedEOL infoUnpacker) in
  let '(ok, csTempFileName, fs) :=
    FileTransform_Packing sIntermediateFilename infoUnpacker (w_fs w) in
  let w := set_fs w fs in
  if negb ok then
    let w := try_remove sIntermediateFilename w in
    (* returns now, don't overwrite the original file *)
    (SAVE_PACK_FAILED, w, infoUnpacker)
  else
    (* the temp filename may have changed during packing *)
    let w :=
      if bool_decide (csTempFileName ≠ sIntermediateFilename)
      then try_remove sIntermediateFilename w else w in
    let sIntermediateFilename := csTempFileName in
    (* write tempfile over original file *)
    match TFile_copyTo sIntermediateFilename pszFileName w with
    | None => (SAVE_FAILED, add_event w (EvLogError sIntermediateFilename), infoUnpacker)
    | Some w =>
        match TFile_remove sIntermediateFilename w with
        | None =>
            (SAVE_FAILED, add_event w (EvLogError sIntermediateFilename), infoUnpacker)
        | Some w =>
            let w :=
              if bClearModifiedFlag
              then sync_undo_position (SetModified w false) else w in
            (SAVE_DONE, remember_revision w, infoUnpacker)
        end
    end.

(** [SaveToFile].  A user file saved without packing information breaks
    the function's assertion; the model has no result there ([None]). *)
Definition SaveToFile (w : World) (pszFileName : string) (bTempFile : bool)
    (infoUnpacker : option PackingInfo) (nCrlfStyle : CRLFSTYLE)
    (bClearModifiedFlag : bool) (nStartLine nLines : Z)
  : option (SaveResult * World * option PackingInfo) :=
  match SaveToFile_write w pszFileName bTempFile infoUnpacker nCrlfStyle
          nStartLine nLines with
  | Returned r w => Some (r, w, infoUnpacker)
  | Written sIntermediateFilename w =>
      if negb bTempFile then
        match infoUnpacker with
        | None => None
        | Some info =>
            let '(r, w, info) :=
              SaveToFile_pack w pszFileName sIntermediateFilename info
                bClearModifiedFlag in
            Some (r, w, Some info)
        end
      else
        let w :=
          if bClearModifiedFlag
          then sync_undo_position (SetModified w false) else w in
        Some (SAVE_DONE, w, infoUnpacker)
  end.
End Save.

(** ** Edit integration: sync points *)

(** Modelled from the spec: the registered sync-point list the owning
    document supplies (a copy: the caller iterates over it while sync
    points are being deleted). *)
Definition GetSyncPointList (doc : CMergeDoc) : list SyncPoint :=
  doc_syncpoints doc.

(** Modelled from the spec: the document's invalidation of the sync point
    that has line [nLine] in pane [pane]: it is no longer registered. *)
Definition DeleteSyncPoint (w : World) (pane : nat) (nLine : Z) : World :=
  let doc := w_doc w in
  mk_World (w_buf w)
    (mk_doc (doc_modified doc)
       (filter (λ syncpnt : SyncPoint, syncpnt !!! pane ≠ nLine) (doc_syncpoints doc)))
    (w_fs w)
    (w_events w ++ [EvDeleteSyncPoint pane nLine]).

(** The test of [DeleteText2] on the line of a sync point. *)
Definition spans_syncpoint (nStartLine nStartChar nEndLine nLineSyncPoint : Z) : bool :=
  (((nStartChar =? 0) && (nStartLine =? nLineSyncPoint))
   || (nStartLine <? nLineSyncPoint))
  && (nLineSyncPoint <? nEndLine).

Section Edit.
(** The textual delete of the base class: its result and the buffer
    afterwards. *)
Variable CGhostTextBuffer_DeleteText2 :
  CDiffTextBuffer → Z → Z → Z → Z → bool * CDiffTextBuffer.

Definition DeleteText2 (w : World) (nStartLine nStartChar nEndLine nEndChar : Z)
  : bool * World :=
  let m_nThisPane := m_nThisPane (w_buf w) in
  let w :=
    foldl (λ w (syncpnt : SyncPoint),
             let nLineSyncPoint := syncpnt !!! m_nThisPane in
             if spans_syncpoint nStartLine nStartChar nEndLine nLineSyncPoint
             then DeleteSyncPoint w m_nThisPane nLineSyncPoint
             else w)
      w (GetSyncPointList (w_doc w)) in
  let '(r, buf) :=
    CGhostTextBuffer_DeleteText2 (w_buf w) nStartLine nStartChar nEndLine nEndChar in
  (r, mk_World buf (w_doc w) (w_fs w)
        (w_events w ++ [EvDeleteText nStartLine nStartChar nEndLine nEndChar])).
End Edit.

(** The sync point's line in the pane lies in the range the delete spans:
    after the start line, or on it when the delete starts at its first
    character, and before the end line. *)
Definition in_deleted_range (pane : nat) (nStartLine nStartChar nEndLine : Z)
    (syncpnt : SyncPoint) : Prop :=
  ((nStartChar = 0 ∧ nStartLine = syncpnt !!! pane) ∨ nStartLine < syncpnt !!! pane)
  ∧ syncpnt !!! pane < nEndLine.

Global Instance in_deleted_range_dec pane nStartLine nStartChar nEndLine syncpnt :
  Decision (in_deleted_range pane nStartLine nStartChar nEndLine syncpnt).
Proof. unfold in_deleted_range. apply _. Defined.

(** ** Plain line retrieval *)

(** The C runtime's [_tcsncpy (dest, src, count)] on a zero-terminated
    source: the [count] characters it stores.  It copies up to the first
    zero of the source (the end of the list is the terminating zero) and
    fills what is left of [count] with zeros. *)
Fixpoint _tcsncpy (src : String) (count : nat) {struct count} : String :=
  match count with
  | O => []
  | S count' =>
      match src with
      | [] => replicate count 0
      | c :: rest =>
          if c =? 0 then replicate count 0 else c :: _tcsncpy rest count'
      end
  end.

(** [GetLine]: the result and the string left in [strLine].  After
    [ReleaseBuffer (nLineLength)] the string holds the [nLineLength]
    characters [_tcsncpy] stored. *)
Definition GetLine (buf : CDiffTextBuffer) (nLineIndex : Z) (strLine : String)
  : bool * String :=
  let nLineLength := GetLineLength buf nLineIndex in
  if nLineLength <? 0 then (false, strLine)
  else if nLineLength =? 0 then (true, [])
  else (true, _tcsncpy (GetLineChars buf nLineIndex) (Z.to_nat nLineLength)).

(** ** Preparing a rescan *)

(** [LF_INVISIBLE | LF_DIFF | LF_TRIVIAL | LF_MOVED | LF_SNP] *)
Definition rescan_flags `{LineFlags} : Z :=
  Z.lor (Z.lor (Z.lor (Z.lor LF_INVISIBLE LF_DIFF) LF_TRIVIAL) LF_MOVED) LF_SNP.

(** The loop of [prepareForRescan], [ct] running from [n - 1] down to 0. *)
Fixpoint prepareForRescan_loop `{LineFlags} (n : nat) (buf : CDiffTextBuffer)
  : CDiffTextBuffer :=
  match n with
  | O => buf
  | S ct => prepareForRescan_loop ct (SetLineFlag buf (Z.of_nat ct) rescan_flags false)
  end.

Section Rescan.
Context `{LineFlags}.
(** [RemoveAllGhostLines] of the ghost buffer. *)
Variable RemoveAllGhostLines : CDiffTextBuffer → CDiffTextBuffer.

Definition prepareForRescan (buf : CDiffTextBuffer) : CDiffTextBuffer :=
  let buf := RemoveAllGhostLines buf in
  prepareForRescan_loop (Z.to_nat (GetLineCount buf)) buf.
End Rescan.

(** The lines of a buffer that carry no GHOST flag (MergeLineFlags
    values), as a stand-in for [RemoveAllGhostLines] in examples. *)
Definition drop_ghost_lines (buf : CDiffTextBuffer) : CDiffTextBuffer :=
  set_lines buf
    (filter (λ li, Z.land (m_dwFlags li) 0x00400000 = 0) (m_aLines buf)).

(** ** What a save writes *)

(** The test of the line loop, [GetLineFlags (line) & LF_GHOST]. *)
Definition is_ghost `{LineFlags} (li : LineInfo) : bool :=
  negb (Z.land (m_dwFlags li) LF_GHOST =? 0).

(** The text of a line as it is written: escaped for a temp file. *)
Definition written_text (bTempFile : bool) (li : LineInfo) : String :=
  if bTempFile then EscapeControlChars (li_text li) else li_text li.

(** The marker written after a line that is not the last one: the line's
    own under AUTOMATIC and MIXED, the style's otherwise. *)
Definition written_eol (nCrlfStyle : CRLFSTYLE) (li : LineInfo) : String :=
  if bool_decide (nCrlfStyle = CRLF_STYLE_AUTOMATIC)
     || bool_decide (nCrlfStyle = CRLF_STYLE_MIXED)
  then li_eol li else GetStringEol nCrlfStyle.

(** Lines written one after the other, each with its marker. *)
Definition terminated_lines (bTempFile : bool) (nCrlfStyle : CRLFSTYLE)
    (lines : list LineInfo) : String :=
  lines ≫= (λ li, written_text bTempFile li ++ written_eol nCrlfStyle li).

(** The same, the last line without a marker. *)
Fixpoint joined_lines (bTempFile : bool) (nCrlfStyle : CRLFSTYLE)
    (lines : list LineInfo) : String :=
  match lines with
  | [] => []
  | li :: rest =>
      match rest with
      | [] => written_text bTempFile li
      | _ => written_text bTempFile li ++ written_eol nCrlfStyle li
             ++ joined_lines bTempFile nCrlfStyle rest
      end
  end.

(** The real (not ghost) lines of a list. *)
Definition real_lines `{LineFlags} (lines : list LineInfo) : list LineInfo :=
  filter (λ li, is_ghost li = false) lines.

(** The characters of a script, read after read. *)
Definition script_chars (script : list (String * String)) : String :=
  script ≫= (λ rd, rd.1 ++ rd.2).

(** A reader plays a script and is left in a given state by the call
    that reports exhaustion. *)
Inductive plays_to {Reader : Type} (ReadString : Reader → ReadResult * Reader)
  : Reader → list (String * String) → Reader → Prop :=
| plays_to_done r r' lossy :
    ReadString r = (mk_ReadResult false [] [] lossy, r') →
    plays_to ReadString r [] r'
| plays_to_read r r1 r' text eol lossy script :
    ReadString r = (mk_ReadResult true text eol lossy, r1) →
    plays_to ReadString r1 script r' →
    plays_to ReadString r ((text, eol) :: script) r'.

(** The statistics of the modelled reader once it has yielded a script. *)
Definition script_stats (script : list (String * String)) (stats : txtstats) : txtstats :=
  foldl (λ st rd, count_eol rd.2 st) stats script.

(** Every read of a script but the last has a marker. *)
Fixpoint terminated_but_last (script : list (String * String)) : Prop :=
  match script with
  | [] => True
  | rd :: rest => (rest ≠ [] → rd.2 ≠ []) ∧ terminated_but_last rest
  end.

(** A pack transform that accepts but names a packed file that is not
    there. *)
Definition vanishing_pack (path : string) (info : PackingInfo) (fs : gmap string String)
  : bool * string * gmap string String := (true, "gone.pak"%string, fs).

(** ** Folder compare progress bar (DirCompProgressBar.cpp) *)

(** [CompareStats::CMP_STATE], by the states the dialog tests. *)
Inductive CMP_STATE := STATE_IDLE | STATE_START | STATE_COMPARE.

Global Instance CMP_STATE_eq_dec : EqDecision CMP_STATE.
Proof. solve_decision. Defined.

(** What the dialog reads from the compare statistics at a timer tick:
    the state, the item counts, whether the compare is done, and the
    file of the current item if there is one. *)
Record CompareStats := mk_CompareStats {
  GetCompareState : CMP_STATE;
  GetTotalItems : Z;
  GetComparedItems : Z;
  IsCompareDone : bool;
  GetCurDiffItem : option string
}.

(** The dialog: its two members, the controls it writes (progress
    position, the two item counts, the path being compared) and whether
    its update timer is set. *)
Record DirCompProgressBar := mk_bar {
  m_bCompareReady : bool;
  m_prevState : CMP_STATE;
  IDC_PROGRESSCOMPARE : Z;
  IDC_ITEMSCOMPARED : Z;
  IDC_ITEMSTOTAL : Z;
  IDC_PATH_COMPARING : string;
  timer_set : bool
}.

(** ID for timer updating UI. *)
Definition IDT_UPDATE : Z := 1.

(** The dialog as its constructor leaves it. *)
Definition new_DirCompProgressBar : DirCompProgressBar :=
  mk_bar false STATE_IDLE 0 0 0 EmptyString false.

Definition ClearStat (bar : DirCompProgressBar) : DirCompProgressBar :=
  mk_bar (m_bCompareReady bar) STATE_IDLE 0 0 0 (IDC_PATH_COMPARING bar) (timer_set bar).

Definition SetProgressState (bar : DirCompProgressBar) (comparedItems totalItems : Z)
  : DirCompProgressBar :=
  mk_bar (m_bCompareReady bar) (m_prevState bar) comparedItems comparedItems totalItems
    (IDC_PATH_COMPARING bar) (timer_set bar).

Definition set_prevState (bar : DirCompProgressBar) (state : CMP_STATE)
  : DirCompProgressBar :=
  mk_bar (m_bCompareReady bar) state (IDC_PROGRESSCOMPARE bar) (IDC_ITEMSCOMPARED bar)
    (IDC_ITEMSTOTAL bar) (IDC_PATH_COMPARING bar) (timer_set bar).

Definition StartUpdating (bar : DirCompProgressBar) : DirCompProgressBar :=
  let bar := ClearStat bar in
  mk_bar (m_bCompareReady bar) (m_prevState bar) (IDC_PROGRESSCOMPARE bar)
    (IDC_ITEMSCOMPARED bar) (IDC_ITEMSTOTAL bar) (IDC_PATH_COMPARING bar) true.

Definition EndUpdating (bar : DirCompProgressBar) : DirCompProgressBar :=
  mk_bar (m_bCompareReady bar) (m_prevState bar) (IDC_PROGRESSCOMPARE bar)
    (IDC_ITEMSCOMPARED bar) (IDC_ITEMSTOTAL bar) (IDC_PATH_COMPARING bar) false.

(** [OnTimer], the statistics being read when the message arrives.  A
    message of another timer goes to the base class, which keeps the
    members and controls above. *)
Definition OnTimer (bar : DirCompProgressBar) (nIDEvent : Z) (stats : CompareStats)
  : DirCompProgressBar :=
  if nIDEvent =? IDT_UPDATE then
    let state := GetCompareState stats in
    (* new compare started *)
    if bool_decide (m_prevState bar = STATE_IDLE) && bool_decide (state = STATE_START)
    then set_prevState bar STATE_START
    (* collecting items to compare *)
    else if bool_decide (m_prevState bar = STATE_START)
            && bool_decide (state = STATE_START)
    then SetProgressState bar 0 (GetTotalItems stats)
    (* started comparing items *)
    else if (bool_decide (m_prevState bar = STATE_START)
             || bool_decide (m_prevState bar = STATE_IDLE))
            && bool_decide (state = STATE_COMPARE)
    then
      let bar := SetProgressState bar (GetComparedItems stats) (GetTotalItems stats) in
      set_prevState bar STATE_COMPARE
    (* comparing items *)
    else if bool_decide (m_prevState bar = STATE_COMPARE)
            && bool_decide (state = STATE_COMPARE)
    then
      let bar := SetProgressState bar (GetComparedItems stats) (GetTotalItems stats) in
      match GetCurDiffItem stats with
      | Some file =>
          mk_bar (m_bCompareReady bar) (m_prevState bar) (IDC_PROGRESSCOMPARE bar)
            (IDC_ITEMSCOMPARED bar) (IDC_ITEMSTOTAL bar) file (timer_set bar)
      | None => bar
      end
    (* compare is ready *)
    else if bool_decide (state = STATE_IDLE) && negb (m_bCompareReady bar)
            && IsCompareDone stats
    then
      let bar := SetProgressState bar (GetComparedItems stats) (GetTotalItems stats) in
      let bar := EndUpdating bar in
      let bar := set_prevState bar STATE_COMPARE in
      mk_bar true (m_prevState bar) (IDC_PROGRESSCOMPARE bar)
        (IDC_ITEMSCOMPARED bar) (IDC_ITEMSTOTAL bar) (IDC_PATH_COMPARING bar)
        (timer_set bar)
    else bar
  else bar.

(** The timer messages of a run, oldest first, each with the statistics
    read when it arrives. *)
Definition run_timer (bar : DirCompProgressBar) (ticks : list (Z * CompareStats))
  : DirCompProgressBar :=
  foldl (λ bar tick, OnTimer bar tick.1 tick.2) bar ticks.

(** The order in which a compare passes through the states. *)
Definition state_rank (state : CMP_STATE) : nat :=
  match state with
  | STATE_IDLE => 0
  | STATE_START => 1
  | STATE_COMPARE => 2
  end.

(** ** Sample data *)

(** A three-line buffer whose middle line carries DIFF, GHOST and MOVED
    (MergeLineFlags values) and whose last line is empty and unterminated. *)
Definition sample_buffer : CDiffTextBuffer :=
  mk_buffer
    [mk_LineInfo [97] [LF] 0 0; mk_LineInfo [98] [LF] 0x01600000 0; empty_line]
    true true CRLF_STYLE_UNIX 0 2 5 3 0%nat 0 EmptyString.

(** A world around [sample_buffer] (pane 0) with three registered sync
    points and the user's file on disk. *)
Definition sample_world : World :=
  mk_World sample_buffer
    (mk_doc true [[1; 1]; [4; 4]; [7; 8]])
    {[ "merged.txt"%string := [111; 108; 100] ]}
    [].

(** A textual delete that reports success. *)
Definition sample_delete (buf : CDiffTextBuffer) (nStartLine nStartChar nEndLine nEndChar : Z)
  : bool * CDiffTextBuffer := (true, buf).

(** Collaborators of a save: a fixed temp name, a writer that opens any
    path, and a pack transform that rejects the content. *)
Definition sample_temp_name (tempPath : string) (fs : gmap string String) : string :=
  "MRG_1.tmp"%string.

Definition sample_open (path : string) (fs : gmap string String) : bool := true.

Definition failing_pack (path : string) (info : PackingInfo) (fs : gmap string String)
  : bool * string * gmap string String := (false, path, fs).

(** A pack transform that accepts the content and leaves it in place. *)
Definition accepting_pack (path : string) (info : PackingInfo) (fs : gmap string String)
  : bool * string * gmap string String := (true, path, fs).

(** * Properties *)

(** ** EOL style detector *)

Lemma IsTextFileStylePure_false crlf cr lf :
  0 ≤ crlf → 0 ≤ cr → 0 ≤ lf →
  more_than_one_nonzero crlf cr lf ↔
  IsTextFileStylePure (eol_counts crlf cr lf) = false.
Proof.
  intros Hcrlf Hcr Hlf.
  unfold more_than_one_nonzero, IsTextFileStylePure; simpl.
  destruct (Z.ltb_spec 0 crlf), (Z.ltb_spec 0 cr), (Z.ltb_spec 0 lf);
    simpl; split; (done || lia).
Qed.

(** C1: for a triple of EOL counts with more than one nonzero count the
    detector reports not-pure and returns MIXED; otherwise it reports pure
    and returns DOS if crlf >= lf and crlf >= cr, else UNIX if lf >= cr,
    else MAC; so only-crlf gives DOS, only-lf UNIX, only-cr MAC and the
    all-zero triple DOS. *)
Theorem GetTextFileStyle_spec (crlf cr lf : Z) :
  0 ≤ crlf → 0 ≤ cr → 0 ≤ lf →
  (more_than_one_nonzero crlf cr lf →
     IsTextFileStylePure (eol_counts crlf cr lf) = false
     ∧ GetTextFileStyle (eol_counts crlf cr lf) = CRLF_STYLE_MIXED)
  ∧ (¬ more_than_one_nonzero crlf cr lf →
     IsTextFileStylePure (eol_counts crlf cr lf) = true
     ∧ GetTextFileStyle (eol_counts crlf cr lf) = pairwise_style crlf cr lf)
  ∧ (cr = 0 → lf = 0 → GetTextFileStyle (eol_counts crlf cr lf) = CRLF_STYLE_DOS)
  ∧ (crlf = 0 → cr = 0 → lf ≠ 0 →
     GetTextFileStyle (eol_counts crlf cr lf) = CRLF_STYLE_UNIX)
  ∧ (crlf = 0 → lf = 0 → cr ≠ 0 →
     GetTextFileStyle (eol_counts crlf cr lf) = CRLF_STYLE_MAC).
Proof.
  intros Hcrlf Hcr Hlf.
  pose proof (IsTextFileStylePure_false crlf cr lf Hcrlf Hcr Hlf) as Hpure.
  unfold GetTextFileStyle, pairwise_style.
  destruct (IsTextFileStylePure (eol_counts crlf cr lf)) eqn:E; simpl.
  - assert (¬ more_than_one_nonzero crlf cr lf) as Hone
      by (intros Hm; apply Hpure in Hm; done).
    unfold more_than_one_nonzero in Hone.
    repeat split; try tauto; intros;
      destruct (Z.leb_spec lf crlf), (Z.leb_spec cr crlf), (Z.leb_spec cr lf);
      simpl; first [done | lia].
  - assert (more_than_one_nonzero crlf cr lf) as Hm by (by apply Hpure).
    unfold more_than_one_nonzero in Hm.
    repeat split; try tauto; intros; lia.
Qed.

Lemma GetTextFileStyle_spec_witness :
  GetTextFileStyle (eol_counts 5 0 0) = CRLF_STYLE_DOS
  ∧ GetTextFileStyle (eol_counts 0 0 7) = CRLF_STYLE_UNIX
  ∧ GetTextFileStyle (eol_counts 0 2 0) = CRLF_STYLE_MAC
  ∧ GetTextFileStyle (eol_counts 1 0 6) = CRLF_STYLE_MIXED.
Proof.
  split; [| split; [| split]].
  - apply (GetTextFileStyle_spec 5 0 0); lia.
  - apply (GetTextFileStyle_spec 0 0 7); lia.
  - apply (GetTextFileStyle_spec 0 2 0); lia.
  - apply (GetTextFileStyle_spec 1 0 6); [lia | lia | lia |].
    right; left; split; lia.
Defined.

(** C2, as stated, fails: with crlf = 3, cr = 3, lf = 0 two counts are
    nonzero, and the detector returns MIXED, not DOS. *)
Lemma GetTextFileStyle_tie_not_DOS :
  GetTextFileStyle (eol_counts 3 3 0) = CRLF_STYLE_MIXED
  ∧ GetTextFileStyle (eol_counts 3 3 0) ≠ CRLF_STYLE_DOS
  ∧ GetTextFileStyle (eol_counts 0 4 4) ≠ CRLF_STYLE_UNIX.
Proof. vm_compute. repeat split; discriminate. Qed.

(** C2, amended: the detector returns MIXED for (3,3,0) and for (0,4,4);
    whenever the largest of three non-negative counts is tied, it returns
    DOS if all three are zero and MIXED otherwise, so the priority DOS,
    UNIX, MAC of the pairwise comparison decides a tie only for the
    all-zero triple. *)
Theorem GetTextFileStyle_ties (crlf cr lf : Z) :
  0 ≤ crlf → 0 ≤ cr → 0 ≤ lf →
  top_count_tied crlf cr lf →
  GetTextFileStyle (eol_counts 3 3 0) = CRLF_STYLE_MIXED
  ∧ GetTextFileStyle (eol_counts 0 4 4) = CRLF_STYLE_MIXED
  ∧ GetTextFileStyle (eol_counts crlf cr lf) =
      (if bool_decide (crlf = 0 ∧ cr = 0 ∧ lf = 0)
       then CRLF_STYLE_DOS else CRLF_STYLE_MIXED).
Proof.
  intros Hcrlf Hcr Hlf Htie.
  split; [done | split; [done |]].
  unfold top_count_tied in Htie.
  case_bool_decide as Hz.
  - destruct Hz as (-> & -> & ->). done.
  - unfold GetTextFileStyle, IsTextFileStylePure; simpl.
    destruct (Z.ltb_spec 0 crlf), (Z.ltb_spec 0 cr), (Z.ltb_spec 0 lf);
      simpl; first [done | lia].
Qed.

Lemma GetTextFileStyle_ties_witness :
  GetTextFileStyle (eol_counts 5 5 2) = CRLF_STYLE_MIXED
  ∧ GetTextFileStyle (eol_counts 0 0 0) = CRLF_STYLE_DOS.
Proof.
  split.
  - apply (GetTextFileStyle_ties 5 5 2); [lia | lia | lia | left; lia].
  - apply (GetTextFileStyle_ties 0 0 0); [lia | lia | lia | left; lia].
Defined.

(** ** Line store: flags and full lines *)

Lemma testbit_dword_not f j :
  0 ≤ j → Z.testbit (dword_not f) j = xorb (Z.testbit f j) (j <? 32).
Proof.
  intros Hj. unfold dword_not.
  change 0xFFFFFFFF with (Z.ones 32).
  rewrite Z.lxor_spec, Z.testbit_ones by lia.
  destruct (Z.leb_spec 0 j); [done | lia].
Qed.

Lemma land_single_bit f k :
  0 ≤ k → Z.land f (2 ^ k) = if Z.testbit f k then 2 ^ k else 0.
Proof.
  intros Hk. apply Z.bits_inj'. intros j Hj.
  rewrite Z.land_spec, Z.pow2_bits_eqb by done.
  destruct (Z.eqb_spec k j) as [<- | Hne].
  - destruct (Z.testbit f k); simpl.
    + by rewrite Z.pow2_bits_eqb, Z.eqb_refl.
    + by rewrite Z.bits_0.
  - rewrite andb_false_r.
    destruct (Z.testbit f k).
    + rewrite Z.pow2_bits_eqb by done. symmetry. by apply Z.eqb_neq.
    + by rewrite Z.bits_0.
Qed.

Lemma flag_test_single_bit f k :
  0 ≤ k → (Z.land f (2 ^ k) =? 2 ^ k) = Z.testbit f k.
Proof.
  intros Hk. rewrite land_single_bit by done.
  destruct (Z.testbit _ k).
  - apply Z.eqb_refl.
  - apply Z.eqb_neq. pose proof (Z.pow_pos_nonneg 2 k). lia.
Qed.

(** Clearing one flag bit leaves every other bit of the low 32 alone. *)
Lemma testbit_clear_flag f k j :
  0 ≤ k < 32 → 0 ≤ j < 32 →
  Z.testbit (Z.land f (dword_not (2 ^ k))) j = Z.testbit f j && negb (k =? j).
Proof.
  intros Hk Hj.
  rewrite Z.land_spec, testbit_dword_not, Z.pow2_bits_eqb by lia.
  destruct (Z.ltb_spec j 32); [| lia].
  by destruct (k =? j), (Z.testbit f j).
Qed.

Lemma SetLineFlag_line_at buf nLine dwFlag :
  0 ≤ nLine < GetLineCount buf →
  line_at (SetLineFlag buf nLine dwFlag false) nLine =
  mk_LineInfo (li_text (line_at buf nLine)) (li_eol (line_at buf nLine))
    (Z.land (m_dwFlags (line_at buf nLine)) (dword_not dwFlag))
    (m_dwRevisionNumber (line_at buf nLine)).
Proof.
  unfold GetLineCount. intros Hn.
  unfold SetLineFlag. destruct (Z.ltb_spec nLine 0); [lia |].
  unfold line_at, GetLineFlags, line_at; simpl.
  rewrite list_lookup_total_alter_eq by lia. done.
Qed.

Lemma SetLineFlag_GetLineCount buf nLine dwFlag bSet :
  GetLineCount (SetLineFlag buf nLine dwFlag bSet) = GetLineCount buf.
Proof.
  unfold GetLineCount, SetLineFlag. destruct (nLine <? 0); [done |].
  simpl. by rewrite length_alter.
Qed.

Lemma SetLineFlag_other_line buf nLine dwFlag bSet (i : nat) :
  i ≠ Z.to_nat nLine →
  m_aLines (SetLineFlag buf nLine dwFlag bSet) !! i = m_aLines buf !! i.
Proof.
  intros Hne. unfold SetLineFlag. destruct (nLine <? 0); [done |].
  simpl. by rewrite list_lookup_alter_ne.
Qed.

(** The flag word of the edited line after the notification. *)
Lemma OnNotifyLineHasBeenEdited_flag_word `{LineFlags} buf nLine :
  0 ≤ nLine < GetLineCount buf →
  m_dwFlags (line_at (OnNotifyLineHasBeenEdited buf nLine) nLine) =
  Z.land (Z.land (Z.land (Z.land (m_dwFlags (line_at buf nLine))
    (dword_not LF_DIFF)) (dword_not LF_TRIVIAL)) (dword_not LF_MOVED))
    (dword_not LF_SNP).
Proof.
  intros Hn.
  unfold OnNotifyLineHasBeenEdited, CGhostTextBuffer_OnNotifyLineHasBeenEdited.
  rewrite !SetLineFlag_line_at by (by rewrite ?SetLineFlag_GetLineCount).
  done.
Qed.

(** C6: for every line index of the buffer, the line-edited notification
    clears the line's DIFF, TRIVIAL and MOVED flags and leaves its GHOST
    and INVISIBLE flags as they were (the flag values being distinct
    single bits). *)
Theorem OnNotifyLineHasBeenEdited_flags `{LineFlags} buf nLine :
  flags_independent →
  0 ≤ nLine < GetLineCount buf →
  let buf' := OnNotifyLineHasBeenEdited buf nLine in
  FlagIsSet buf' nLine LF_DIFF = false
  ∧ FlagIsSet buf' nLine LF_TRIVIAL = false
  ∧ FlagIsSet buf' nLine LF_MOVED = false
  ∧ FlagIsSet buf' nLine LF_GHOST = FlagIsSet buf nLine LF_GHOST
  ∧ FlagIsSet buf' nLine LF_INVISIBLE = FlagIsSet buf nLine LF_INVISIBLE.
Proof.
  intros [Hbits Hne] Hn buf'.
  repeat match goal with
         | H : Forall _ (_ :: _) |- _ => apply Forall_cons in H; destruct H
         end.
  repeat match goal with
         | H : single_bit _ |- _ => destruct H as (? & ? & ?)
         | H : _ ∧ _ |- _ => destruct H
         end.
  subst buf'. unfold FlagIsSet.
  rewrite OnNotifyLineHasBeenEdited_flag_word by done.
  repeat match goal with
         | H : ?f = 2 ^ _ |- _ => rewrite H in *; clear H
         end.
  rewrite !flag_test_single_bit by lia.
  rewrite !testbit_clear_flag by lia.
  repeat split;
    repeat match goal with
           | |- context [?a =? ?b] => destruct (Z.eqb_spec a b)
           end;
    subst; try congruence; by destruct (Z.testbit _ _).
Qed.

Lemma MergeLineFlags_independent : @flags_independent MergeLineFlags.
Proof.
  split.
  - repeat apply Forall_cons_2; try apply Forall_nil_2; simpl.
    + by exists 31.
    + by exists 21.
    + by exists 22.
    + by exists 23.
    + by exists 24.
    + by exists 25.
  - repeat apply Forall_cons_2; try apply Forall_nil_2; by simpl.
Defined.

Lemma OnNotifyLineHasBeenEdited_flags_witness :
  FlagIsSet (@OnNotifyLineHasBeenEdited MergeLineFlags sample_buffer 1) 1 0x00200000 = false
  ∧ FlagIsSet (@OnNotifyLineHasBeenEdited MergeLineFlags sample_buffer 1) 1 0x00800000 = false
  ∧ FlagIsSet (@OnNotifyLineHasBeenEdited MergeLineFlags sample_buffer 1) 1 0x01000000 = false
  ∧ FlagIsSet (@OnNotifyLineHasBeenEdited MergeLineFlags sample_buffer 1) 1 0x00400000
    = FlagIsSet sample_buffer 1 0x00400000
  ∧ FlagIsSet (@OnNotifyLineHasBeenEdited MergeLineFlags sample_buffer 1) 1 0x80000000
    = FlagIsSet sample_buffer 1 0x80000000.
Proof.
  apply (@OnNotifyLineHasBeenEdited_flags MergeLineFlags sample_buffer 1).
  - exact MergeLineFlags_independent.
  - unfold GetLineCount; simpl; lia.
Defined.

Lemma memcpy_into_all (strLine src : String) :
  memcpy_into strLine src (length src) = src.
Proof.
  unfold memcpy_into. rewrite take_ge by done.
  pose proof (list_inserts_0_l src [] (resize (length src) 0 strLine)) as Hins.
  rewrite app_nil_r in Hins. apply Hins. by rewrite length_resize.
Qed.

(** C10: for a valid line index, [GetFullLine] returns true with the
    line's text immediately followed by its EOL marker when their combined
    length is nonzero, and returns false with an emptied output string
    when text and marker are both empty. *)
Theorem GetFullLine_spec buf nLineIndex strLine :
  0 ≤ nLineIndex < GetLineCount buf →
  let text := li_text (line_at buf nLineIndex) in
  let eol := li_eol (line_at buf nLineIndex) in
  (length (text ++ eol) ≠ 0%nat →
     GetFullLine buf nLineIndex strLine = (true, text ++ eol))
  ∧ (text = [] → eol = [] → GetFullLine buf nLineIndex strLine = (false, [])).
Proof.
  intros Hvalid text eol. subst text eol.
  unfold GetFullLine, GetFullLineLength, GetLineChars.
  rewrite <- length_app. split.
  - intros Hlen.
    destruct (Z.eqb_spec (Z.of_nat (length (li_text (line_at buf nLineIndex)
                                     ++ li_eol (line_at buf nLineIndex)))) 0); [lia |].
    by rewrite Nat2Z.id, memcpy_into_all.
  - intros -> ->. done.
Qed.

(** The implicit final empty line of [sample_buffer], and its first line. *)
Lemma GetFullLine_spec_witness :
  GetFullLine sample_buffer 2 [120] = (false, [])
  ∧ GetFullLine sample_buffer 0 [120] = (true, [97; 10]).
Proof.
  split.
  - apply (GetFullLine_spec sample_buffer 2 [120]).
    + unfold GetLineCount; simpl; lia.
    + reflexivity.
    + reflexivity.
  - apply (GetFullLine_spec sample_buffer 0 [120]).
    + unfold GetLineCount; simpl; lia.
    + simpl; lia.
Defined.

(** ** Save pipeline: the EOL style written *)

(** C9, as stated, fails: with a pack transform that disallows mixed EOL,
    a requested DOS style is replaced by the buffer's recorded style (UNIX
    for [sample_buffer]), whatever the mixed-EOL option says; the saved
    file then holds the line "a" ended by LF, not by CR LF. *)
Lemma SaveToFile_crlf_style_replaces_DOS :
  SaveToFile_crlf_style true CRLF_STYLE_DOS (Some (mk_PackingInfo 0 true)) sample_buffer
  = CRLF_STYLE_UNIX
  ∧ SaveToFile_crlf_style true CRLF_STYLE_DOS (Some (mk_PackingInfo 0 true)) sample_buffer
  ≠ CRLF_STYLE_DOS
  ∧ ∃ w info,
      @SaveToFile MergeLineFlags true sample_temp_name sample_open accepting_pack
        sample_world "merged.txt" false (Some (mk_PackingInfo 0 true))
        CRLF_STYLE_DOS true 0 (-1)
      = Some (SAVE_DONE, w, info)
      ∧ w_fs w !! "merged.txt"%string = Some [97; LF].
Proof.
  split; [reflexivity | split; [discriminate |]].
  eexists _, _. split; [reflexivity |]. reflexivity.
Qed.

(** C9, amended: the buffer's recorded EOL style is substituted for the
    requested style if and only if the requested style is AUTOMATIC and
    the mixed-EOL option is off, or a pack transform is given whose
    disallowMixedEOL is set; so a concretely requested style is kept
    exactly when no pack transform disallows mixed EOL. *)
Theorem SaveToFile_crlf_style_spec (OPT_ALLOW_MIXED_EOL : bool)
    (nCrlfStyle : CRLFSTYLE) (infoUnpacker : option PackingInfo)
    (buf : CDiffTextBuffer) :
  let substituted :=
    (nCrlfStyle = CRLF_STYLE_AUTOMATIC ∧ OPT_ALLOW_MIXED_EOL = false)
    ∨ (∃ info, infoUnpacker = Some info ∧ disallowMixedEOL info = true) in
  (substituted →
     SaveToFile_crlf_style OPT_ALLOW_MIXED_EOL nCrlfStyle infoUnpacker buf
     = GetCRLFMode buf)
  ∧ (¬ substituted →
     SaveToFile_crlf_style OPT_ALLOW_MIXED_EOL nCrlfStyle infoUnpacker buf
     = nCrlfStyle).
Proof.
  intros substituted. subst substituted. unfold SaveToFile_crlf_style.
  split.
  - intros [[-> ->] | (info & -> & ->)]; simpl; [done |].
    by rewrite orb_true_r.
  - intros Hnot.
    case_bool_decide as Hauto; simpl.
    + destruct OPT_ALLOW_MIXED_EOL; simpl.
      * destruct infoUnpacker as [info |]; [| done].
        destruct (disallowMixedEOL info) eqn:Hd; [| done].
        exfalso. apply Hnot. right. by exists info.
      * exfalso. apply Hnot. by left.
    + destruct infoUnpacker as [info |]; [| done].
      destruct (disallowMixedEOL info) eqn:Hd; [| done].
      exfalso. apply Hnot. right. by exists info.
Qed.

Lemma SaveToFile_crlf_style_spec_witness :
  SaveToFile_crlf_style false CRLF_STYLE_AUTOMATIC None sample_buffer = CRLF_STYLE_UNIX
  ∧ SaveToFile_crlf_style true CRLF_STYLE_DOS None sample_buffer = CRLF_STYLE_DOS.
Proof.
  split.
  - apply (SaveToFile_crlf_style_spec false CRLF_STYLE_AUTOMATIC None sample_buffer).
    left. split; reflexivity.
  - apply (SaveToFile_crlf_style_spec true CRLF_STYLE_DOS None sample_buffer).
    intros [[Hauto _] | (info & Hinfo & _)]; discriminate.
Defined.

(** ** Edit integration: sync points *)

Lemma spans_syncpoint_spec pane nStartLine nStartChar nEndLine (syncpnt : SyncPoint) :
  spans_syncpoint nStartLine nStartChar nEndLine (syncpnt !!! pane) = true
  ↔ in_deleted_range pane nStartLine nStartChar nEndLine syncpnt.
Proof.
  unfold spans_syncpoint, in_deleted_range.
  destruct (Z.eqb_spec nStartChar 0), (Z.eqb_spec nStartLine (syncpnt !!! pane)),
    (Z.ltb_spec nStartLine (syncpnt !!! pane)), (Z.ltb_spec (syncpnt !!! pane) nEndLine);
    simpl; split; first [done | lia | intros; exfalso; lia].
Qed.

Lemma filter_iff_on {A} (P Q : A → Prop)
    `{!∀ x, Decision (P x), !∀ x, Decision (Q x)} (l : list A) :
  (∀ x, x ∈ l → P x ↔ Q x) → filter P l = filter Q l.
Proof.
  induction l as [| a l IH]; intros Hiff; [done |].
  rewrite !filter_cons.
  rewrite IH by (intros x Hx; apply Hiff; by right).
  apply decide_ext, Hiff. by left.
Qed.

Lemma filter_all {A} (P : A → Prop) `{!∀ x, Decision (P x)} (l : list A) :
  (∀ x, P x) → filter P l = l.
Proof.
  intros HP. induction l as [| a l IH]; [done |].
  by rewrite filter_cons_True, IH.
Qed.

Section EditProperties.
Variables (pane : nat) (nStartLine nStartChar nEndLine : Z).

Let in_range := in_deleted_range pane nStartLine nStartChar nEndLine.
Let line_of := λ syncpnt : SyncPoint, syncpnt !!! pane.
Let step := λ (w : World) (syncpnt : SyncPoint),
  if spans_syncpoint nStartLine nStartChar nEndLine (syncpnt !!! pane)
  then DeleteSyncPoint w pane (syncpnt !!! pane) else w.

(** The loop over the copy [l] of the sync-point list: what it leaves of
    the registered sync points, and the calls it makes. *)
Lemma DeleteText2_loop (l : list SyncPoint) (w : World) :
  w_buf (foldl step w l) = w_buf w
  ∧ w_fs (foldl step w l) = w_fs w
  ∧ doc_modified (w_doc (foldl step w l)) = doc_modified (w_doc w)
  ∧ w_events (foldl step w l) =
      w_events w ++ ((λ sp, EvDeleteSyncPoint pane (line_of sp)) <$> filter in_range l)
  ∧ doc_syncpoints (w_doc (foldl step w l)) =
      filter (λ sp, ¬ (in_range sp ∧ line_of sp ∈ line_of <$> l))
        (doc_syncpoints (w_doc w)).
Proof.
  revert w. induction l as [| a l IH]; intros w.
  - simpl. rewrite app_nil_r. repeat split.
    symmetry. apply filter_all. intros sp.
    simpl. rewrite elem_of_nil. tauto.
  - simpl foldl. destruct (IH (step w a)) as (Hbuf & Hfs & Hmod & Hev & Hsp).
    rewrite Hbuf, Hfs, Hmod, Hev, Hsp. clear IH Hbuf Hfs Hmod Hev Hsp.
    unfold step at 1 2 3 4 5.
    destruct (spans_syncpoint _ _ _ _) eqn:Hspan.
    + apply spans_syncpoint_spec in Hspan.
      rewrite filter_cons_True by done. simpl.
      rewrite <- app_assoc. repeat split.
      rewrite list_filter_filter. apply list_filter_iff. intros sp.
      rewrite ?fmap_cons, elem_of_cons. fold (line_of sp) (line_of a).
      split.
      * intros [Hno Hne] [Hin [Heq | Hel]]; [done | by apply Hno].
      * intros Hno. split; [intros [? ?]; apply Hno; by auto |].
        intros Heq. apply Hno. split; [| by left].
        unfold in_range, in_deleted_range in *. fold (line_of sp) (line_of a) in *.
        by rewrite Heq.
    + assert (¬ in_range a) as Hout.
      { intros Hin. apply spans_syncpoint_spec in Hin. congruence. }
      rewrite filter_cons_False by done. repeat split.
      apply list_filter_iff. intros sp.
      rewrite ?fmap_cons, elem_of_cons.
      split.
      * intros Hno [Hin [Heq | Hel]]; [| by apply Hno].
        apply Hout. unfold in_range, in_deleted_range in *.
        fold (line_of sp) (line_of a) in *. by rewrite <- Heq.
      * intros Hno [Hin Hel]. apply Hno. by auto.
Qed.

End EditProperties.

(** C5, as stated, fails: a delete from character 3 of line 1 to line 5
    leaves the sync point registered on line 1 in place, although that
    line is at the start line and before the end line; only the sync
    point on line 4 is invalidated. *)
Lemma DeleteText2_keeps_start_line_sync_point :
  (1 ≤ [1; 1] !!! m_nThisPane (w_buf sample_world) < 5)
  ∧ doc_syncpoints (w_doc (DeleteText2 sample_delete sample_world 1 3 5 0).2)
    = [[1; 1]; [7; 8]]
  ∧ w_events (DeleteText2 sample_delete sample_world 1 3 5 0).2
    = [EvDeleteSyncPoint 0 4; EvDeleteText 1 3 5 0].
Proof. split; [by vm_compute | split; reflexivity]. Qed.

(** C5, amended: [DeleteText2] invalidates in the owning document exactly
    the registered sync points whose line for this pane is before
    nEndLine and either after nStartLine or equal to nStartLine with
    nStartChar = 0; each invalidation is called before the textual delete
    of the base class, which runs on the unchanged buffer. *)
Theorem DeleteText2_sync_points
    (CGhostTextBuffer_DeleteText2 :
       CDiffTextBuffer → Z → Z → Z → Z → bool * CDiffTextBuffer)
    (w : World) (nStartLine nStartChar nEndLine nEndChar : Z) :
  let pane := m_nThisPane (w_buf w) in
  let result := DeleteText2 CGhostTextBuffer_DeleteText2 w
                  nStartLine nStartChar nEndLine nEndChar in
  doc_syncpoints (w_doc result.2) =
    filter (λ sp, ¬ in_deleted_range pane nStartLine nStartChar nEndLine sp)
      (doc_syncpoints (w_doc w))
  ∧ w_events result.2 =
      w_events w
      ++ ((λ sp : SyncPoint, EvDeleteSyncPoint pane (sp !!! pane))
            <$> filter (in_deleted_range pane nStartLine nStartChar nEndLine)
                  (doc_syncpoints (w_doc w)))
      ++ [EvDeleteText nStartLine nStartChar nEndLine nEndChar]
  ∧ (result.1, w_buf result.2) =
      CGhostTextBuffer_DeleteText2 (w_buf w) nStartLine nStartChar nEndLine nEndChar.
Proof.
  intros pane result. subst result. unfold DeleteText2. fold pane.
  destruct (DeleteText2_loop pane nStartLine nStartChar nEndLine
              (GetSyncPointList (w_doc w)) w) as (Hbuf & Hfs & Hmod & Hev & Hsp).
  cbv zeta in Hbuf, Hfs, Hmod, Hev, Hsp.
  rewrite Hbuf.
  destruct (CGhostTextBuffer_DeleteText2 _ _ _ _ _) as [r buf]. simpl.
  rewrite Hev, Hsp, <- app_assoc. repeat split.
  apply filter_iff_on. intros sp Hel.
  assert (sp !!! pane ∈ (λ s : SyncPoint, s !!! pane) <$> GetSyncPointList (w_doc w))
    by (by apply (list_elem_of_fmap_2 (λ s : SyncPoint, s !!! pane))).
  tauto.
Qed.

(** ** Save pipeline: a failed pack step *)

Lemma try_remove_spec path w :
  w_buf (try_remove path w) = w_buf w
  ∧ w_doc (try_remove path w) = w_doc w
  ∧ w_fs (try_remove path w) !! path = None
  ∧ ∀ other, other ≠ path → w_fs (try_remove path w) !! other = w_fs w !! other.
Proof.
  unfold try_remove, TFile_remove.
  destruct (w_fs w !! path) eqn:Hfile; simpl.
  - repeat split.
    + apply lookup_delete_eq.
    + intros other Hne. by apply lookup_delete_ne.
  - by repeat split.
Qed.

Section SaveProperties.
Context `{LineFlags}.
Variable OPT_ALLOW_MIXED_EOL : bool.
Variable GetTemporaryFileName : string → gmap string String → string.
Variable OpenCreate : string → gmap string String → bool.
Variable FileTransform_Packing :
  string → PackingInfo → gmap string String → bool * string * gmap string String.

(** When the first half of a user-file save ends with the output written,
    it has written the temp file and nothing else. *)
Lemma SaveToFile_write_user_file w pszFileName infoUnpacker nCrlfStyle
    nStartLine nLines sIntermediateFilename w1 :
  SaveToFile_write OPT_ALLOW_MIXED_EOL GetTemporaryFileName OpenCreate
    w pszFileName false infoUnpacker nCrlfStyle nStartLine nLines
  = Written sIntermediateFilename w1 →
  sIntermediateFilename = GetTemporaryFileName (m_strTempPath (w_buf w)) (w_fs w)
  ∧ w_buf w1 = w_buf w
  ∧ w_doc w1 = w_doc w
  ∧ is_Some (w_fs w1 !! sIntermediateFilename)
  ∧ ∀ other, other ≠ sIntermediateFilename → w_fs w1 !! other = w_fs w !! other.
Proof.
  unfold SaveToFile_write. simpl.
  case_bool_decide; [done |].
  case_bool_decide; [done |].
  destruct (OpenCreate _ _); [| done]. simpl.
  intros [= <- <-]. simpl. repeat split.
  - rewrite lookup_insert_eq. by eexists.
  - intros other Hne. by rewrite lookup_insert_ne.
Qed.

(** C4: when the save of a user file reaches the pack step (the temp
    file is written) and the pack transform fails, [SaveToFile] returns
    SAVE_PACK_FAILED, the temp file is gone, the destination is
    unchanged, and so are the buffer's modified flag and undo sync
    position.  The temp name differs from the destination, and the pack
    transform itself leaves the destination alone. *)
Theorem SaveToFile_pack_failure w pszFileName infoUnpacker nCrlfStyle
    bClearModifiedFlag nStartLine nLines sIntermediateFilename w1 csTempFileName fs2 :
  SaveToFile_write OPT_ALLOW_MIXED_EOL GetTemporaryFileName OpenCreate
    w pszFileName false (Some infoUnpacker) nCrlfStyle nStartLine nLines
  = Written sIntermediateFilename w1 →
  FileTransform_Packing sIntermediateFilename
    (mk_PackingInfo (m_unpackerSubcode (w_buf w)) (disallowMixedEOL infoUnpacker))
    (w_fs w1)
  = (false, csTempFileName, fs2) →
  sIntermediateFilename ≠ pszFileName →
  fs2 !! pszFileName = w_fs w1 !! pszFileName →
  ∃ w' info',
    SaveToFile OPT_ALLOW_MIXED_EOL GetTemporaryFileName OpenCreate FileTransform_Packing
      w pszFileName false (Some infoUnpacker) nCrlfStyle bClearModifiedFlag
      nStartLine nLines
    = Some (SAVE_PACK_FAILED, w', Some info')
    ∧ w_fs w' !! sIntermediateFilename = None
    ∧ w_fs w' !! pszFileName = w_fs w !! pszFileName
    ∧ m_bModified (w_buf w') = m_bModified (w_buf w)
    ∧ m_nSyncPosition (w_buf w') = m_nSyncPosition (w_buf w)
    ∧ doc_modified (w_doc w') = doc_modified (w_doc w).
Proof.
  intros Hwrite Hpack Hne Hframe.
  destruct (SaveToFile_write_user_file _ _ _ _ _ _ _ _ Hwrite)
    as (Htmp & Hbuf & Hdoc & Hfile & Hother).
  unfold SaveToFile. rewrite Hwrite. simpl.
  unfold SaveToFile_pack. rewrite Hbuf, Hpack. simpl.
  destruct (try_remove_spec sIntermediateFilename (set_fs w1 fs2))
    as (Hbuf' & Hdoc' & Hgone & Hkept).
  eexists _, _. split; [reflexivity |].
  rewrite Hbuf', Hdoc'. simpl. rewrite Hbuf, Hdoc.
  repeat split; [done |].
  rewrite Hkept by done. simpl.
  rewrite Hframe. by apply Hother.
Qed.
End SaveProperties.

Lemma SaveToFile_pack_failure_witness :
  ∃ w' info',
    @SaveToFile MergeLineFlags true sample_temp_name sample_open failing_pack
      sample_world "merged.txt" false (Some (mk_PackingInfo 7 false))
      CRLF_STYLE_AUTOMATIC true 0 (-1)
    = Some (SAVE_PACK_FAILED, w', Some info')
    ∧ w_fs w' !! "MRG_1.tmp"%string = None
    ∧ w_fs w' !! "merged.txt"%string = w_fs sample_world !! "merged.txt"%string
    ∧ m_bModified (w_buf w') = m_bModified (w_buf sample_world)
    ∧ m_nSyncPosition (w_buf w') = m_nSyncPosition (w_buf sample_world)
    ∧ doc_modified (w_doc w') = doc_modified (w_doc sample_world).
Proof.
  eapply (@SaveToFile_pack_failure MergeLineFlags true sample_temp_name sample_open
            failing_pack sample_world "merged.txt" (mk_PackingInfo 7 false)
            CRLF_STYLE_AUTOMATIC true 0 (-1)).
  - reflexivity.
  - reflexivity.
  - discriminate.
  - reflexivity.
Defined.

(** ** Control-character escaper *)

Lemma is_control_spec c : is_control c = true ↔ 0 ≤ c ≤ 31 ∧ c ≠ 9.
Proof.
  unfold is_control.
  assert (Z.land c (Z.lnot 0x1F) = c / 32 * 32) as ->.
  { rewrite <- Z.ldiff_land. change 0x1F with (Z.ones 5).
    rewrite Z.ldiff_ones_r by lia.
    by rewrite Z.shiftr_div_pow2, Z.shiftl_mul_pow2 by lia. }
  rewrite andb_true_iff, negb_true_iff, Z.eqb_eq, Z.eqb_neq.
  pose proof (Z.div_mod c 32). pose proof (Z.mod_pos_bound c 32).
  split; intros [? ?]; split; first [done | lia | nia].
Qed.

Lemma is_control_decide c :
  is_control c = bool_decide (0 ≤ c ≤ 31 ∧ c ≠ 9).
Proof.
  case_bool_decide as Hc.
  - by apply is_control_spec.
  - destruct (is_control c) eqn:E; [| done].
    by apply is_control_spec in E.
Qed.

Lemma below_32_cases (P : Z → Prop) :
  (∀ k : nat, (k < 32)%nat → P (Z.of_nat k)) → ∀ c, 0 ≤ c ≤ 31 → P c.
Proof.
  intros HP c Hc. rewrite <- (Z2Nat.id c) by lia. apply HP. lia.
Qed.

(** What [_itot (0x100 | c, ..., 16)] stores for a control character. *)
Lemma itot_control c :
  0 ≤ c ≤ 31 →
  _itot (Z.lor 0x100 c) 16 = [49; itot_digit (c / 16); itot_digit (c mod 16); 0].
Proof.
  revert c. apply below_32_cases. intros k Hk.
  do 32 (destruct k as [| k]; [vm_compute; reflexivity |]). lia.
Qed.

Lemma hex_value_control c :
  0 ≤ c ≤ 31 →
  16 * hex_value (itot_digit (c / 16)) + hex_value (itot_digit (c mod 16)) = c.
Proof.
  revert c. apply below_32_cases. intros k Hk.
  do 32 (destruct k as [| k]; [vm_compute; reflexivity |]). lia.
Qed.

Lemma escaped_count_snoc s c :
  escaped_count (s ++ [c]) =
  (escaped_count s + (if is_control c then 1 else 0))%nat.
Proof.
  unfold escaped_count. rewrite filter_app, length_app, filter_cons, filter_nil.
  destruct (is_control c); by case_decide.
Qed.

Lemma escape_length_spec (q : String) (i n : nat) :
  (i ≤ length q)%nat →
  escape_length q i n = (n + 3 * escaped_count (take i q))%nat.
Proof.
  revert n. induction i as [| i IH]; intros n Hi.
  - rewrite take_0. unfold escaped_count. simpl. lia.
  - simpl. rewrite IH by lia.
    destruct (lookup_lt_is_Some_2 q i) as [c Hc]; [lia |].
    rewrite (take_S_r q i c) by done.
    rewrite escaped_count_snoc, (list_lookup_total_correct q i c) by done.
    destruct (is_control c); lia.
Qed.

Lemma insert_middle {A} (l1 l2 : list A) (x y : A) (n : nat) :
  n = length l1 → <[n := y]> (l1 ++ x :: l2) = l1 ++ y :: l2.
Proof.
  intros ->. rewrite <- (Nat.add_0_r (length l1)). by rewrite insert_app_r.
Qed.

Lemma inserts_middle {A} (l1 old new l2 : list A) (n : nat) :
  n = length l1 → length new = length old →
  list_inserts n new (l1 ++ old ++ l2) = l1 ++ new ++ l2.
Proof.
  intros -> Hlen. rewrite <- (Nat.add_0_r (length l1)).
  by rewrite list_inserts_app_r, list_inserts_0_r.
Qed.

(** A non-empty run of cells, seen from its last cell. *)
Lemma cons_as_snoc {A} (x : A) (l : list A) :
  ∃ l' y, x :: l = l' ++ [y] ∧ length l' = length l.
Proof.
  revert x. induction l as [| z l IH]; intros x.
  - by exists [], x.
  - destruct (IH z) as (l' & y & Heq & Hlen).
    exists (x :: l'), y. simpl. by rewrite Heq, Hlen.
Qed.

(** The second loop.  With [pre] still to be translated, [gap] the cells
    between the read and the write position ([3] per character of [pre]
    to escape) and [rest] already written, the loop leaves the escaped
    [pre] followed by [rest], and both positions at 0. *)
Lemma escape_copy_spec (pre : String) :
  ∀ gap rest : String,
    length gap = (3 * escaped_count pre)%nat →
    escape_copy (pre ++ gap ++ rest) (length pre) (length pre + length gap)
    = ((pre ≫= escape_char) ++ rest, 0%nat).
Proof.
  induction pre as [| c pre IH] using rev_ind; intros gap rest Hgap.
  - unfold escaped_count in Hgap. simpl in Hgap.
    destruct gap; [done | simpl in Hgap; lia].
  - rewrite escaped_count_snoc in Hgap.
    rewrite length_app, Nat.add_1_r. cbn [length escape_copy].
    rewrite <- !app_assoc. change ([c] ++ gap ++ rest) with (c :: gap ++ rest).
    rewrite (list_lookup_total_middle pre _ c (length pre)) by done.
    rewrite bind_app, bind_singleton. unfold escape_char at 2.
    destruct (is_control c) eqn:Hc; simpl in Hgap.
    + (* an escape sequence is written over the last four cells *)
      apply is_control_spec in Hc as [Hrange _].
      rewrite itot_control by done.
      assert (∃ gap' cells, gap = gap' ++ cells
                ∧ length gap' = (3 * escaped_count pre)%nat
                ∧ length cells = 3%nat) as (gap' & cells & -> & Hgap' & Hcells).
      { exists (take (3 * escaped_count pre) gap), (drop (3 * escaped_count pre) gap).
        rewrite take_drop, length_take, length_drop. split; [done | lia]. }
      destruct (cons_as_snoc c gap') as (mid & x & Hmid & Hlen).
      rewrite <- (app_assoc gap').
      change (c :: gap' ++ cells ++ rest) with ((c :: gap') ++ cells ++ rest).
      rewrite Hmid, <- !app_assoc.
      destruct cells as [| c1 [| c2 [| c3 [| ? ?]]]]; try done.
      rewrite (app_assoc pre mid).
      change ([x] ++ [c1; c2; c3] ++ rest) with ([x; c1; c2; c3] ++ rest).
      rewrite (inserts_middle (pre ++ mid) [x; c1; c2; c3])
        by (rewrite ?length_app; simpl; lia).
      change ([49; itot_digit (c / 16); itot_digit (c mod 16); 0] ++ rest)
        with ([49; itot_digit (c / 16); itot_digit (c mod 16)] ++ 0 :: rest).
      rewrite (app_assoc (pre ++ mid)).
      rewrite (insert_middle _ rest 0 92)
        by (rewrite !length_app; simpl; lia).
      rewrite <- (app_assoc (pre ++ mid)).
      change ([49; itot_digit (c / 16); itot_digit (c mod 16)] ++ 92 :: rest)
        with (49 :: [itot_digit (c / 16); itot_digit (c mod 16); 92] ++ rest).
      rewrite (insert_middle (pre ++ mid) _ 49 0x0F)
        by (rewrite !length_app; simpl; lia).
      replace (S (length pre) + length (gap' ++ [c1; c2; c3]) - 3 - 1)%nat
        with (length pre + length mid)%nat
        by (rewrite length_app; simpl; lia).
      rewrite <- (app_assoc pre mid).
      rewrite IH by lia.
      by rewrite <- ?app_assoc.
    + (* the character is copied to the write position *)
      destruct (cons_as_snoc c gap) as (mid & x & Hmid & Hlen).
      change (c :: gap ++ rest) with ((c :: gap) ++ rest).
      rewrite Hmid, <- !app_assoc.
      rewrite (app_assoc pre mid).
      rewrite (insert_middle (pre ++ mid) rest x c)
        by (rewrite length_app; lia).
      replace (S (length pre) + length gap - 1)%nat
        with (length pre + length mid)%nat by lia.
      rewrite <- (app_assoc pre mid).
      rewrite IH by lia.
      by rewrite <- ?app_assoc.
Qed.

(** The in-place algorithm computes the character-by-character escape. *)
Lemma EscapeControlChars_bind (s : String) :
  EscapeControlChars s = s ≫= escape_char.
Proof.
  unfold EscapeControlChars. cbv zeta.
  rewrite escape_length_spec, take_ge by done.
  assert (escape_copy (resize (length s + 3 * escaped_count s + 1) 0 s)
            (length s) (length s + 3 * escaped_count s)
          = ((s ≫= escape_char) ++ [0], 0%nat)) as ->.
  { rewrite <- Nat.add_assoc, resize_add_eq by done.
    rewrite replicate_add. cbn [replicate].
    pose proof (escape_copy_spec s (replicate (3 * escaped_count s) 0) [0]) as Hs.
    rewrite length_replicate in Hs. by apply Hs. }
  cbn [fst]. rewrite length_app. cbn [length]. rewrite Nat.add_sub.
  by apply resize_app.
Qed.

Lemma length_escaped (s : String) :
  length (s ≫= escape_char) = (length s + 3 * escaped_count s)%nat.
Proof.
  induction s as [| c s IH].
  - done.
  - rewrite bind_cons, length_app, IH.
    unfold escaped_count, escape_char. rewrite filter_cons.
    destruct (is_control c); case_decide; try done; simpl; lia.
Qed.

Lemma Unescape_sequence h l rest :
  UnescapeControlChars (0x0F :: h :: l :: 92 :: rest)
  = (16 * hex_value h + hex_value l) :: UnescapeControlChars rest.
Proof. reflexivity. Qed.

Lemma Unescape_plain c rest :
  c ≠ 0x0F →
  UnescapeControlChars (c :: rest) = c :: UnescapeControlChars rest.
Proof.
  intros Hc. apply Z.eqb_neq in Hc.
  destruct rest as [| h [| l [| b rest]]]; try reflexivity.
  cbn [UnescapeControlChars]. by rewrite Hc.
Qed.

Lemma Unescape_escaped (s : String) :
  UnescapeControlChars (s ≫= escape_char) = s.
Proof.
  induction s as [| c s IH]; [done |].
  rewrite bind_cons. unfold escape_char at 1.
  destruct (is_control c) eqn:Hc.
  - apply is_control_spec in Hc as [Hrange _].
    unfold escape_sequence.
    change ([15; itot_digit (c / 16); itot_digit (c mod 16); 92] ++ s ≫= escape_char)
      with (15 :: itot_digit (c / 16) :: itot_digit (c mod 16) :: 92
              :: s ≫= escape_char).
    by rewrite Unescape_sequence, IH, hex_value_control.
  - change ([c] ++ s ≫= escape_char) with (c :: s ≫= escape_char).
    rewrite Unescape_plain, IH; [done |].
    intros ->. done.
Qed.

(** C7: [EscapeControlChars] replaces each character with code in [0,31]
    other than TAB by the four characters 0x0F, high hex nibble, low hex
    nibble, backslash, and copies every other character (a TAB too) in
    order; the result is 3 longer per escaped character; and the reverse
    transform gives the original string back. *)
Theorem EscapeControlChars_spec (s : String) :
  EscapeControlChars s =
    s ≫= (λ c, if bool_decide (0 ≤ c ≤ 31 ∧ c ≠ 9)
               then [0x0F; itot_digit (c / 16); itot_digit (c mod 16); 92]
               else [c])
  ∧ length (EscapeControlChars s) =
      (length s + 3 * length (filter (λ c : TCHAR, (0 ≤ c ≤ 31 ∧ c ≠ 9)%Z) s))%nat
  ∧ UnescapeControlChars (EscapeControlChars s) = s
  ∧ EscapeControlChars [1; 9; 65] = [0x0F; 48; 49; 92; 9; 65].
Proof.
  rewrite !EscapeControlChars_bind. split; [| split; [| split]].
  - apply list_bind_ext; [| done]. intros c.
    unfold escape_char. by rewrite is_control_decide.
  - rewrite length_escaped. do 2 f_equal. unfold escaped_count. f_equal.
    apply list_filter_iff. intros c. apply is_control_spec.
  - apply Unescape_escaped.
  - reflexivity.
Qed.

(** C8, as stated, fails: a character equal to the lead-in byte 0x0F is
    itself a control character, and it is escaped. *)
Lemma EscapeControlChars_escapes_lead_in :
  EscapeControlChars [0x0F] = [0x0F; 48; 102; 92]
  ∧ EscapeControlChars [0x0F] ≠ [0x0F].
Proof. split; [reflexivity | discriminate]. Qed.

(** C8, amended: [EscapeControlChars] leaves a literal backslash
    unchanged wherever it appears, while a character equal to the lead-in
    byte 0x0F is escaped like every other control character, as the
    sequence 0x0F, '0', 'f', backslash. *)
Theorem EscapeControlChars_backslash_lead_in (before after : String) :
  EscapeControlChars (before ++ [92] ++ after)
  = EscapeControlChars before ++ [92] ++ EscapeControlChars after
  ∧ EscapeControlChars (before ++ [0x0F] ++ after)
  = EscapeControlChars before ++ [0x0F; 48; 102; 92] ++ EscapeControlChars after.
Proof.
  rewrite !EscapeControlChars_bind, !bind_app, !bind_singleton. done.
Qed.

(** ** Load pipeline: the final-line convention *)

Lemma not_eol_char_ne c :
  is_eol_char c = false → c ≠ CR ∧ c ≠ LF.
Proof.
  unfold is_eol_char. rewrite orb_false_iff, !Z.eqb_neq. tauto.
Qed.

Lemma reverse_eq_back {A} (l rest : list A) :
  reverse l = rest → l = reverse rest.
Proof. intros <-. by rewrite reverse_involutive. Qed.

Lemma last_char_not_eol (text rest : String) (c : TCHAR) :
  Forall (λ c, is_eol_char c = false) text →
  reverse text = c :: rest → c ≠ CR ∧ c ≠ LF.
Proof.
  intros Htext Hrev. apply not_eol_char_ne.
  rewrite Forall_forall in Htext. apply Htext.
  apply elem_of_reverse. rewrite Hrev. by left.
Qed.

(** The marker of a well-formed read is split off again exactly. *)
Lemma split_eol_read (text eol : String) :
  well_formed_read (text, eol) → split_eol (text ++ eol) = (text, eol).
Proof.
  intros [Htext Heol]. simpl in Htext, Heol.
  unfold split_eol.
  destruct Heol as [-> | [-> | [-> | ->]]]; rewrite reverse_app.
  - rewrite app_nil_r. simpl.
    destruct (reverse text) as [| c1 rest] eqn:Hrev.
    + by rewrite (reverse_eq_back _ _ Hrev).
    + destruct (last_char_not_eol _ _ _ Htext Hrev) as [Hcr Hlf].
      unfold is_eol_char.
      rewrite (proj2 (Z.eqb_neq c1 LF)), (proj2 (Z.eqb_neq c1 CR)) by done.
      destruct rest; [done |]. by rewrite andb_false_r.
  - simpl. destruct (reverse text) as [| c2 rest] eqn:Hrev.
    + by rewrite (reverse_eq_back _ _ Hrev).
    + destruct (last_char_not_eol _ _ _ Htext Hrev) as [Hcr Hlf].
      rewrite (proj2 (Z.eqb_neq c2 CR)) by done. simpl.
      by rewrite (reverse_eq_back _ _ Hrev).
  - simpl. destruct (reverse text) as [| c2 rest] eqn:Hrev.
    + by rewrite (reverse_eq_back _ _ Hrev).
    + destruct (last_char_not_eol _ _ _ Htext Hrev) as [Hcr Hlf].
      rewrite andb_false_r. simpl.
      by rewrite (reverse_eq_back _ _ Hrev).
  - simpl. by rewrite reverse_involutive.
Qed.

Lemma AppendLine_read (done rest : list LineInfo) (text eol : String) :
  well_formed_read (text, eol) →
  AppendLine (done ++ empty_line :: rest) (Z.of_nat (length done)) (text ++ eol)
  = (done ++ [line_of_read (text, eol)]) ++ rest.
Proof.
  intros Hwf. unfold AppendLine. rewrite Nat2Z.id.
  rewrite <- (Nat.add_0_r (length done)), alter_app_r. simpl.
  unfold LineInfo_Append. simpl. rewrite (split_eol_read _ _ Hwf).
  by rewrite <- app_assoc.
Qed.

Lemma grow_arraysize_gt (arraysize : Z) :
  0 < arraysize → arraysize < grow_arraysize arraysize.
Proof. unfold grow_arraysize. destruct (_ <? _); lia. Qed.

(** The array has a free cell at [lineno] once the growth test is done. *)
Lemma grown_array (done : list LineInfo) (k : nat) :
  (0 < length done + k)%nat →
  let lineno := Z.of_nat (length done) in
  let arraysize := Z.of_nat (length done + k) in
  ∃ k',
    (if lineno =? arraysize then grow_arraysize arraysize else arraysize)
    = Z.of_nat (length (done ++ [empty_line]) + k')
    ∧ (if lineno =? arraysize
       then resize (Z.to_nat (if lineno =? arraysize
                              then grow_arraysize arraysize else arraysize))
              empty_line (done ++ replicate k empty_line)
       else done ++ replicate k empty_line)
      = done ++ empty_line :: replicate k' empty_line.
Proof.
  intros Hpos lineno arraysize. subst lineno arraysize.
  rewrite length_app. simpl.
  destruct (Z.eqb_spec (Z.of_nat (length done)) (Z.of_nat (length done + k)))
    as [Heq | Hne].
  - assert (k = 0%nat) as -> by lia.
    rewrite Nat.add_0_r, app_nil_r.
    pose proof (grow_arraysize_gt (Z.of_nat (length done))) as Hgrow.
    set (m := (Z.to_nat (grow_arraysize (Z.of_nat (length done))) - length done)%nat).
    assert (m = S (m - 1)) as Hm by lia.
    exists (m - 1)%nat. split; [lia |].
    rewrite resize_ge by lia. fold m. by rewrite Hm at 1.
  - destruct k as [| k]; [lia |].
    exists k. split; [lia | done].
Qed.

Lemma lines_of_script_nil preveol :
  lines_of_script preveol [] = if bool_decide (preveol = []) then [] else [empty_line].
Proof. reflexivity. Qed.

Lemma lines_of_script_cons preveol text eol script :
  lines_of_script preveol ((text, eol) :: script)
  = line_of_read (text, eol) :: lines_of_script eol script.
Proof.
  unfold lines_of_script, last_eol_from. rewrite fmap_cons, last_cons.
  by destruct (last script).
Qed.

Section LoadProperties.
Context {Reader : Type}.
Variable ReadString : Reader → ReadResult * Reader.

(** The loop on a reader that plays [script], entered with [done] lines
    appended and [k] free cells: it returns with the lines of the script
    appended after [done]. *)
Lemma load_loop_spec (script : list (String * String)) :
  ∀ (fuel : nat) (pufile : Reader) (done : list LineInfo) (k : nat) (preveol : String),
    plays ReadString pufile script →
    Forall well_formed_read script →
    (length script < fuel)%nat →
    (0 < length done + k)%nat →
    ∃ pufile' k',
      load_loop ReadString fuel pufile (Z.of_nat (length done))
        (Z.of_nat (length done + k)) (done ++ replicate k empty_line) preveol
      = Some (pufile',
              Z.of_nat (length (done ++ lines_of_script preveol script)),
              (done ++ lines_of_script preveol script) ++ replicate k' empty_line).
Proof.
  induction script as [| [text eol] script IH];
    intros fuel pufile done k preveol Hplays Hwf Hfuel Hpos;
    (destruct fuel as [| fuel]; [simpl in Hfuel; lia |]);
    inversion Hplays as [r r' lossy Hread | r r' t e lossy sc Hread Hrest]; subst;
    cbn [load_loop]; rewrite Hread; cbn [rr_more rr_line rr_eol negb andb];
    destruct (grown_array done k Hpos) as (k' & Hsize & Hlines);
    cbv zeta in Hsize, Hlines.
  - (* the reader reports exhaustion *)
    rewrite lines_of_script_nil.
    case_bool_decide as Hprev.
    + exists r', k. by rewrite app_nil_r.
    + rewrite Hlines.
      rewrite (AppendLine_read done _ [] []) by (split; [by constructor | by left]).
      exists r', k'. do 3 f_equal. rewrite length_app. simpl. lia.
  - (* one more line *)
    apply Forall_cons in Hwf as [Hwf1 Hwf].
    rewrite Hlines, Hsize, (AppendLine_read done _ text eol Hwf1).
    replace (Z.of_nat (length done) + 1)
      with (Z.of_nat (length (done ++ [line_of_read (text, eol)])))
      by (rewrite length_app; simpl; lia).
    replace (length (done ++ [empty_line]))
      with (length (done ++ [line_of_read (text, eol)]))
      by (by rewrite !length_app).
    destruct (IH fuel r' (done ++ [line_of_read (text, eol)]) k' eol)
      as (pufile' & k'' & Hloop); [done | done | simpl in Hfuel; lia | | ].
    { rewrite length_app. simpl. lia. }
    rewrite Hloop, lines_of_script_cons.
    exists pufile', k''. by rewrite <- !app_assoc.
Qed.

(** [load_lines] on a reader that plays [script]. *)
Lemma load_lines_spec (script : list (String * String)) (fuel : nat) (pufile : Reader) :
  plays ReadString pufile script →
  Forall well_formed_read script →
  (length script < fuel)%nat →
  ∃ pufile',
    load_lines ReadString fuel pufile = Some (pufile', lines_of_script [LF] script).
Proof.
  intros Hplays Hwf Hfuel. unfold load_lines.
  destruct (load_loop_spec script fuel pufile [] 500 [LF] Hplays Hwf Hfuel)
    as (pufile' & k' & Hloop); [simpl; lia |].
  rewrite resize_nil.
  change (Z.to_nat 500) with 500%nat.
  cbn [length Nat.add app] in Hloop. change (Z.of_nat 0) with 0 in Hloop.
  change (Z.of_nat 500) with 500 in Hloop.
  rewrite Hloop. exists pufile'. rewrite Nat2Z.id. by rewrite resize_app.
Qed.
End LoadProperties.

(** [scan_line] cuts a non-empty input into a well-formed read and a
    strictly shorter remainder. *)
Lemma scan_line_spec (chars : String) :
  chars ≠ [] →
  ∃ text eol rest,
    scan_line chars = (text, eol, rest)
    ∧ well_formed_read (text, eol)
    ∧ (length rest < length chars)%nat.
Proof.
  induction chars as [| c chars IH]; [done |]. intros _.
  cbn [scan_line].
  destruct (Z.eqb_spec c LF) as [-> | Hlf].
  { exists [], [LF], chars. repeat split; [by constructor | | simpl; lia].
    right. by left. }
  destruct (Z.eqb_spec c CR) as [-> | Hcr].
  { destruct chars as [| c' chars'].
    - exists [], [CR], []. repeat split; [by constructor | | simpl; lia].
      right. right. by left.
    - destruct (Z.eqb_spec c' LF) as [-> | Hlf'].
      + exists [], [CR; LF], chars'. repeat split; [by constructor | | simpl; lia].
        by repeat right.
      + exists [], [CR], (c' :: chars'). repeat split; [by constructor | | simpl; lia].
        right. right. by left. }
  assert (is_eol_char c = false) as Hc.
  { unfold is_eol_char. apply orb_false_iff. by rewrite !Z.eqb_neq. }
  destruct chars as [| c' chars'].
  - exists [c], [], []. repeat split; [by repeat constructor | by left | simpl; lia].
  - destruct IH as (text & eol & rest & Hscan & [Htext Heol] & Hlen); [done |].
    rewrite Hscan. exists (c :: text), eol, rest.
    repeat split; [by constructor | done | simpl in *; lia].
Qed.

(** The modelled reader plays a well-formed script on every content, one
    read per line, so that loading any content returns. *)
Lemma UniMemFile_plays (n : nat) :
  ∀ content stats,
    (length content ≤ n)%nat →
    ∃ script,
      plays UniMemFile_ReadString (mk_UniMemFile content stats) script
      ∧ Forall well_formed_read script
      ∧ (length script ≤ length content)%nat.
Proof.
  induction n as [| n IH]; intros content stats Hlen.
  - destruct content; [| simpl in Hlen; lia].
    exists []. repeat split; [| by constructor | done].
    by eapply plays_done.
  - destruct content as [| c content].
    + exists []. repeat split; [| by constructor | done].
      by eapply plays_done.
    + destruct (scan_line_spec (c :: content)) as (text & eol & rest & Hscan & Hwf & Hshort);
        [done |].
      destruct (IH rest (count_eol eol stats)) as (script & Hplays & Hwfs & Hcount);
        [simpl in *; lia |].
      exists ((text, eol) :: script). repeat split.
      * eapply plays_read; [| exact Hplays].
        unfold UniMemFile_ReadString. cbn [um_rest um_stats]. by rewrite Hscan.
      * by constructor.
      * simpl in *. lia.
Qed.

(** C3: on a reader that yields the reads of a script and then reports
    exhaustion, the line splitting of [LoadFromFile] returns one line per
    read, and after them no extra line when the last read's EOL marker
    was empty, and exactly one empty line with empty marker when it was
    not (or when there was no read at all).  Loading the content
    "a\nb\n" yields "a"(LF), "b"(LF), ""(no marker), and loading a
    zero-byte file yields one empty line with empty marker, result OK. *)
Theorem LoadFromFile_final_line {Reader : Type}
    (ReadString : Reader → ReadResult * Reader) (pufile : Reader)
    (script : list (String * String)) (fuel : nat) :
  plays ReadString pufile script →
  Forall well_formed_read script →
  (length script < fuel)%nat →
  (∃ pufile',
     load_lines ReadString fuel pufile
     = Some (pufile',
             (line_of_read <$> script)
             ++ (if bool_decide (last_eol script = []) then [] else [empty_line])))
  ∧ LoadFromFile UniMemFile_ReadString um_stats 3 true true (mk_PackingInfo 0 false)
      (UniMemFile_open [97; 10; 98; 10]) CRLF_STYLE_AUTOMATIC fresh_buffer
    = Some (FRESULT_OK, false,
            mk_buffer
              [mk_LineInfo [97] [LF] 0 0; mk_LineInfo [98] [LF] 0 0; mk_LineInfo [] [] 0 0]
              true false CRLF_STYLE_UNIX 0 0 0 0 0%nat 0 EmptyString)
  ∧ LoadFromFile UniMemFile_ReadString um_stats 1 true true (mk_PackingInfo 0 false)
      (UniMemFile_open []) CRLF_STYLE_AUTOMATIC fresh_buffer
    = Some (FRESULT_OK, false,
            mk_buffer [mk_LineInfo [] [] 0 0]
              true false CRLF_STYLE_DOS 0 0 0 0 0%nat 0 EmptyString).
Proof.
  intros Hplays Hwf Hfuel. split; [| split].
  - exact (load_lines_spec ReadString script fuel pufile Hplays Hwf Hfuel).
  - by vm_compute.
  - by vm_compute.
Qed.

(** Closes [Forall well_formed_read] on a script written out. *)
Ltac solve_well_formed_reads :=
  repeat (apply Forall_cons_2 || apply Forall_nil_2);
  (split; [by repeat constructor | unfold is_eol_marker; simpl; auto]).

(** The reads of "a\nb" and of "a\nb\n": two lines, and three. *)
Lemma LoadFromFile_final_line_witness :
  (∃ pufile',
     load_lines UniMemFile_ReadString 3 (UniMemFile_open [97; 10; 98])
     = Some (pufile', [mk_LineInfo [97] [LF] 0 0; mk_LineInfo [98] [] 0 0]))
  ∧ (∃ pufile',
     load_lines UniMemFile_ReadString 3 (UniMemFile_open [97; 10; 98; 10])
     = Some (pufile',
             [mk_LineInfo [97] [LF] 0 0; mk_LineInfo [98] [LF] 0 0; empty_line])).
Proof.
  split.
  - apply (LoadFromFile_final_line UniMemFile_ReadString
             (UniMemFile_open [97; 10; 98]) [([97], [LF]); ([98], [])] 3).
    + eapply plays_read; [reflexivity |].
      eapply plays_read; [reflexivity |].
      eapply plays_done. reflexivity.
    + solve_well_formed_reads.
    + simpl. lia.
  - apply (LoadFromFile_final_line UniMemFile_ReadString
             (UniMemFile_open [97; 10; 98; 10]) [([97], [LF]); ([98], [LF])] 3).
    + eapply plays_read; [reflexivity |].
      eapply plays_read; [reflexivity |].
      eapply plays_done. reflexivity.
    + solve_well_formed_reads.
    + simpl. lia.
Defined.

(** Loading any content through the modelled reader returns, and the
    loaded buffer has at least one line. *)
Lemma LoadFromFile_returns (content : String) (nCrlfStyle : CRLFSTYLE)
    (buf : CDiffTextBuffer) :
  ∃ nRetVal lossy buf',
    LoadFromFile UniMemFile_ReadString um_stats (S (length content)) true true
      (mk_PackingInfo 0 false) (UniMemFile_open content) nCrlfStyle buf
    = Some (nRetVal, lossy, buf')
    ∧ m_aLines buf' ≠ [].
Proof.
  destruct (UniMemFile_plays (length content) content (mk_txtstats 0 0 0 0))
    as (script & Hplays & Hwf & Hcount); [done |].
  destruct (load_lines_spec UniMemFile_ReadString script (S (length content))
              (UniMemFile_open content) Hplays Hwf) as (pufile' & Hload); [lia |].
  unfold LoadFromFile. cbn [negb]. rewrite Hload.
  eexists _, _, _. split; [reflexivity |]. cbn [m_aLines].
  destruct script as [| [text eol] script]; [done |].
  by rewrite lines_of_script_cons.
Qed.

(** * Further properties of the code *)

(** ** EOL style detector *)

Lemma GetTextFileStyle_cases (stats : txtstats) :
  GetTextFileStyle stats ≠ CRLF_STYLE_AUTOMATIC
  ∧ (GetTextFileStyle stats = CRLF_STYLE_MIXED ↔ IsTextFileStylePure stats = false).
Proof.
  unfold GetTextFileStyle.
  destruct (IsTextFileStylePure stats); simpl.
  - repeat case_match; split; first [done | by split].
  - split; [done | by split].
Qed.

(** X1: whatever the three counts are, the detector never answers
    AUTOMATIC, and it answers MIXED exactly when the file is not pure. *)
Theorem GetTextFileStyle_resolved (stats : txtstats) :
  GetTextFileStyle stats ≠ CRLF_STYLE_AUTOMATIC
  ∧ (GetTextFileStyle stats = CRLF_STYLE_MIXED ↔ IsTextFileStylePure stats = false).
Proof. exact (GetTextFileStyle_cases stats). Qed.

(** ** Control-character escaper *)

Lemma itot_digit_printable d : 0 ≤ d → 48 ≤ itot_digit d.
Proof. intros Hd. unfold itot_digit. destruct (Z.ltb_spec d 10); lia. Qed.

(** X2: the escaper works character by character: escaping a
    concatenation is concatenating the escapes. *)
Theorem EscapeControlChars_app (s1 s2 : String) :
  EscapeControlChars (s1 ++ s2) = EscapeControlChars s1 ++ EscapeControlChars s2.
Proof. by rewrite !EscapeControlChars_bind, bind_app. Qed.

(** X3: in escaped text the only characters with a code in [0,31] are
    TAB and the lead-in 0x0F. *)
Theorem EscapeControlChars_no_control (s : String) (c : TCHAR) :
  c ∈ EscapeControlChars s → 0 ≤ c ≤ 31 → c = 9 ∨ c = 0x0F.
Proof.
  rewrite EscapeControlChars_bind. intros Hc Hrange.
  apply list_elem_of_bind in Hc as (y & Hc & _).
  unfold escape_char in Hc.
  destruct (is_control y) eqn:Hy.
  - apply is_control_spec in Hy as [Hy _].
    pose proof (itot_digit_printable (y / 16)).
    pose proof (itot_digit_printable (y mod 16)).
    pose proof (Z.div_pos y 16). pose proof (Z.mod_pos_bound y 16).
    unfold escape_sequence in Hc.
    repeat (apply elem_of_cons in Hc as [-> | Hc]); try lia.
    by apply elem_of_nil in Hc.
  - apply list_elem_of_singleton in Hc. subst y.
    destruct (decide (c = 9)) as [| Hne]; [by left |].
    assert (is_control c = true) by (by apply is_control_spec). congruence.
Qed.

Lemma EscapeControlChars_no_control_witness :
  (15 : TCHAR) ∈ EscapeControlChars [7; 9; 65] ∧ (15 = 9 ∨ 15 = 0x0F).
Proof.
  assert ((15 : TCHAR) ∈ EscapeControlChars [7; 9; 65]) as Hin
    by (vm_compute; by left).
  split; [exact Hin |].
  apply (EscapeControlChars_no_control [7; 9; 65] 15); [exact Hin | lia].
Defined.

(** X4: the escaper leaves a string as it is exactly when the string
    holds no character to escape. *)
Theorem EscapeControlChars_unchanged_iff (s : String) :
  EscapeControlChars s = s ↔ Forall (λ c, ¬ (0 ≤ c ≤ 31 ∧ c ≠ 9)) s.
Proof.
  rewrite EscapeControlChars_bind. split.
  - intros Heq. apply (f_equal length) in Heq.
    rewrite length_escaped in Heq.
    assert (escaped_count s = 0%nat) as Hcount by lia.
    unfold escaped_count in Hcount. apply length_zero_iff_nil in Hcount.
    apply Forall_forall. intros c Hc Hctl.
    apply is_control_spec in Hctl.
    assert (c ∈ filter (λ c, is_control c = true) s) as Hin
      by (by apply list_elem_of_filter).
    rewrite Hcount in Hin. by apply elem_of_nil in Hin.
  - induction 1 as [| c s Hc _ IH]; [done |].
    rewrite bind_cons, IH. unfold escape_char.
    destruct (is_control c) eqn:Hctl; [| done].
    by apply is_control_spec in Hctl.
Qed.

(** X5: the escaper is injective: two strings with the same escaped text
    are the same string. *)
Theorem EscapeControlChars_inj (s1 s2 : String) :
  EscapeControlChars s1 = EscapeControlChars s2 → s1 = s2.
Proof.
  rewrite !EscapeControlChars_bind. intros Heq.
  apply (f_equal UnescapeControlChars) in Heq.
  by rewrite !Unescape_escaped in Heq.
Qed.

Lemma EscapeControlChars_inj_witness :
  EscapeControlChars [1; 9; 65] = EscapeControlChars [1; 9; 65]
  ∧ [1; 9; 65] = [1; 9; 65].
Proof.
  split; [reflexivity |].
  apply (EscapeControlChars_inj [1; 9; 65] [1; 9; 65]). reflexivity.
Defined.

(** ** Line flags *)

Lemma land_eq_iff_bits (x a : Z) :
  Z.land x a = a ↔ ∀ i, 0 ≤ i → Z.testbit a i = true → Z.testbit x i = true.
Proof.
  split.
  - intros Heq i Hi Ha. rewrite <- Heq in Ha.
    rewrite Z.land_spec in Ha. by apply andb_true_iff in Ha as [? _].
  - intros Hbits. apply Z.bits_inj'. intros i Hi.
    rewrite Z.land_spec. destruct (Z.testbit a i) eqn:Ha.
    + by rewrite (Hbits i Hi Ha).
    + by rewrite andb_false_r.
Qed.

(** X6: [FlagIsSet] asks for all the bits of its argument: on a
    combination of two flags it answers true exactly when it does on both. *)
Theorem FlagIsSet_lor (buf : CDiffTextBuffer) (line flag1 flag2 : Z) :
  FlagIsSet buf line (Z.lor flag1 flag2)
  = FlagIsSet buf line flag1 && FlagIsSet buf line flag2.
Proof.
  unfold FlagIsSet. set (x := m_dwFlags (line_at buf line)).
  apply eq_true_iff_eq. rewrite andb_true_iff, !Z.eqb_eq, !land_eq_iff_bits.
  split.
  - intros Hor. split; intros i Hi Hbit; apply (Hor i Hi);
      rewrite Z.lor_spec, Hbit; [done | by rewrite orb_true_r].
  - intros [H1 H2] i Hi Hbit. rewrite Z.lor_spec in Hbit.
    apply orb_true_iff in Hbit as [Hbit | Hbit]; [by apply H1 | by apply H2].
Qed.

(** ** Plain line retrieval *)

(** [_tcsncpy] of a text followed by more characters, for the length of
    the text: the text up to its first zero, then zeros. *)
Lemma tcsncpy_text (text rest : String) :
  ∃ k : nat,
    (k ≤ length text)%nat
    ∧ Forall (λ c, c ≠ 0) (take k text)
    ∧ ((k < length text)%nat → text !! k = Some 0)
    ∧ _tcsncpy (text ++ rest) (length text)
      = take k text ++ replicate (length text - k) 0.
Proof.
  induction text as [| c text IH].
  - exists 0%nat. split_and!; [done | by rewrite take_0 | simpl; lia | done].
  - cbn [app length _tcsncpy].
    destruct (Z.eqb_spec c 0) as [-> | Hc].
    + exists 0%nat. split_and!; [lia | by rewrite take_0 | done | done].
    + destruct IH as (k & Hk & Hnz & Hzero & Hcopy).
      exists (S k). rewrite Hcopy. cbn [take length lookup list_lookup].
      split_and!; [lia | by constructor | intros; apply Hzero; lia | done].
Qed.

(** X7: [GetLine] always succeeds and hands back as many characters as
    the line's text has: the text up to its first zero character, the
    rest filled with zeros.  So it hands back exactly the text when the
    text holds no zero, and then [GetFullLine], when it succeeds, hands
    back this text followed by the line's EOL marker. *)
Theorem GetLine_spec (buf : CDiffTextBuffer) (nLineIndex : Z) (strLine : String) :
  let text := li_text (line_at buf nLineIndex) in
  (∃ k : nat,
     (k ≤ length text)%nat
     ∧ Forall (λ c, c ≠ 0) (take k text)
     ∧ ((k < length text)%nat → text !! k = Some 0)
     ∧ GetLine buf nLineIndex strLine
       = (true, take k text ++ replicate (length text - k) 0))
  ∧ (Forall (λ c, c ≠ 0) text →
     GetLine buf nLineIndex strLine = (true, text)
     ∧ ((GetFullLine buf nLineIndex strLine).1 = true →
        (GetFullLine buf nLineIndex strLine).2
        = (GetLine buf nLineIndex strLine).2 ++ GetLineEol buf nLineIndex)).
Proof.
  intros text.
  assert (∃ k : nat,
     (k ≤ length text)%nat
     ∧ Forall (λ c, c ≠ 0) (take k text)
     ∧ ((k < length text)%nat → text !! k = Some 0)
     ∧ GetLine buf nLineIndex strLine
       = (true, take k text ++ replicate (length text - k) 0)) as Hgen.
  { unfold GetLine, GetLineLength, GetLineChars. fold text.
    destruct (Z.ltb_spec (Z.of_nat (length text)) 0); [lia |].
    destruct (Z.eqb_spec (Z.of_nat (length text)) 0) as [Hz | Hnz].
    - exists 0%nat. destruct text; [| simpl in Hz; lia].
      split_and!; [done | by rewrite take_0 | simpl; lia | done].
    - rewrite Nat2Z.id.
      destruct (tcsncpy_text text (li_eol (line_at buf nLineIndex)))
        as (k & Hk & Hnz' & Hzero & Hcopy).
      exists k. by rewrite Hcopy. }
  split; [exact Hgen |].
  intros Hclean.
  destruct Hgen as (k & Hk & _ & Hzero & Hget).
  assert (k = length text) as ->.
  { destruct (decide (k < length text)%nat) as [Hlt | ?]; [| lia].
    specialize (Hzero Hlt). rewrite Forall_lookup in Hclean.
    by specialize (Hclean _ _ Hzero). }
  rewrite Hget, take_ge, Nat.sub_diag, app_nil_r by done.
  split; [done |].
  unfold GetFullLine, GetFullLineLength, GetLineChars, GetLineEol. fold text.
  destruct (_ =? 0) eqn:Hlen; [done |]. intros _. cbn [snd].
  by rewrite <- length_app, Nat2Z.id, memcpy_into_all.
Qed.

Lemma GetLine_spec_witness :
  GetLine sample_buffer 0 [120] = (true, [97])
  ∧ ((GetFullLine sample_buffer 0 [120]).1 = true →
     (GetFullLine sample_buffer 0 [120]).2
     = (GetLine sample_buffer 0 [120]).2 ++ GetLineEol sample_buffer 0).
Proof.
  apply (GetLine_spec sample_buffer 0 [120]).
  repeat constructor. done.
Defined.

(** ** Preparing a rescan *)

(** The flag word of a line once the flags of the rescan are cleared. *)
Lemma prepareForRescan_loop_lookup `{LineFlags} (n : nat) :
  ∀ (buf : CDiffTextBuffer) (i : nat),
    m_aLines (prepareForRescan_loop n buf) !! i
    = if decide (i < n)%nat
      then (λ li, mk_LineInfo (li_text li) (li_eol li)
                    (Z.land (m_dwFlags li) (dword_not rescan_flags))
                    (m_dwRevisionNumber li)) <$> m_aLines buf !! i
      else m_aLines buf !! i.
Proof.
  induction n as [| ct IH]; intros buf i; [done |].
  cbn [prepareForRescan_loop]. rewrite IH.
  unfold SetLineFlag. destruct (Z.ltb_spec (Z.of_nat ct) 0); [lia |].
  cbn [m_aLines set_lines]. rewrite Nat2Z.id.
  destruct (decide (i = ct)) as [-> | Hne].
  - rewrite list_lookup_alter_eq.
    rewrite decide_False, decide_True by lia.
    unfold GetLineFlags, line_at. rewrite Nat2Z.id.
    destruct (m_aLines buf !! ct) as [li |] eqn:Hli; [| done].
    by rewrite (list_lookup_total_correct _ _ _ Hli).
  - rewrite list_lookup_alter_ne by done.
    repeat case_decide; first [done | lia].
Qed.

Lemma testbit_clear_flags f mask j :
  0 ≤ j < 32 →
  Z.testbit (Z.land f (dword_not mask)) j = Z.testbit f j && negb (Z.testbit mask j).
Proof.
  intros Hj. rewrite Z.land_spec, testbit_dword_not by lia.
  destruct (Z.ltb_spec j 32); [| lia].
  by destruct (Z.testbit mask j), (Z.testbit f j).
Qed.

(** X8: [prepareForRescan] leaves, on every line that
    [RemoveAllGhostLines] left, none of the flags INVISIBLE, DIFF,
    TRIVIAL, MOVED and SNP set; it keeps the GHOST flag, the characters
    of each line and the number of lines. *)
Theorem prepareForRescan_flags `{LineFlags}
    (RemoveAllGhostLines : CDiffTextBuffer → CDiffTextBuffer)
    (buf : CDiffTextBuffer) (nLine : Z) :
  flags_independent →
  LF_INVISIBLE ≠ LF_GHOST →
  0 ≤ nLine < GetLineCount (RemoveAllGhostLines buf) →
  let buf' := prepareForRescan RemoveAllGhostLines buf in
  Forall (λ flag, FlagIsSet buf' nLine flag = false)
    [LF_INVISIBLE; LF_DIFF; LF_TRIVIAL; LF_MOVED; LF_SNP]
  ∧ FlagIsSet buf' nLine LF_GHOST = FlagIsSet (RemoveAllGhostLines buf) nLine LF_GHOST
  ∧ GetLineChars buf' nLine = GetLineChars (RemoveAllGhostLines buf) nLine
  ∧ GetLineCount buf' = GetLineCount (RemoveAllGhostLines buf).
Proof.
  intros [Hbits Hne] HIG Hn buf'. subst buf'. unfold prepareForRescan.
  set (base := RemoveAllGhostLines buf) in *.
  assert (Z.to_nat (GetLineCount base) = length (m_aLines base)) as Hlen
    by (unfold GetLineCount; apply Nat2Z.id).
  rewrite Hlen. unfold GetLineCount in Hn.
  destruct (lookup_lt_is_Some_2 (m_aLines base) (Z.to_nat nLine)) as [li Hli]; [lia |].
  pose proof (prepareForRescan_loop_lookup (length (m_aLines base)) base
                (Z.to_nat nLine)) as Hlook.
  rewrite decide_True, Hli in Hlook by lia. cbn [fmap option_fmap option_map] in Hlook.
  assert (GetLineCount (prepareForRescan_loop (length (m_aLines base)) base)
          = GetLineCount base) as Hcount.
  { unfold GetLineCount. f_equal. apply Nat.le_antisymm.
    - apply Nat.nlt_ge. intros Hlt. apply lookup_lt_is_Some_2 in Hlt as [x Hx].
      rewrite prepareForRescan_loop_lookup in Hx.
      rewrite decide_False in Hx by lia.
      apply lookup_lt_Some in Hx. lia.
    - apply Nat.nlt_ge. intros Hlt. apply lookup_lt_is_Some_2 in Hlt as [x Hx].
      pose proof (prepareForRescan_loop_lookup (length (m_aLines base)) base
                    (length (m_aLines (prepareForRescan_loop
                                         (length (m_aLines base)) base)))) as Hl.
      rewrite Hx in Hl. rewrite (proj2 (lookup_ge_None _ _)) in Hl by lia.
      by case_decide. }
  unfold FlagIsSet, GetLineChars, line_at.
  rewrite (list_lookup_total_correct _ _ _ Hlook), (list_lookup_total_correct _ _ _ Hli).
  cbn [m_dwFlags li_text li_eol].
  apply Forall_cons in Hbits as [(kI & HkI & HI) Hbits].
  apply Forall_cons in Hbits as [(kD & HkD & HD) Hbits].
  apply Forall_cons in Hbits as [(kG & HkG & HG) Hbits].
  apply Forall_cons in Hbits as [(kT & HkT & HT) Hbits].
  apply Forall_cons in Hbits as [(kM & HkM & HM) Hbits].
  apply Forall_cons in Hbits as [(kS & HkS & HS) _].
  apply Forall_cons in Hne as [[HDG _] Hne].
  apply Forall_cons in Hne as [[HTG _] Hne].
  apply Forall_cons in Hne as [[HMG _] Hne].
  apply Forall_cons in Hne as [[HSG _] _].
  assert (∀ j, 0 ≤ j →
            Z.testbit rescan_flags j
            = (kI =? j) || (kD =? j) || (kT =? j) || (kM =? j) || (kS =? j)) as Hmask.
  { intros j Hj. unfold rescan_flags. rewrite HI, HD, HT, HM, HS.
    by rewrite !Z.lor_spec, !Z.pow2_bits_eqb by lia. }
  rewrite HI, HD, HG, HT, HM, HS in *.
  split_and!; [| | done | exact Hcount].
  - repeat apply Forall_cons_2; try apply Forall_nil_2;
      rewrite flag_test_single_bit, testbit_clear_flags, Hmask by lia;
      rewrite Z.eqb_refl, ?orb_true_r; simpl; apply andb_false_r.
  - rewrite !flag_test_single_bit, testbit_clear_flags, Hmask by lia.
    assert (∀ k, 2 ^ k ≠ 2 ^ kG → (k =? kG) = false) as Hother
      by (intros k Hk; apply Z.eqb_neq; congruence).
    rewrite !Hother by done. simpl. apply andb_true_r.
Qed.

Lemma prepareForRescan_flags_witness :
  Forall (λ flag,
            FlagIsSet (@prepareForRescan MergeLineFlags drop_ghost_lines sample_buffer)
              0 flag = false)
    [0x80000000; 0x00200000; 0x00800000; 0x01000000; 0x02000000]
  ∧ FlagIsSet (@prepareForRescan MergeLineFlags drop_ghost_lines sample_buffer)
      0 0x00400000
    = FlagIsSet (drop_ghost_lines sample_buffer) 0 0x00400000
  ∧ GetLineChars (@prepareForRescan MergeLineFlags drop_ghost_lines sample_buffer) 0
    = GetLineChars (drop_ghost_lines sample_buffer) 0
  ∧ GetLineCount (@prepareForRescan MergeLineFlags drop_ghost_lines sample_buffer)
    = GetLineCount (drop_ghost_lines sample_buffer).
Proof.
  apply (@prepareForRescan_flags MergeLineFlags drop_ghost_lines sample_buffer 0).
  - exact MergeLineFlags_independent.
  - discriminate.
  - vm_compute. split; [discriminate | reflexivity].
Defined.

(** ** Load pipeline: what every load leaves *)

Section LoadInvariants.
Context {Reader : Type}.
Variable ReadString : Reader → ReadResult * Reader.
Variable GetTxtStats : Reader → txtstats.

(** A line that carries no flag and no revision. *)
Let fresh_line := λ li : LineInfo, m_dwFlags li = 0 ∧ m_dwRevisionNumber li = 0.

(** The loop never gives lines back, appends at least one line unless it
    is entered after an unterminated line, and sets no flag. *)
Lemma load_loop_progress (fuel : nat) :
  ∀ pufile lineno arraysize lines preveol pufile' lineno' lines',
    load_loop ReadString fuel pufile lineno arraysize lines preveol
    = Some (pufile', lineno', lines') →
    Forall fresh_line lines →
    lineno ≤ lineno'
    ∧ (preveol ≠ [] → lineno < lineno')
    ∧ Forall fresh_line lines'.
Proof.
  induction fuel as [| fuel IH];
    intros pufile lineno arraysize lines preveol pufile' lineno' lines' Hloop Hfresh;
    [done |].
  cbn [load_loop] in Hloop.
  destruct (ReadString pufile) as [res pufile1].
  destruct (negb (rr_more res) && bool_decide (preveol = [])) eqn:Hquit.
  - injection Hloop as <- <- <-.
    apply andb_true_iff in Hquit as [_ Hprev]. apply bool_decide_eq_true in Hprev.
    split_and!; [lia | done | done].
  - match type of Hloop with
    | context [AppendLine ?l _ _] => assert (Forall fresh_line (AppendLine l lineno
                                               (rr_line res ++ rr_eol res))) as Hnew
    end.
    { unfold AppendLine. apply Forall_alter.
      - destruct (lineno =? arraysize); [| done].
        by apply Forall_resize.
      - intros li _ [Hf Hr]. unfold LineInfo_Append.
        by destruct (split_eol _). }
    destruct (negb (rr_more res)).
    + injection Hloop as <- <- <-. split_and!; [lia | lia | done].
    + apply IH in Hloop as (Hle & _ & Hfresh'); [| done].
      split_and!; [lia | lia | done].
Qed.
End LoadInvariants.

(** X9: whenever [LoadFromFile] returns, on any reader and with any
    outcome of unpacking and opening, the buffer has at least one line,
    is initialized and unmodified with both undo positions at 0, its
    recorded EOL style is not AUTOMATIC, no line carries a flag, and the
    result is never BINARY. *)
Theorem LoadFromFile_invariants {Reader : Type}
    (ReadString : Reader → ReadResult * Reader) (GetTxtStats : Reader → txtstats)
    (fuel : nat) (unpack_ok open_ok : bool) (infoUnpacker : PackingInfo)
    (pufile : Reader) (nCrlfStyle : CRLFSTYLE) (buf buf' : CDiffTextBuffer)
    (nRetVal : FRESULT) (lossy : bool) :
  LoadFromFile ReadString GetTxtStats fuel unpack_ok open_ok infoUnpacker pufile
    nCrlfStyle buf
  = Some (nRetVal, lossy, buf') →
  m_aLines buf' ≠ []
  ∧ m_bInit buf' = true
  ∧ m_bModified buf' = false
  ∧ m_nSyncPosition buf' = 0
  ∧ m_nUndoPosition buf' = 0
  ∧ m_nCRLFMode buf' ≠ CRLF_STYLE_AUTOMATIC
  ∧ Forall (λ li, m_dwFlags li = 0) (m_aLines buf')
  ∧ nRetVal ≠ FRESULT_BINARY.
Proof.
  unfold LoadFromFile.
  destruct unpack_ok; cbn [negb];
    [| intros [= <- <- <-]; split_and!; try done; by repeat constructor].
  destruct open_ok; cbn [negb];
    [| intros [= <- <- <-]; split_and!; try done; by repeat constructor].
  unfold load_lines.
  destruct (load_loop _ _ _ _ _ _ _) as [[[pufile' lineno'] lines'] |] eqn:Hloop;
    [| done].
  apply load_loop_progress in Hloop as (_ & Hpos & Hfresh);
    [| rewrite resize_nil; by apply Forall_replicate].
  specialize (Hpos ltac:(done)).
  intros [= <- <- <-]. cbn [m_aLines m_bInit m_bModified m_nSyncPosition
                             m_nUndoPosition m_nCRLFMode].
  split_and!; try done.
  - intros Hnil. apply (f_equal length) in Hnil.
    rewrite length_resize in Hnil. simpl in Hnil. lia.
  - case_decide as Hauto; [apply GetTextFileStyle_cases | done].
  - apply Forall_resize; [done |].
    eapply Forall_impl; [exact Hfresh |]. by intros li [? _].
  - by destruct (IsTextFileStylePure _).
Qed.

Lemma LoadFromFile_invariants_witness :
  LoadFromFile UniMemFile_ReadString um_stats 3 true true (mk_PackingInfo 0 false)
    (UniMemFile_open [97; 13; 98; 10]) CRLF_STYLE_AUTOMATIC fresh_buffer
  = Some (FRESULT_OK_IMPURE, false,
          mk_buffer
            [mk_LineInfo [97] [CR] 0 0; mk_LineInfo [98] [LF] 0 0; mk_LineInfo [] [] 0 0]
            true false CRLF_STYLE_MIXED 0 0 0 0 0%nat 0 EmptyString)
  ∧ m_nCRLFMode
      (mk_buffer
         [mk_LineInfo [97] [CR] 0 0; mk_LineInfo [98] [LF] 0 0; mk_LineInfo [] [] 0 0]
         true false CRLF_STYLE_MIXED 0 0 0 0 0%nat 0 EmptyString)
    ≠ CRLF_STYLE_AUTOMATIC.
Proof.
  assert (LoadFromFile UniMemFile_ReadString um_stats 3 true true (mk_PackingInfo 0 false)
            (UniMemFile_open [97; 13; 98; 10]) CRLF_STYLE_AUTOMATIC fresh_buffer
          = Some (FRESULT_OK_IMPURE, false,
                  mk_buffer
                    [mk_LineInfo [97] [CR] 0 0; mk_LineInfo [98] [LF] 0 0;
                     mk_LineInfo [] [] 0 0]
                    true false CRLF_STYLE_MIXED 0 0 0 0 0%nat 0 EmptyString)) as Hload
    by (by vm_compute).
  split; [exact Hload |].
  apply (LoadFromFile_invariants _ _ _ _ _ _ _ _ _ _ _ _ Hload).
Defined.

(** ** Save pipeline: what is written *)

Section SavedText.
Context `{LineFlags}.

Lemma last_real_line_ghosts (lines : list LineInfo) (i acc : Z) :
  Forall (λ li, is_ghost li = true) lines → last_real_line lines i acc = acc.
Proof.
  intros Hghost. revert i acc.
  induction Hghost as [| li lines Hli _ IH]; intros i acc; [done |].
  cbn [last_real_line]. unfold is_ghost in Hli.
  destruct (_ =? 0); [done | apply IH].
Qed.

Lemma last_real_line_range (lines : list LineInfo) :
  ∀ i acc,
    last_real_line lines i acc = acc
    ∨ i ≤ last_real_line lines i acc < i + Z.of_nat (length lines).
Proof.
  induction lines as [| li lines IH]; intros i acc; [by left |].
  cbn [last_real_line length].
  destruct (_ =? 0).
  - destruct (IH (i + 1) i) as [-> | ?]; right; lia.
  - destruct (IH (i + 1) acc) as [-> | ?]; [by left | right; lia].
Qed.

Lemma last_real_line_real (lines : list LineInfo) :
  ∀ i acc,
    ¬ Forall (λ li, is_ghost li = true) lines →
    i ≤ last_real_line lines i acc < i + Z.of_nat (length lines).
Proof.
  induction lines as [| li lines IH]; intros i acc Hreal.
  - exfalso. apply Hreal. constructor.
  - cbn [last_real_line length].
    destruct (Z.land (m_dwFlags li) LF_GHOST =? 0) eqn:Hli.
    + destruct (last_real_line_range lines (i + 1) i) as [-> | ?]; lia.
    + assert (¬ Forall (λ li, is_ghost li = true) lines) as Hrest.
      { intros Hall. apply Hreal. constructor; [| done].
        unfold is_ghost. by rewrite Hli. }
      specialize (IH (i + 1) acc Hrest). lia.
Qed.

Lemma last_real_line_app (lines1 lines2 : list LineInfo) :
  ∀ i acc,
    last_real_line (lines1 ++ lines2) i acc
    = last_real_line lines2 (i + Z.of_nat (length lines1))
        (last_real_line lines1 i acc).
Proof.
  induction lines1 as [| li lines1 IH]; intros i acc.
  - simpl. by rewrite Z.add_0_r.
  - cbn [app last_real_line length]. rewrite IH. f_equal. lia.
Qed.

Lemma real_lines_nil_iff (lines : list LineInfo) :
  real_lines lines = [] ↔ Forall (λ li, is_ghost li = true) lines.
Proof.
  unfold real_lines. induction lines as [| li lines IH]; [done |].
  rewrite filter_cons, Forall_cons.
  destruct (is_ghost li) eqn:Hli; case_decide; try done.
  - rewrite IH. tauto.
  - split; [done | by intros [? _]].
Qed.

Lemma joined_lines_cons bTempFile nCrlfStyle li rest :
  rest ≠ [] →
  joined_lines bTempFile nCrlfStyle (li :: rest)
  = written_text bTempFile li ++ written_eol nCrlfStyle li
    ++ joined_lines bTempFile nCrlfStyle rest.
Proof. by destruct rest. Qed.

Variable OPT_ALLOW_MIXED_EOL : bool.
Variable GetTemporaryFileName : string → gmap string String → string.
Variable OpenCreate : string → gmap string String → bool.
Variable FileTransform_Packing :
  string → PackingInfo → gmap string String → bool * string * gmap string String.

(** The line loop over the lines [mid] of a buffer [pre ++ mid ++ post]. *)
Lemma save_lines_range (buf : CDiffTextBuffer) (bTempFile : bool)
    (nCrlfStyle : CRLFSTYLE) (mid : list LineInfo) :
  ∀ (pre post : list LineInfo) (out : String),
    m_aLines buf = pre ++ mid ++ post →
    save_lines buf bTempFile nCrlfStyle (length mid) (Z.of_nat (length pre)) out
    = out ++ (if bool_decide (Forall (λ li, is_ghost li = true) post)
              then joined_lines bTempFile nCrlfStyle (real_lines mid)
              else terminated_lines bTempFile nCrlfStyle (real_lines mid)).
Proof.
  induction mid as [| li mid IH]; intros pre post out Hlines.
  - simpl. case_bool_decide; by rewrite app_nil_r.
  - cbn [length save_lines].
    assert (line_at buf (Z.of_nat (length pre)) = li) as Hat.
    { unfold line_at. rewrite Nat2Z.id, Hlines.
      by apply list_lookup_total_middle. }
    assert (m_aLines buf = (pre ++ [li]) ++ mid ++ post) as Hnext
      by (by rewrite Hlines, <- app_assoc).
    replace (Z.of_nat (length pre) + 1) with (Z.of_nat (length (pre ++ [li])))
      by (rewrite length_app; simpl; lia).
    unfold GetLineFlags, GetLineLength, GetLineChars, GetLineEol. rewrite Hat.
    unfold real_lines. rewrite filter_cons. fold (real_lines mid).
    destruct (is_ghost li) eqn:Hghost; unfold is_ghost in Hghost; rewrite Hghost;
      cbn [negb].
    { rewrite decide_False by done. by apply IH. }
    rewrite decide_True by done.
    assert ((if 0 <? Z.of_nat (length (li_text li))
             then take (Z.to_nat (Z.of_nat (length (li_text li))))
                    (li_text li ++ li_eol li)
             else []) = li_text li) as ->.
    { destruct (li_text li) as [| c text] eqn:Htext; [done |].
      destruct (Z.ltb_spec 0 (Z.of_nat (length (c :: text)))); [| simpl in *; lia].
      by rewrite Nat2Z.id, take_app_length. }
    fold (written_text bTempFile li).
    assert (ApparentLastRealLine buf
            = last_real_line (mid ++ post) (Z.of_nat (length pre) + 1)
                (Z.of_nat (length pre))) as HL.
    { unfold ApparentLastRealLine. rewrite Hlines, last_real_line_app.
      cbn [app last_real_line]. apply negb_false_iff in Hghost.
      by rewrite Hghost, !Z.add_0_l. }
    rewrite HL.
    destruct (decide (Forall (λ li, is_ghost li = true) (mid ++ post))) as [Hall | Hsome].
    + (* the last real line: written without a marker *)
      rewrite (last_real_line_ghosts _ _ _ Hall), Z.eqb_refl. cbn [orb].
      apply Forall_app in Hall as [Hmid Hpost].
      rewrite bool_decide_eq_true_2 by done.
      apply real_lines_nil_iff in Hmid. by rewrite Hmid.
    + pose proof (last_real_line_real (mid ++ post) (Z.of_nat (length pre) + 1)
                    (Z.of_nat (length pre)) Hsome) as Hrange.
      destruct (Z.eqb_spec (Z.of_nat (length pre))
                  (last_real_line (mid ++ post) (Z.of_nat (length pre) + 1)
                     (Z.of_nat (length pre)))); [lia |].
      destruct (Z.eqb_spec (last_real_line (mid ++ post) (Z.of_nat (length pre) + 1)
                              (Z.of_nat (length pre))) (-1)); [lia |].
      cbn [orb].
      assert ((if bool_decide (nCrlfStyle = CRLF_STYLE_AUTOMATIC)
                  || bool_decide (nCrlfStyle = CRLF_STYLE_MIXED)
               then written_text bTempFile li ++ li_eol li
               else written_text bTempFile li ++ GetStringEol nCrlfStyle)
              = written_text bTempFile li ++ written_eol nCrlfStyle li) as ->
        by (unfold written_eol; by destruct (_ || _)).
      rewrite (IH _ _ _ Hnext), <- !app_assoc. do 2 f_equal.
      case_bool_decide as Hpost.
      * rewrite joined_lines_cons; [done |].
        intros Hnil. apply real_lines_nil_iff in Hnil.
        apply Hsome. by apply Forall_app.
      * unfold terminated_lines. by rewrite bind_cons, <- app_assoc.
Qed.

(** The content of the output file once the write stage is through. *)
Lemma SaveToFile_write_content (w w1 : World) (pszFileName : string)
    (bTempFile : bool) (infoUnpacker : option PackingInfo) (nCrlfStyle : CRLFSTYLE)
    (nStartLine nLines : Z) (sIntermediateFilename : string)
    (pre mid post : list LineInfo) :
  m_aLines (w_buf w) = pre ++ mid ++ post →
  nStartLine = Z.of_nat (length pre) →
  nLines = Z.of_nat (length mid) ∨ (nLines = -1 ∧ post = []) →
  SaveToFile_write OPT_ALLOW_MIXED_EOL GetTemporaryFileName OpenCreate
    w pszFileName bTempFile infoUnpacker nCrlfStyle nStartLine nLines
  = Written sIntermediateFilename w1 →
  let style :=
    SaveToFile_crlf_style OPT_ALLOW_MIXED_EOL nCrlfStyle infoUnpacker (w_buf w) in
  w_fs w1 !! (if bTempFile then pszFileName else sIntermediateFilename)
  = Some (if bool_decide (Forall (λ li, is_ghost li = true) post)
          then joined_lines bTempFile style (real_lines mid)
          else terminated_lines bTempFile style (real_lines mid)).
Proof.
  intros Hlines Hstart Hcount Hwrite style. subst style.
  unfold SaveToFile_write in Hwrite. cbv zeta in Hwrite.
  assert ((if nLines =? -1 then GetLineCount (w_buf w) - nStartLine else nLines)
          = Z.of_nat (length mid)) as Hn.
  { destruct Hcount as [-> | [-> ->]].
    - destruct (Z.eqb_spec (Z.of_nat (length mid)) (-1)); [lia | done].
    - cbn [Z.eqb]. unfold GetLineCount. rewrite Hlines, !length_app. simpl. lia. }
  rewrite Hn, Nat2Z.id, Hstart in Hwrite.
  rewrite (save_lines_range _ _ _ mid pre post [] Hlines) in Hwrite.
  cbn [app] in Hwrite.
  case_bool_decide; [done |].
  destruct bTempFile; cbn [negb andb] in Hwrite.
  - destruct (OpenCreate _ _); [| done]. cbn [negb] in Hwrite.
    injection Hwrite as <- <-. cbn [w_fs set_fs]. apply lookup_insert_eq.
  - case_bool_decide; [done |].
    destruct (OpenCreate _ _); [| done]. cbn [negb] in Hwrite.
    injection Hwrite as <- <-. cbn [w_fs set_fs]. apply lookup_insert_eq.
Qed.

(** X10: once [SaveToFile] has written its output file, for lines
    [mid] of a buffer [pre ++ mid ++ post], the file holds the lines of
    [mid] that are not ghosts, in order, ghost lines leaving nothing;
    each is followed by its marker, except that the buffer's last real
    line (when [post] has only ghosts) is written without one.  A temp
    file goes to the path itself, with escaped text; a user file goes to
    the intermediate file, unescaped. *)
Theorem SaveToFile_written_lines (w w1 : World) (pszFileName : string)
    (bTempFile : bool) (infoUnpacker : option PackingInfo) (nCrlfStyle : CRLFSTYLE)
    (nStartLine nLines : Z) (sIntermediateFilename : string)
    (pre mid post : list LineInfo) :
  m_aLines (w_buf w) = pre ++ mid ++ post →
  nStartLine = Z.of_nat (length pre) →
  nLines = Z.of_nat (length mid) ∨ (nLines = -1 ∧ post = []) →
  SaveToFile_write OPT_ALLOW_MIXED_EOL GetTemporaryFileName OpenCreate
    w pszFileName bTempFile infoUnpacker nCrlfStyle nStartLine nLines
  = Written sIntermediateFilename w1 →
  let style :=
    SaveToFile_crlf_style OPT_ALLOW_MIXED_EOL nCrlfStyle infoUnpacker (w_buf w) in
  w_fs w1 !! (if bTempFile then pszFileName else sIntermediateFilename)
  = Some (if bool_decide (Forall (λ li, is_ghost li = true) post)
          then joined_lines bTempFile style (real_lines mid)
          else terminated_lines bTempFile style (real_lines mid)).
Proof. apply SaveToFile_write_content. Qed.
End SavedText.

Lemma SaveToFile_written_lines_witness :
  ∃ w1,
    @SaveToFile_write MergeLineFlags true sample_temp_name sample_open
      sample_world "out.txt" true None CRLF_STYLE_DOS 0 (-1)
    = Written EmptyString w1
    ∧ w_fs w1 !! "out.txt"%string = Some [97; 13; 10].
Proof.
  eexists. split; [reflexivity |].
  apply (@SaveToFile_written_lines MergeLineFlags true sample_temp_name sample_open
           sample_world _ "out.txt" true None CRLF_STYLE_DOS 0 (-1) EmptyString
           [] (m_aLines sample_buffer) []).
  - reflexivity.
  - reflexivity.
  - right. split; reflexivity.
  - reflexivity.
Defined.

(** ** Save pipeline: outcomes *)

Lemma TFile_remove_frame path w w' :
  TFile_remove path w = Some w' →
  w_buf w' = w_buf w ∧ w_doc w' = w_doc w ∧ w_events w' = w_events w
  ∧ w_fs w' = delete path (w_fs w).
Proof.
  unfold TFile_remove. destruct (w_fs w !! path); [| done].
  by intros [= <-].
Qed.

Lemma TFile_copyTo_frame path dest w w' :
  TFile_copyTo path dest w = Some w' →
  w_buf w' = w_buf w ∧ w_doc w' = w_doc w ∧ w_events w' = w_events w
  ∧ ∃ content, w_fs w !! path = Some content ∧ w_fs w' = <[dest := content]> (w_fs w).
Proof.
  unfold TFile_copyTo. destruct (w_fs w !! path) as [content |]; [| done].
  intros [= <-]. split_and!; try done. by exists content.
Qed.

Section SaveOutcomes.
Context `{LineFlags}.
Variable OPT_ALLOW_MIXED_EOL : bool.
Variable GetTemporaryFileName : string → gmap string String → string.
Variable OpenCreate : string → gmap string String → bool.
Variable FileTransform_Packing :
  string → PackingInfo → gmap string String → bool * string * gmap string String.

Lemma SaveToFile_write_frame w pszFileName bTempFile infoUnpacker nCrlfStyle
    nStartLine nLines sIntermediateFilename w1 :
  SaveToFile_write OPT_ALLOW_MIXED_EOL GetTemporaryFileName OpenCreate
    w pszFileName bTempFile infoUnpacker nCrlfStyle nStartLine nLines
  = Written sIntermediateFilename w1 →
  w_buf w1 = w_buf w ∧ w_doc w1 = w_doc w ∧ w_events w1 = w_events w
  ∧ pszFileName ≠ EmptyString
  ∧ ∃ content,
      w_fs w1
      = <[(if bTempFile then pszFileName else sIntermediateFilename) := content]> (w_fs w).
Proof.
  unfold SaveToFile_write. cbv zeta.
  case_bool_decide; [done |].
  destruct bTempFile; cbn [negb andb].
  - destruct (OpenCreate _ _); [| done]. cbn [negb].
    intros [= <- <-]. split_and!; try done. by eexists.
  - case_bool_decide; [done |].
    destruct (OpenCreate _ _); [| done]. cbn [negb].
    intros [= <- <-]. split_and!; try done. by eexists.
Qed.


(** X12: whatever the collaborators do, [SaveToFile] never changes the
    lines, the recorded EOL style, the undo position or the sync points;
    unless it returns SAVE_DONE it leaves buffer and document untouched;
    and when it returns SAVE_DONE with [bClearModifiedFlag] set, both
    modified flags are cleared and the sync position is the undo
    position. *)
Theorem SaveToFile_buffer_effects w pszFileName bTempFile infoUnpacker nCrlfStyle
    bClearModifiedFlag nStartLine nLines result w' infoUnpacker' :
  SaveToFile OPT_ALLOW_MIXED_EOL GetTemporaryFileName OpenCreate FileTransform_Packing
    w pszFileName bTempFile infoUnpacker nCrlfStyle bClearModifiedFlag nStartLine nLines
  = Some (result, w', infoUnpacker') →
  m_aLines (w_buf w') = m_aLines (w_buf w)
  ∧ m_nCRLFMode (w_buf w') = m_nCRLFMode (w_buf w)
  ∧ m_nUndoPosition (w_buf w') = m_nUndoPosition (w_buf w)
  ∧ doc_syncpoints (w_doc w') = doc_syncpoints (w_doc w)
  ∧ (result ≠ SAVE_DONE → w_buf w' = w_buf w ∧ w_doc w' = w_doc w)
  ∧ (result = SAVE_DONE → bClearModifiedFlag = true →
     m_bModified (w_buf w') = false
     ∧ doc_modified (w_doc w') = false
     ∧ m_nSyncPosition (w_buf w') = m_nUndoPosition (w_buf w))
  ∧ (result = SAVE_DONE → bClearModifiedFlag = false →
     m_bModified (w_buf w') = m_bModified (w_buf w)
     ∧ m_nSyncPosition (w_buf w') = m_nSyncPosition (w_buf w)).
Proof.
  unfold SaveToFile.
  destruct (SaveToFile_write _ _ _ _ _ _ _ _ _ _) as [r w0 | tmp w1] eqn:Hwrite.
  { (* early return *)
    intros [= <- <- <-].
    unfold SaveToFile_write in Hwrite. cbv zeta in Hwrite.
    repeat (case_bool_decide || case_match); simplify_eq; done. }
  destruct (SaveToFile_write_frame _ _ _ _ _ _ _ _ _ Hwrite)
    as (Hbuf & Hdoc & _ & _ & _).
  destruct bTempFile; cbn [negb].
  { intros [= <- <- <-].
    destruct bClearModifiedFlag; cbn; rewrite ?Hbuf, ?Hdoc; split_and!; done. }
  destruct infoUnpacker as [info |]; [| done].
  unfold SaveToFile_pack. cbv zeta. rewrite Hbuf.
  destruct (FileTransform_Packing _ _ _) as [[ok cs] fs2].
  destruct ok; cbn [negb].
  - (* the pack transform accepted the content *)
    set (w2 := if bool_decide (cs ≠ tmp) then try_remove tmp (set_fs w1 fs2)
               else set_fs w1 fs2).
    assert (w_buf w2 = w_buf w ∧ w_doc w2 = w_doc w) as [Hbuf2 Hdoc2].
    { subst w2. case_bool_decide.
      - destruct (try_remove_spec tmp (set_fs w1 fs2)) as (-> & -> & _). by simpl.
      - by simpl. }
    destruct (TFile_copyTo cs pszFileName w2) as [w3 |] eqn:Hcopy.
    + apply TFile_copyTo_frame in Hcopy as (Hbuf3 & Hdoc3 & _).
      destruct (TFile_remove cs w3) as [w4 |] eqn:Hremove.
      * apply TFile_remove_frame in Hremove as (Hbuf4 & Hdoc4 & _).
        intros [= <- <- <-].
        destruct bClearModifiedFlag; cbn;
          rewrite ?Hbuf4, ?Hdoc4, ?Hbuf3, ?Hdoc3, ?Hbuf2, ?Hdoc2; split_and!; done.
      * intros [= <- <- <-]. cbn.
        rewrite ?Hbuf3, ?Hdoc3, ?Hbuf2, ?Hdoc2. split_and!; done.
    + intros [= <- <- <-]. cbn. rewrite ?Hbuf2, ?Hdoc2. split_and!; done.
  - (* the pack transform failed *)
    intros [= <- <- <-].
    destruct (try_remove_spec tmp (set_fs w1 fs2)) as (-> & -> & _).
    cbn. rewrite Hbuf, Hdoc. split_and!; done.
Qed.
End SaveOutcomes.


Lemma SaveToFile_buffer_effects_witness :
  ∃ w',
    @SaveToFile MergeLineFlags true sample_temp_name sample_open failing_pack
      sample_world "out.txt" true None CRLF_STYLE_DOS true 0 (-1)
    = Some (SAVE_DONE, w', None)
    ∧ m_aLines (w_buf w') = m_aLines (w_buf sample_world).
Proof.
  eexists. split; [reflexivity |].
  eapply (@SaveToFile_buffer_effects MergeLineFlags true sample_temp_name sample_open
            failing_pack sample_world "out.txt" true None CRLF_STYLE_DOS true 0 (-1)
            SAVE_DONE _ None).
  reflexivity.
Defined.

(** ** Save pipeline: the files *)

Section SaveFiles.
Context `{LineFlags}.
Variable OPT_ALLOW_MIXED_EOL : bool.
Variable GetTemporaryFileName : string → gmap string String → string.
Variable OpenCreate : string → gmap string String → bool.
Variable FileTransform_Packing :
  string → PackingInfo → gmap string String → bool * string * gmap string String.

(** X13: saving a temp file for the diff engine, once the file is
    opened, returns SAVE_DONE, writes that file and no other, calls no
    pack transform (its packing information comes back unchanged), logs
    nothing and does not record the revision number of the save. *)
Theorem SaveToFile_temp_file w pszFileName infoUnpacker nCrlfStyle
    bClearModifiedFlag nStartLine nLines :
  pszFileName ≠ EmptyString →
  OpenCreate pszFileName (w_fs w) = true →
  ∃ w' content,
    SaveToFile OPT_ALLOW_MIXED_EOL GetTemporaryFileName OpenCreate FileTransform_Packing
      w pszFileName true infoUnpacker nCrlfStyle bClearModifiedFlag nStartLine nLines
    = Some (SAVE_DONE, w', infoUnpacker)
    ∧ w_fs w' = <[pszFileName := content]> (w_fs w)
    ∧ w_events w' = w_events w
    ∧ m_dwRevisionNumberOnSave (w_buf w') = m_dwRevisionNumberOnSave (w_buf w).
Proof.
  intros Hname Hopen. unfold SaveToFile, SaveToFile_write. cbv zeta.
  rewrite bool_decide_eq_false_2 by done. cbn [negb andb]. rewrite Hopen. cbn [negb].
  eexists _, _. split; [reflexivity |].
  by destruct bClearModifiedFlag.
Qed.

(** X14: when the save of a user file reaches the pack step, the pack
    transform accepts and leaves the packed content in a file other than
    the destination, [SaveToFile] returns SAVE_DONE, the destination
    holds the packed content, the packed file and the intermediate file
    are gone, every other file is as the pack transform left it, and the
    revision number of the save is the current one. *)
Theorem SaveToFile_user_file_done w pszFileName infoUnpacker nCrlfStyle
    bClearModifiedFlag nStartLine nLines sIntermediateFilename w1 csTempFileName fs2
    content :
  SaveToFile_write OPT_ALLOW_MIXED_EOL GetTemporaryFileName OpenCreate
    w pszFileName false (Some infoUnpacker) nCrlfStyle nStartLine nLines
  = Written sIntermediateFilename w1 →
  FileTransform_Packing sIntermediateFilename
    (mk_PackingInfo (m_unpackerSubcode (w_buf w)) (disallowMixedEOL infoUnpacker))
    (w_fs w1)
  = (true, csTempFileName, fs2) →
  fs2 !! csTempFileName = Some content →
  csTempFileName ≠ pszFileName →
  sIntermediateFilename ≠ pszFileName →
  ∃ w' info',
    SaveToFile OPT_ALLOW_MIXED_EOL GetTemporaryFileName OpenCreate FileTransform_Packing
      w pszFileName false (Some infoUnpacker) nCrlfStyle bClearModifiedFlag
      nStartLine nLines
    = Some (SAVE_DONE, w', Some info')
    ∧ w_fs w' !! pszFileName = Some content
    ∧ w_fs w' !! csTempFileName = None
    ∧ w_fs w' !! sIntermediateFilename = None
    ∧ (∀ other, other ≠ pszFileName → other ≠ csTempFileName →
         other ≠ sIntermediateFilename → w_fs w' !! other = fs2 !! other)
    ∧ m_dwRevisionNumberOnSave (w_buf w') = m_dwCurrentRevisionNumber (w_buf w)
    ∧ subcode info' = m_unpackerSubcode (w_buf w).
Proof.
  intros Hwrite Hpack Hpacked Hcs Htmp.
  destruct (SaveToFile_write_user_file _ _ _ _ _ _ _ _ _ _ _ Hwrite)
    as (_ & Hbuf & Hdoc & _ & _).
  unfold SaveToFile. rewrite Hwrite. cbn [negb].
  unfold SaveToFile_pack. cbv zeta. rewrite Hbuf, Hpack. cbn [negb].
  set (w2 := if bool_decide (csTempFileName ≠ sIntermediateFilename)
             then try_remove sIntermediateFilename (set_fs w1 fs2)
             else set_fs w1 fs2).
  assert (w_buf w2 = w_buf w
          ∧ w_fs w2 !! csTempFileName = Some content
          ∧ (csTempFileName ≠ sIntermediateFilename →
             w_fs w2 !! sIntermediateFilename = None)
          ∧ ∀ other, other ≠ sIntermediateFilename → w_fs w2 !! other = fs2 !! other)
    as (Hbuf2 & Hcontent & Hgone & Hother).
  { subst w2. case_bool_decide as Hsame.
    - destruct (try_remove_spec sIntermediateFilename (set_fs w1 fs2))
        as (-> & _ & Hnone & Hkeep).
      split_and!; [done | by rewrite Hkeep | done | done].
    - subst. by split_and!. }
  unfold TFile_copyTo. rewrite Hcontent.
  unfold TFile_remove. cbn [w_fs set_fs].
  rewrite lookup_insert_ne, Hcontent by done.
  eexists _, _. split; [reflexivity |].
  assert (∀ w0 : World,
            w_fs (remember_revision
                    (if bClearModifiedFlag
                     then sync_undo_position (SetModified w0 false) else w0))
            = w_fs w0
            ∧ m_dwRevisionNumberOnSave
                (w_buf (remember_revision
                          (if bClearModifiedFlag
                           then sync_undo_position (SetModified w0 false) else w0)))
              = m_dwCurrentRevisionNumber (w_buf w0)) as Hbook
    by (intros w0; by destruct bClearModifiedFlag).
  destruct (Hbook (set_fs (set_fs w2 (<[pszFileName := content]> (w_fs w2)))
                     (delete csTempFileName (<[pszFileName := content]> (w_fs w2)))))
    as [-> ->].
  cbn [w_fs w_buf set_fs subcode]. rewrite Hbuf2.
  split_and!; try done.
  - by rewrite lookup_delete_ne, lookup_insert_eq.
  - apply lookup_delete_eq.
  - destruct (decide (csTempFileName = sIntermediateFilename)) as [-> | Hne].
    + apply lookup_delete_eq.
    + rewrite lookup_delete_ne, lookup_insert_ne by done. by apply Hgone.
  - intros other Hdest Hpackedne Htmpne.
    rewrite lookup_delete_ne, lookup_insert_ne by done. by apply Hother.
Qed.

(** X15: when the pack transform accepts but the packed file is not
    there to be copied, [SaveToFile] returns SAVE_FAILED and logs the
    failure; the destination is as the pack transform left it, and
    buffer and document are untouched. *)
Theorem SaveToFile_replace_failure w pszFileName infoUnpacker nCrlfStyle
    bClearModifiedFlag nStartLine nLines sIntermediateFilename w1 csTempFileName fs2 :
  SaveToFile_write OPT_ALLOW_MIXED_EOL GetTemporaryFileName OpenCreate
    w pszFileName false (Some infoUnpacker) nCrlfStyle nStartLine nLines
  = Written sIntermediateFilename w1 →
  FileTransform_Packing sIntermediateFilename
    (mk_PackingInfo (m_unpackerSubcode (w_buf w)) (disallowMixedEOL infoUnpacker))
    (w_fs w1)
  = (true, csTempFileName, fs2) →
  fs2 !! csTempFileName = None →
  sIntermediateFilename ≠ pszFileName →
  ∃ w' info',
    SaveToFile OPT_ALLOW_MIXED_EOL GetTemporaryFileName OpenCreate FileTransform_Packing
      w pszFileName false (Some infoUnpacker) nCrlfStyle bClearModifiedFlag
      nStartLine nLines
    = Some (SAVE_FAILED, w', Some info')
    ∧ w_fs w' !! pszFileName = fs2 !! pszFileName
    ∧ w_buf w' = w_buf w
    ∧ w_doc w' = w_doc w
    ∧ EvLogError csTempFileName ∈ w_events w'.
Proof.
  intros Hwrite Hpack Hpacked Htmp.
  destruct (SaveToFile_write_user_file _ _ _ _ _ _ _ _ _ _ _ Hwrite)
    as (_ & Hbuf & Hdoc & _ & _).
  unfold SaveToFile. rewrite Hwrite. cbn [negb].
  unfold SaveToFile_pack. cbv zeta. rewrite Hbuf, Hpack. cbn [negb].
  set (w2 := if bool_decide (csTempFileName ≠ sIntermediateFilename)
             then try_remove sIntermediateFilename (set_fs w1 fs2)
             else set_fs w1 fs2).
  assert (w_buf w2 = w_buf w ∧ w_doc w2 = w_doc w
          ∧ w_fs w2 !! csTempFileName = None
          ∧ w_fs w2 !! pszFileName = fs2 !! pszFileName)
    as (Hbuf2 & Hdoc2 & Hnone & Hdest).
  { subst w2. case_bool_decide as Hsame.
    - destruct (try_remove_spec sIntermediateFilename (set_fs w1 fs2))
        as (-> & -> & _ & Hkeep).
      split_and!; [done | done | by rewrite Hkeep | by rewrite Hkeep].
    - by split_and!. }
  unfold TFile_copyTo. rewrite Hnone.
  eexists _, _. split; [reflexivity |].
  cbn [w_fs w_buf w_doc w_events add_event].
  split_and!; try done.
  apply elem_of_app. right. by left.
Qed.
End SaveFiles.

Lemma SaveToFile_temp_file_witness :
  ∃ w' content,
    @SaveToFile MergeLineFlags true sample_temp_name sample_open failing_pack
      sample_world "out.txt" true None CRLF_STYLE_DOS false 0 (-1)
    = Some (SAVE_DONE, w', None)
    ∧ w_fs w' = <["out.txt"%string := content]> (w_fs sample_world)
    ∧ w_events w' = w_events sample_world
    ∧ m_dwRevisionNumberOnSave (w_buf w')
      = m_dwRevisionNumberOnSave (w_buf sample_world).
Proof.
  apply (@SaveToFile_temp_file MergeLineFlags true sample_temp_name sample_open
           failing_pack sample_world "out.txt" None CRLF_STYLE_DOS false 0 (-1)).
  - discriminate.
  - reflexivity.
Defined.

Lemma SaveToFile_user_file_done_witness :
  ∃ w' info',
    @SaveToFile MergeLineFlags true sample_temp_name sample_open accepting_pack
      sample_world "merged.txt" false (Some (mk_PackingInfo 7 false))
      CRLF_STYLE_AUTOMATIC true 0 (-1)
    = Some (SAVE_DONE, w', Some info')
    ∧ w_fs w' !! "merged.txt"%string = Some [97; 10]
    ∧ w_fs w' !! "MRG_1.tmp"%string = None
    ∧ w_fs w' !! "MRG_1.tmp"%string = None
    ∧ (∀ other, other ≠ "merged.txt"%string → other ≠ "MRG_1.tmp"%string →
         other ≠ "MRG_1.tmp"%string →
         w_fs w' !! other
         = <["MRG_1.tmp"%string := [97; 10]]> (w_fs sample_world) !! other)
    ∧ m_dwRevisionNumberOnSave (w_buf w')
      = m_dwCurrentRevisionNumber (w_buf sample_world)
    ∧ subcode info' = m_unpackerSubcode (w_buf sample_world).
Proof.
  eapply (@SaveToFile_user_file_done MergeLineFlags true sample_temp_name sample_open
            accepting_pack sample_world "merged.txt" (mk_PackingInfo 7 false)
            CRLF_STYLE_AUTOMATIC true 0 (-1)).
  - reflexivity.
  - reflexivity.
  - reflexivity.
  - discriminate.
  - discriminate.
Defined.

Lemma SaveToFile_replace_failure_witness :
  ∃ w' info',
    @SaveToFile MergeLineFlags true sample_temp_name sample_open vanishing_pack
      sample_world "merged.txt" false (Some (mk_PackingInfo 7 false))
      CRLF_STYLE_AUTOMATIC true 0 (-1)
    = Some (SAVE_FAILED, w', Some info')
    ∧ w_fs w' !! "merged.txt"%string
      = <["MRG_1.tmp"%string := [97; 10]]> (w_fs sample_world) !! "merged.txt"%string
    ∧ w_buf w' = w_buf sample_world
    ∧ w_doc w' = w_doc sample_world
    ∧ EvLogError "gone.pak" ∈ w_events w'.
Proof.
  eapply (@SaveToFile_replace_failure MergeLineFlags true sample_temp_name sample_open
            vanishing_pack sample_world "merged.txt" (mk_PackingInfo 7 false)
            CRLF_STYLE_AUTOMATIC true 0 (-1)).
  - reflexivity.
  - reflexivity.
  - reflexivity.
  - discriminate.
Defined.

(** ** Load then save *)

Lemma scan_line_chars (chars : String) :
  ∀ text eol rest,
    scan_line chars = (text, eol, rest) → chars = text ++ eol ++ rest.
Proof.
  induction chars as [| c chars IH]; intros text eol rest.
  - by intros [= <- <- <-].
  - cbn [scan_line].
    destruct (Z.eqb_spec c LF) as [-> | _]; [by intros [= <- <- <-] |].
    destruct (Z.eqb_spec c CR) as [-> | _].
    + destruct chars as [| c' chars']; [by intros [= <- <- <-] |].
      destruct (Z.eqb_spec c' LF) as [-> | _]; by intros [= <- <- <-].
    + destruct (scan_line chars) as [[text' eol'] rest'].
      intros [= <- <- <-]. by rewrite (IH text' eol' rest').
Qed.

(** The modelled reader plays a script on every content: the reads, put
    end to end, are the content; every read but the last has a marker;
    and the reader ends with one count per marker. *)
Lemma UniMemFile_script (n : nat) :
  ∀ content stats,
    (length content ≤ n)%nat →
    ∃ script,
      plays_to UniMemFile_ReadString (mk_UniMemFile content stats) script
        (mk_UniMemFile [] (script_stats script stats))
      ∧ Forall well_formed_read script
      ∧ (length script ≤ length content)%nat
      ∧ script_chars script = content
      ∧ terminated_but_last script.
Proof.
  induction n as [| n IH]; intros content stats Hlen.
  - destruct content; [| simpl in Hlen; lia].
    exists []. split_and!; [by eapply plays_to_done | by constructor | done | done | done].
  - destruct content as [| c content].
    + exists []. split_and!; [by eapply plays_to_done | by constructor | done | done | done].
    + destruct (scan_line_spec (c :: content))
        as (text & eol & rest & Hscan & Hwf & Hshort); [done |].
      destruct (IH rest (count_eol eol stats))
        as (script & Hplays & Hwfs & Hcount & Hchars & Hterm); [simpl in *; lia |].
      exists ((text, eol) :: script). split_and!.
      * eapply plays_to_read; [| exact Hplays].
        unfold UniMemFile_ReadString. cbn [um_rest um_stats]. by rewrite Hscan.
      * by constructor.
      * simpl in *. lia.
      * unfold script_chars in *. rewrite bind_cons, Hchars. cbn [fst snd].
        rewrite (scan_line_chars _ _ _ _ Hscan). by rewrite <- app_assoc.
      * split; [| done]. cbn [snd]. intros Hmore ->.
        (* a read without marker has consumed the whole content *)
        assert (rest = []) as ->.
        { clear -Hscan. revert text Hscan.
          induction (c :: content) as [| c' chars IHc]; intros text.
          - by intros [= _ <-].
          - cbn [scan_line].
            destruct (c' =? LF); [by intros [= _ ?] |].
            destruct (c' =? CR).
            + destruct chars as [| c'' chars'']; [by intros [= _ ?] |].
              destruct (c'' =? LF); by intros [= _ ?].
            + destruct (scan_line chars) as [[text' eol'] rest'] eqn:Hs.
              intros [= _ -> ->]. by eapply IHc. }
        inversion Hplays as [? ? ? Hread | ? ? ? ? ? ? ? Hread]; subst; [done |].
        unfold UniMemFile_ReadString in Hread. by cbn in Hread.
Qed.

Lemma plays_to_plays {Reader : Type} (ReadString : Reader → ReadResult * Reader)
    (r r' : Reader) (script : list (String * String)) :
  plays_to ReadString r script r' → plays ReadString r script.
Proof.
  induction 1 as [r r' lossy Hread | r r1 r' text eol lossy script Hread _ IH].
  - by eapply plays_done.
  - by eapply plays_read.
Qed.

(** The reader the loop hands back is the one the script leaves. *)
Lemma load_loop_reader {Reader : Type} (ReadString : Reader → ReadResult * Reader)
    (r r' : Reader) (script : list (String * String)) :
  plays_to ReadString r script r' →
  ∀ fuel lineno arraysize lines preveol pufile' lineno' lines',
    load_loop ReadString fuel r lineno arraysize lines preveol
    = Some (pufile', lineno', lines') →
    pufile' = r'.
Proof.
  induction 1 as [r r' lossy Hread | r r1 r' text eol lossy script Hread _ IH];
    intros [| fuel] lineno arraysize lines preveol pufile' lineno' lines'; try done;
    cbn [load_loop]; rewrite Hread; cbn [rr_more rr_line rr_eol negb andb].
  - case_bool_decide; by intros [= <- _ _].
  - apply IH.
Qed.

(** Written with their own markers, the lines of a script are its
    characters. *)
Lemma joined_lines_script (script : list (String * String)) :
  ∀ preveol,
    joined_lines false CRLF_STYLE_AUTOMATIC (lines_of_script preveol script)
    = script_chars script.
Proof.
  induction script as [| [text eol] script IH]; intros preveol.
  - rewrite lines_of_script_nil. by case_bool_decide.
  - rewrite lines_of_script_cons. unfold script_chars. rewrite bind_cons.
    fold (script_chars script). rewrite <- (IH eol). cbn [fst snd].
    destruct (lines_of_script eol script) as [| li rest] eqn:Hrest.
    + destruct script as [| [text' eol'] script'];
        [| by rewrite lines_of_script_cons in Hrest].
      rewrite lines_of_script_nil in Hrest. case_bool_decide; [| done].
      subst eol. by rewrite !app_nil_r.
    + rewrite joined_lines_cons by done. by rewrite <- app_assoc.
Qed.

Lemma filter_all_on {A} (P : A → Prop) `{!∀ x, Decision (P x)} (l : list A) :
  (∀ x, x ∈ l → P x) → filter P l = l.
Proof.
  induction l as [| a l IH]; intros HP; [done |].
  rewrite filter_cons_True by (apply HP; by left).
  rewrite IH; [done |]. intros x Hx. apply HP. by right.
Qed.

Lemma real_lines_script `{LineFlags} (script : list (String * String)) (preveol : String) :
  real_lines (lines_of_script preveol script) = lines_of_script preveol script.
Proof.
  unfold real_lines. apply filter_all_on. intros li Hli.
  unfold lines_of_script in Hli. apply elem_of_app in Hli as [Hli | Hli].
  - apply list_elem_of_fmap in Hli as (rd & -> & _). by unfold is_ghost.
  - case_bool_decide; [by apply elem_of_nil in Hli |].
    apply list_elem_of_singleton in Hli as ->. by unfold is_ghost.
Qed.

Lemma count_eol_mono (eol : String) (st : txtstats) :
  ncrlfs st ≤ ncrlfs (count_eol eol st)
  ∧ ncrs st ≤ ncrs (count_eol eol st)
  ∧ nlfs st ≤ nlfs (count_eol eol st).
Proof.
  unfold count_eol. destruct eol as [| c [| c' [| ? ?]]]; simpl; try lia.
  destruct (c =? CR); simpl; lia.
Qed.

Lemma script_stats_mono (script : list (String * String)) :
  ∀ st,
    ncrlfs st ≤ ncrlfs (script_stats script st)
    ∧ ncrs st ≤ ncrs (script_stats script st)
    ∧ nlfs st ≤ nlfs (script_stats script st).
Proof.
  induction script as [| rd script IH]; intros st; [simpl; lia |].
  unfold script_stats. cbn [foldl]. fold (script_stats script (count_eol rd.2 st)).
  pose proof (IH (count_eol rd.2 st)). pose proof (count_eol_mono rd.2 st). lia.
Qed.

(** A marker that was read has been counted. *)
Lemma script_stats_marker (script : list (String * String)) (rd : String * String) :
  ∀ st,
    rd ∈ script →
    (rd.2 = [CR; LF] → ncrlfs st < ncrlfs (script_stats script st))
    ∧ (rd.2 = [CR] → ncrs st < ncrs (script_stats script st))
    ∧ (rd.2 = [LF] → nlfs st < nlfs (script_stats script st)).
Proof.
  induction script as [| rd' script IH]; intros st Hin.
  - by apply elem_of_nil in Hin.
  - unfold script_stats. cbn [foldl]. fold (script_stats script (count_eol rd'.2 st)).
    pose proof (script_stats_mono script (count_eol rd'.2 st)) as Hmono.
    pose proof (count_eol_mono rd'.2 st) as Hstep.
    apply elem_of_cons in Hin as [<- | Hin].
    + split_and!; intros Heq; rewrite Heq in *; simpl in *; lia.
    + specialize (IH (count_eol rd'.2 st) Hin).
      split_and!; intros Heq; [apply IH in Heq | apply IH in Heq | apply IH in Heq]; lia.
Qed.

(** In a file of one EOL style, every marker read is the style's. *)
Lemma pure_style_marker (script : list (String * String)) (rd : String * String) :
  rd ∈ script →
  is_eol_marker rd.2 →
  rd.2 ≠ [] →
  GetTextFileStyle (script_stats script (mk_txtstats 0 0 0 0)) ≠ CRLF_STYLE_MIXED →
  rd.2 = GetStringEol (GetTextFileStyle (script_stats script (mk_txtstats 0 0 0 0))).
Proof.
  intros Hin Hmarker Hne Hpure.
  pose proof (script_stats_mono script (mk_txtstats 0 0 0 0)) as Hmono.
  pose proof (script_stats_marker script rd (mk_txtstats 0 0 0 0) Hin) as Hcount.
  revert Hpure. unfold GetTextFileStyle, IsTextFileStylePure.
  set (stats := script_stats script (mk_txtstats 0 0 0 0)) in *.
  simpl in Hmono, Hcount.
  destruct Hmarker as [? | [Heq | [Heq | Heq]]]; [done | | |];
    destruct Hcount as (Hcrlf & Hcr & Hlf);
    first [specialize (Hcrlf Heq) | specialize (Hcr Heq) | specialize (Hlf Heq)];
    rewrite Heq;
    destruct (Z.ltb_spec 0 (ncrlfs stats)), (Z.ltb_spec 0 (ncrs stats)),
      (Z.ltb_spec 0 (nlfs stats)); simpl; try lia; try done;
    destruct (Z.leb_spec (nlfs stats) (ncrlfs stats)),
      (Z.leb_spec (ncrs stats) (ncrlfs stats)),
      (Z.leb_spec (ncrs stats) (nlfs stats)); simpl; try lia; done.
Qed.

(** Written under a style that agrees with the markers read, the lines
    of a script are its characters. *)
Lemma joined_lines_script_style (nCrlfStyle : CRLFSTYLE)
    (script : list (String * String)) :
  ∀ preveol,
    terminated_but_last script →
    (∀ rd, rd ∈ script → rd.2 ≠ [] → written_eol nCrlfStyle (line_of_read rd) = rd.2) →
    joined_lines false nCrlfStyle (lines_of_script preveol script)
    = script_chars script.
Proof.
  induction script as [| [text eol] script IH]; intros preveol Hterm Hstyle.
  - rewrite lines_of_script_nil. by case_bool_decide.
  - destruct Hterm as [Hlast Hterm]. cbn [snd] in Hlast.
    rewrite lines_of_script_cons. unfold script_chars. rewrite bind_cons.
    fold (script_chars script). cbn [fst snd].
    rewrite <- (IH eol Hterm) by (intros rd Hrd; apply Hstyle; by right).
    destruct (lines_of_script eol script) as [| li rest] eqn:Hrest.
    + destruct script as [| [text' eol'] script'];
        [| by rewrite lines_of_script_cons in Hrest].
      rewrite lines_of_script_nil in Hrest. case_bool_decide; [| done].
      subst eol. by rewrite !app_nil_r.
    + rewrite joined_lines_cons by done.
      assert (eol ≠ []) as Heol.
      { intros ->. destruct script as [| rd script'].
        - rewrite lines_of_script_nil in Hrest. by rewrite bool_decide_eq_true_2 in Hrest.
        - by apply Hlast. }
      rewrite (Hstyle (text, eol)) by (by left || done).
      by rewrite <- app_assoc.
Qed.

Lemma load_lines_reader {Reader : Type} (ReadString : Reader → ReadResult * Reader)
    (r r' pufile' : Reader) (script : list (String * String)) (fuel : nat)
    (lines : list LineInfo) :
  plays_to ReadString r script r' →
  load_lines ReadString fuel r = Some (pufile', lines) →
  pufile' = r'.
Proof.
  intros Hplays. unfold load_lines.
  destruct (load_loop _ _ _ _ _ _ _) as [[[p n] l] |] eqn:Hloop; [| done].
  intros [= <- _]. by eapply load_loop_reader.
Qed.

(** Load then save, under any style the save may come to write with. *)
Lemma round_trip_content `{LineFlags} (OPT_ALLOW_MIXED_EOL : bool)
    (GetTemporaryFileName : string → gmap string String → string)
    (OpenCreate : string → gmap string String → bool)
    (content : String) (fuel : nat) (loadInfo : PackingInfo)
    (nLoadStyle nCrlfStyle : CRLFSTYLE) (buf0 : CDiffTextBuffer)
    (nRetVal : FRESULT) (lossy : bool) (w w1 : World)
    (pszFileName sIntermediateFilename : string) (infoUnpacker : option PackingInfo) :
  (length content < fuel)%nat →
  LoadFromFile UniMemFile_ReadString um_stats fuel true true loadInfo
    (UniMemFile_open content) nLoadStyle buf0
  = Some (nRetVal, lossy, w_buf w) →
  SaveToFile_write OPT_ALLOW_MIXED_EOL GetTemporaryFileName OpenCreate
    w pszFileName false infoUnpacker nCrlfStyle 0 (-1)
  = Written sIntermediateFilename w1 →
  SaveToFile_crlf_style OPT_ALLOW_MIXED_EOL nCrlfStyle infoUnpacker (w_buf w)
    = CRLF_STYLE_AUTOMATIC
  ∨ (nLoadStyle = CRLF_STYLE_AUTOMATIC
     ∧ SaveToFile_crlf_style OPT_ALLOW_MIXED_EOL nCrlfStyle infoUnpacker (w_buf w)
       = m_nCRLFMode (w_buf w)) →
  w_fs w1 !! sIntermediateFilename = Some content.
Proof.
  intros Hfuel Hload Hwrite Hstyle.
  destruct (UniMemFile_script (length content) content (mk_txtstats 0 0 0 0))
    as (script & Hplays & Hwf & Hcount & Hchars & Hterm); [done |].
  destruct (load_lines_spec UniMemFile_ReadString script fuel
              (UniMemFile_open content) (plays_to_plays _ _ _ _ Hplays) Hwf)
    as (pufile' & Hlines); [lia |].
  pose proof (load_lines_reader _ _ _ _ _ _ _ Hplays Hlines) as ->.
  unfold LoadFromFile in Hload. cbn [negb] in Hload. rewrite Hlines in Hload.
  injection Hload as _ _ Hbuf.
  assert (m_aLines (w_buf w) = lines_of_script [LF] script) as Hloaded
    by (by rewrite <- Hbuf).
  pose proof (SaveToFile_write_content OPT_ALLOW_MIXED_EOL GetTemporaryFileName
                OpenCreate w w1 pszFileName false infoUnpacker nCrlfStyle 0 (-1)
                sIntermediateFilename [] (lines_of_script [LF] script) []) as Hsaved.
  cbv zeta in Hsaved. rewrite Hsaved;
    [| by rewrite Hloaded, app_nil_r | done | right; by split | exact Hwrite].
  rewrite bool_decide_eq_true_2 by constructor.
  rewrite real_lines_script, <- Hchars. f_equal.
  apply joined_lines_script_style; [done |].
  intros rd Hrd Hne. unfold written_eol. cbn [li_eol line_of_read].
  destruct Hstyle as [-> | [-> ->]]; [done |].
  rewrite <- Hbuf. cbn [m_nCRLFMode um_stats].
  rewrite decide_True by done.
  destruct (decide (GetTextFileStyle (script_stats script (mk_txtstats 0 0 0 0))
                    = CRLF_STYLE_MIXED)) as [-> | Hpure]; [done |].
  rewrite Forall_forall in Hwf. destruct (Hwf rd Hrd) as [_ Hmarker].
  rewrite <- (pure_style_marker script rd Hrd Hmarker Hne Hpure).
  pose proof (GetTextFileStyle_cases (script_stats script (mk_txtstats 0 0 0 0)))
    as [Hauto _].
  by rewrite !bool_decide_eq_false_2.
Qed.

(** X16: loading a file and saving the buffer as it was loaded gives the
    content back.  The content is read through the modelled reader; the
    save is the write stage of a user-file save of the whole buffer with
    the AUTOMATIC style, mixed EOL allowed by the option and not
    disallowed by the pack transform: the intermediate file then holds
    the content character for character. *)
Theorem LoadFromFile_SaveToFile_round_trip `{LineFlags}
    (GetTemporaryFileName : string → gmap string String → string)
    (OpenCreate : string → gmap string String → bool)
    (content : String) (fuel : nat) (loadInfo : PackingInfo)
    (nCrlfStyle : CRLFSTYLE) (buf0 : CDiffTextBuffer)
    (nRetVal : FRESULT) (lossy : bool) (w w1 : World)
    (pszFileName sIntermediateFilename : string) (infoUnpacker : option PackingInfo) :
  (length content < fuel)%nat →
  LoadFromFile UniMemFile_ReadString um_stats fuel true true loadInfo
    (UniMemFile_open content) nCrlfStyle buf0
  = Some (nRetVal, lossy, w_buf w) →
  (∀ info, infoUnpacker = Some info → disallowMixedEOL info = false) →
  SaveToFile_write true GetTemporaryFileName OpenCreate
    w pszFileName false infoUnpacker CRLF_STYLE_AUTOMATIC 0 (-1)
  = Written sIntermediateFilename w1 →
  w_fs w1 !! sIntermediateFilename = Some content.
Proof.
  intros Hfuel Hload Hmixed Hwrite.
  eapply round_trip_content; [exact Hfuel | exact Hload | exact Hwrite |].
  left. unfold SaveToFile_crlf_style. cbn [negb andb orb].
  rewrite andb_false_r. cbn [orb].
  destruct infoUnpacker as [info |]; [| done].
  by rewrite (Hmixed info).
Qed.

Lemma LoadFromFile_SaveToFile_round_trip_witness :
  ∃ w1,
    @SaveToFile_write MergeLineFlags true sample_temp_name sample_open
      (mk_World
         (mk_buffer
            [mk_LineInfo [97] [CR; LF] 0 0; mk_LineInfo [98] [LF] 0 0;
             mk_LineInfo [99] [] 0 0]
            true false CRLF_STYLE_MIXED 0 0 0 0 0%nat 0 EmptyString)
         (mk_doc false []) ∅ [])
      "merged.txt" false None CRLF_STYLE_AUTOMATIC 0 (-1)
    = Written "MRG_1.tmp" w1
    ∧ w_fs w1 !! "MRG_1.tmp"%string = Some [97; 13; 10; 98; 10; 99].
Proof.
  eexists. split; [reflexivity |].
  eapply (@LoadFromFile_SaveToFile_round_trip MergeLineFlags sample_temp_name
            sample_open [97; 13; 10; 98; 10; 99] 7 (mk_PackingInfo 0 false)
            CRLF_STYLE_AUTOMATIC fresh_buffer FRESULT_OK_IMPURE false
            (mk_World
               (mk_buffer
                  [mk_LineInfo [97] [CR; LF] 0 0; mk_LineInfo [98] [LF] 0 0;
                   mk_LineInfo [99] [] 0 0]
                  true false CRLF_STYLE_MIXED 0 0 0 0 0%nat 0 EmptyString)
               (mk_doc false []) ∅ [])
            _ "merged.txt" "MRG_1.tmp" None).
  - simpl. lia.
  - by vm_compute.
  - intros info Hinfo. discriminate.
  - reflexivity.
Defined.

(** X17: a file loaded with EOL detection (style AUTOMATIC) and saved
    with the AUTOMATIC style comes back character for character under
    every setting of the mixed-EOL option and every pack constraint: when
    the buffer's recorded style is substituted, it is the one style of
    the file's markers, or MIXED, which keeps each line's own marker. *)
Theorem LoadFromFile_SaveToFile_detected_style `{LineFlags}
    (OPT_ALLOW_MIXED_EOL : bool)
    (GetTemporaryFileName : string → gmap string String → string)
    (OpenCreate : string → gmap string String → bool)
    (content : String) (fuel : nat) (loadInfo : PackingInfo) (buf0 : CDiffTextBuffer)
    (nRetVal : FRESULT) (lossy : bool) (w w1 : World)
    (pszFileName sIntermediateFilename : string) (infoUnpacker : option PackingInfo) :
  (length content < fuel)%nat →
  LoadFromFile UniMemFile_ReadString um_stats fuel true true loadInfo
    (UniMemFile_open content) CRLF_STYLE_AUTOMATIC buf0
  = Some (nRetVal, lossy, w_buf w) →
  SaveToFile_write OPT_ALLOW_MIXED_EOL GetTemporaryFileName OpenCreate
    w pszFileName false infoUnpacker CRLF_STYLE_AUTOMATIC 0 (-1)
  = Written sIntermediateFilename w1 →
  w_fs w1 !! sIntermediateFilename = Some content.
Proof.
  intros Hfuel Hload Hwrite.
  eapply round_trip_content; [exact Hfuel | exact Hload | exact Hwrite |].
  unfold SaveToFile_crlf_style, GetCRLFMode.
  destruct (_ || _); [right; by split | by left].
Qed.

Lemma LoadFromFile_SaveToFile_detected_style_witness :
  ∃ w1,
    @SaveToFile_write MergeLineFlags false sample_temp_name sample_open
      (mk_World
         (mk_buffer
            [mk_LineInfo [97] [CR] 0 0; mk_LineInfo [98] [CR] 0 0;
             mk_LineInfo [] [] 0 0]
            true false CRLF_STYLE_MAC 0 0 0 0 0%nat 0 EmptyString)
         (mk_doc false []) ∅ [])
      "merged.txt" false (Some (mk_PackingInfo 0 true)) CRLF_STYLE_AUTOMATIC 0 (-1)
    = Written "MRG_1.tmp" w1
    ∧ w_fs w1 !! "MRG_1.tmp"%string = Some [97; 13; 98; 13].
Proof.
  eexists. split; [reflexivity |].
  eapply (@LoadFromFile_SaveToFile_detected_style MergeLineFlags false sample_temp_name
            sample_open [97; 13; 98; 13] 5 (mk_PackingInfo 0 false) fresh_buffer
            FRESULT_OK false
            (mk_World
               (mk_buffer
                  [mk_LineInfo [97] [CR] 0 0; mk_LineInfo [98] [CR] 0 0;
                   mk_LineInfo [] [] 0 0]
                  true false CRLF_STYLE_MAC 0 0 0 0 0%nat 0 EmptyString)
               (mk_doc false []) ∅ [])
            _ "merged.txt" "MRG_1.tmp" (Some (mk_PackingInfo 0 true))).
  - simpl. lia.
  - by vm_compute.
  - reflexivity.
Defined.

(** ** Edit integration: deletes inside a line *)

Lemma filter_none {A} (P : A → Prop) `{!∀ x, Decision (P x)} (l : list A) :
  (∀ x, ¬ P x) → filter P l = [].
Proof.
  intros HP. induction l as [| a l IH]; [done |].
  by rewrite filter_cons_False.
Qed.

(** X18: a delete that ends on or before its start line (in particular
    a delete inside one line) invalidates no sync point: the registered
    sync points stay, and the only call made is the textual delete. *)
Theorem DeleteText2_within_line
    (CGhostTextBuffer_DeleteText2 :
       CDiffTextBuffer → Z → Z → Z → Z → bool * CDiffTextBuffer)
    (w : World) (nStartLine nStartChar nEndLine nEndChar : Z) :
  nEndLine ≤ nStartLine →
  doc_syncpoints
    (w_doc (DeleteText2 CGhostTextBuffer_DeleteText2 w
              nStartLine nStartChar nEndLine nEndChar).2)
  = doc_syncpoints (w_doc w)
  ∧ w_events (DeleteText2 CGhostTextBuffer_DeleteText2 w
                nStartLine nStartChar nEndLine nEndChar).2
    = w_events w ++ [EvDeleteText nStartLine nStartChar nEndLine nEndChar].
Proof.
  intros Hrange. unfold DeleteText2.
  destruct (DeleteText2_loop (m_nThisPane (w_buf w)) nStartLine nStartChar nEndLine
              (GetSyncPointList (w_doc w)) w) as (Hbuf & Hfs & Hmod & Hev & Hsp).
  cbv zeta in Hbuf, Hfs, Hmod, Hev, Hsp.
  assert (∀ sp, ¬ in_deleted_range (m_nThisPane (w_buf w)) nStartLine nStartChar
                    nEndLine sp) as Hout
    by (intros sp [[[_ ?] | ?] ?]; lia).
  rewrite Hbuf.
  destruct (CGhostTextBuffer_DeleteText2 _ _ _ _ _) as [r buf]. cbn [snd w_doc w_events].
  rewrite Hev, Hsp, (filter_none _ _ Hout), app_nil_r.
  split; [| done].
  apply filter_all. intros sp [Hin _]. by apply (Hout sp).
Qed.

Lemma DeleteText2_within_line_witness :
  doc_syncpoints (w_doc (DeleteText2 sample_delete sample_world 4 0 4 9).2)
  = doc_syncpoints (w_doc sample_world)
  ∧ w_events (DeleteText2 sample_delete sample_world 4 0 4 9).2
    = w_events sample_world ++ [EvDeleteText 4 0 4 9].
Proof. apply (DeleteText2_within_line sample_delete sample_world 4 0 4 9). lia. Defined.

(** ** Folder compare progress bar *)

(** One timer message: the previous state never moves back, a bar that
    reported ready stays ready with its timer as it was, and the timer
    changes only in the message that reports ready. *)
Lemma OnTimer_cases (bar : DirCompProgressBar) (nIDEvent : Z) (stats : CompareStats) :
  (state_rank (m_prevState bar)
   ≤ state_rank (m_prevState (OnTimer bar nIDEvent stats)))%nat
  ∧ (m_bCompareReady bar = true →
     m_bCompareReady (OnTimer bar nIDEvent stats) = true
     ∧ timer_set (OnTimer bar nIDEvent stats) = timer_set bar)
  ∧ (m_bCompareReady (OnTimer bar nIDEvent stats) = false →
     m_bCompareReady bar = false
     ∧ timer_set (OnTimer bar nIDEvent stats) = timer_set bar)
  ∧ (m_bCompareReady bar = false →
     m_bCompareReady (OnTimer bar nIDEvent stats) = true →
     nIDEvent = IDT_UPDATE
     ∧ GetCompareState stats = STATE_IDLE
     ∧ IsCompareDone stats = true
     ∧ OnTimer bar nIDEvent stats
       = mk_bar true STATE_COMPARE (GetComparedItems stats) (GetComparedItems stats)
           (GetTotalItems stats) (IDC_PATH_COMPARING bar) false).
Proof.
  destruct bar as [ready prev pos compared total path timer].
  destruct stats as [state nTotal nCompared isDone cur].
  unfold OnTimer. cbn [m_prevState m_bCompareReady GetCompareState GetTotalItems
                       GetComparedItems IsCompareDone GetCurDiffItem].
  destruct (Z.eqb_spec nIDEvent IDT_UPDATE) as [-> | Hid];
    [| split_and!; cbn; first [lia | done | congruence]].
  destruct prev, state, ready, isDone, cur; split_and!; vm_compute;
    first [lia | done | congruence].
Qed.

(** X19: a timer message never moves [m_prevState] back (IDLE, START,
    COMPARE in this order), never takes [m_bCompareReady] back, and
    changes the timer only when it reports the compare ready: then the
    statistics are idle and done, the timer is stopped and the item
    counts shown are those of the statistics. *)
Theorem OnTimer_step (bar : DirCompProgressBar) (nIDEvent : Z) (stats : CompareStats) :
  (state_rank (m_prevState bar)
   ≤ state_rank (m_prevState (OnTimer bar nIDEvent stats)))%nat
  ∧ (m_bCompareReady bar = true →
     m_bCompareReady (OnTimer bar nIDEvent stats) = true
     ∧ timer_set (OnTimer bar nIDEvent stats) = timer_set bar)
  ∧ (m_bCompareReady (OnTimer bar nIDEvent stats) = false →
     m_bCompareReady bar = false
     ∧ timer_set (OnTimer bar nIDEvent stats) = timer_set bar)
  ∧ (m_bCompareReady bar = false →
     m_bCompareReady (OnTimer bar nIDEvent stats) = true →
     nIDEvent = IDT_UPDATE
     ∧ GetCompareState stats = STATE_IDLE
     ∧ IsCompareDone stats = true
     ∧ OnTimer bar nIDEvent stats
       = mk_bar true STATE_COMPARE (GetComparedItems stats) (GetComparedItems stats)
           (GetTotalItems stats) (IDC_PATH_COMPARING bar) false).
Proof. apply OnTimer_cases. Qed.

(** X20: from [StartUpdating] on a new dialog and through any run of
    timer messages, the update timer is set exactly as long as the
    compare has not been reported ready, and once it has, the previous
    state is COMPARE. *)
Theorem run_timer_invariant (ticks : list (Z * CompareStats)) :
  timer_set (run_timer (StartUpdating new_DirCompProgressBar) ticks)
  = negb (m_bCompareReady (run_timer (StartUpdating new_DirCompProgressBar) ticks))
  ∧ (m_bCompareReady (run_timer (StartUpdating new_DirCompProgressBar) ticks) = true →
     m_prevState (run_timer (StartUpdating new_DirCompProgressBar) ticks)
     = STATE_COMPARE).
Proof.
  unfold run_timer.
  induction ticks as [| [nIDEvent stats] ticks IH] using rev_ind; [done |].
  rewrite foldl_app. cbn [foldl fst snd].
  set (bar := foldl (λ bar tick, OnTimer bar tick.1 tick.2)
                (StartUpdating new_DirCompProgressBar) ticks) in *.
  destruct IH as [Htimer Hprev].
  destruct (OnTimer_cases bar nIDEvent stats) as (Hrank & Hready & Hnot & Hturn).
  destruct (m_bCompareReady bar) eqn:Hbar.
  - destruct (Hready eq_refl) as [-> ->]. split; [done |]. intros _.
    specialize (Hprev eq_refl). rewrite Hprev in Hrank.
    by destruct (m_prevState (OnTimer bar nIDEvent stats)); simpl in Hrank; try lia.
  - destruct (m_bCompareReady (OnTimer bar nIDEvent stats)) eqn:Hafter.
    + destruct (Hturn eq_refl eq_refl) as (_ & _ & _ & ->). by split.
    + destruct (Hnot eq_refl) as [_ ->]. by split.
Qed.

(** X21: [StartUpdating] does not take [m_bCompareReady] back, so on a
    dialog that has once reported ready, restarted or not, no run of
    timer messages reports ready a second time or changes the timer. *)
Theorem run_timer_after_ready (bar : DirCompProgressBar)
    (ticks : list (Z * CompareStats)) :
  m_bCompareReady bar = true →
  m_bCompareReady (run_timer (StartUpdating bar) ticks) = true
  ∧ timer_set (run_timer (StartUpdating bar) ticks) = true
  ∧ m_bCompareReady (run_timer bar ticks) = true
  ∧ timer_set (run_timer bar ticks) = timer_set bar.
Proof.
  intros Hready.
  assert (∀ start, m_bCompareReady start = true →
            m_bCompareReady (run_timer start ticks) = true
            ∧ timer_set (run_timer start ticks) = timer_set start) as Hrun.
  { intros start Hstart. unfold run_timer.
    induction ticks as [| [nIDEvent stats] ticks IH] using rev_ind; [done |].
    rewrite foldl_app. cbn [foldl fst snd]. destruct IH as [IHready IHtimer].
    destruct (OnTimer_cases
                (foldl (λ bar tick, OnTimer bar tick.1 tick.2) start ticks)
                nIDEvent stats) as (_ & Hkeep & _).
    destruct (Hkeep IHready) as [-> ->]. by split. }
  destruct (Hrun (StartUpdating bar)) as [-> ->]; [by destruct bar |].
  destruct (Hrun bar Hready) as [-> ->]. done.
Qed.

Lemma run_timer_after_ready_witness :
  m_bCompareReady
    (run_timer (StartUpdating (mk_bar true STATE_COMPARE 5 5 5 EmptyString false))
       [(1, mk_CompareStats STATE_IDLE 9 9 true None)]) = true
  ∧ timer_set
      (run_timer (StartUpdating (mk_bar true STATE_COMPARE 5 5 5 EmptyString false))
         [(1, mk_CompareStats STATE_IDLE 9 9 true None)]) = true
  ∧ m_bCompareReady
      (run_timer (mk_bar true STATE_COMPARE 5 5 5 EmptyString false)
         [(1, mk_CompareStats STATE_IDLE 9 9 true None)]) = true
  ∧ timer_set
      (run_timer (mk_bar true STATE_COMPARE 5 5 5 EmptyString false)
         [(1, mk_CompareStats STATE_IDLE 9 9 true None)])
    = timer_set (mk_bar true STATE_COMPARE 5 5 5 EmptyString false).
Proof.
  apply (run_timer_after_ready (mk_bar true STATE_COMPARE 5 5 5 EmptyString false)
           [(1, mk_CompareStats STATE_IDLE 9 9 true None)]).
  reflexivity.
Defined.
